(** * ClickUp reminders: reminder delivery and callback reconciliation

    A shallow embedding of the parts of [reminder_system.py],
    [core/engine.py] and [telegram_reminder_service.py] that decide the
    behaviour of the completion ledger, the response classifier, the
    due-date rescheduling, the working-hours gate and the callback
    de-duplication, followed by the theorems about them.

    Conventions.
    - Python [str] is [string] (UTF-8 bytes); the five status tokens keep the
      spelling they have in the source.
    - A timezone-aware [datetime] is a wall clock reading in microseconds
      together with the UTC offset attached to it; [timedelta] arithmetic
      acts on the wall clock and keeps the offset, as [datetime.__add__]
      does.
    - External collaborators (the tracker's HTTP API, the completion oracle,
      the [ClickUpClient] class, Python builtins whose full behaviour is not
      needed) are parameters: every theorem holds for each of their
      behaviours.
    - Exceptions are explicit: a call that can raise returns [option] or
      [outcome]; effects on the outside world are recorded in a trace.
    - Writing to the log ([_log], [LOGGER]) and sending a chat message are
      taken to succeed and leave no mark other than the events of the
      trace. *)

From Stdlib Require Import ZArith QArith Qround String Ascii List Lia Bool.
From stdpp Require Import base gmap strings list.
Close Scope Q_scope.
Local Open Scope Z_scope.

(** ** Python builtins *)

Module Py.

(** Builtins whose result is taken from the interpreter.  [py_int] is
    [int(s)] ([None] for [ValueError]); [py_strip] and [py_upper] are
    [str.strip] and [str.upper]; [json_loads] is [json.loads] ([None] for
    [JSONDecodeError]); [strftime_seconds] is
    [strftime('%Y-%m-%d %H:%M:%S')] of a wall clock reading. *)
#[warnings="-register-all"]
Inductive json : Type :=
| JNull
| JBool (b : bool)
| JNum (z : Z)
| JStr (s : string)
| JArr (items : list json)
| JObj (fields : list (string * json)).

Class Runtime := {
  py_int : string -> option Z;
  py_strip : string -> string;
  py_upper : string -> string;
  json_loads : string -> option json;
  strftime_seconds : Z -> string
}.

Definition startswith (s p : string) : bool := String.prefix p s.

Fixpoint drop_chars (n : nat) (s : string) : string :=
  match n, s with
  | O, _ => s
  | S _, EmptyString => EmptyString
  | S k, String _ rest => drop_chars k rest
  end.

(** [s.split(sep)] for a non-empty separator: [skip] counts the characters
    of a separator occurrence that are still to be passed over, [cur] is the
    piece being collected. *)
Fixpoint split_go (sep : string) (skip : nat) (cur : string) (s : string)
  : list string :=
  match s with
  | EmptyString => [cur]
  | String c rest =>
      match skip with
      | S k => split_go sep k cur rest
      | O =>
          if String.prefix sep s
          then cur :: split_go sep (Nat.pred (String.length sep)) EmptyString rest
          else split_go sep O (cur ++ String c EmptyString)%string rest
      end
  end.

Definition split (s sep : string) : list string := split_go sep O EmptyString s.

(** [s.count(sep)]: the number of non-overlapping occurrences. *)
Definition count (s sep : string) : nat := Nat.pred (List.length (split s sep)).

(** [needle in haystack] for two [str]. *)
Fixpoint contains (haystack needle : string) : bool :=
  String.prefix needle haystack ||
  match haystack with
  | EmptyString => false
  | String _ rest => contains rest needle
  end.

(** Dictionaries with [str] keys keep insertion order; [dict_set] is
    [d[k] = v]. *)
Fixpoint dict_get {A} (d : list (string * A)) (k : string) : option A :=
  match d with
  | [] => None
  | (k', v) :: rest => if String.eqb k' k then Some v else dict_get rest k
  end.

Fixpoint dict_set {A} (d : list (string * A)) (k : string) (v : A)
  : list (string * A) :=
  match d with
  | [] => [(k, v)]
  | (k', v') :: rest =>
      if String.eqb k' k then (k', v) :: rest else (k', v') :: dict_set rest k v
  end.

Definition dict_has {A} (d : list (string * A)) (k : string) : bool :=
  match dict_get d k with Some _ => true | None => false end.

End Py.

(** ** Wall clock time *)

Module Clock.

Definition US_PER_MS : Z := 1000.
Definition US_PER_MINUTE : Z := 60000000.
Definition US_PER_HOUR : Z := 3600000000.
Definition US_PER_DAY : Z := 86400000000.

(** An aware [datetime]: [wall] counts microseconds of local wall clock time
    since 1970-01-01 00:00 local, [utcoff] is the offset of the attached
    [tzinfo] in microseconds. *)
Record datetime := { wall : Z; utcoff : Z }.

(** A timezone gives the offset in force at a UTC instant. *)
Definition tzinfo := Z -> Z.

(** [datetime.fromtimestamp(us / 10**6, tz)] *)
Definition fromtimestamp_us (tz : tzinfo) (utc_us : Z) : datetime :=
  {| wall := utc_us + tz utc_us; utcoff := tz utc_us |}.

(** The instant denoted, in microseconds since the epoch. *)
Definition instant (d : datetime) : Z := wall d - utcoff d.

(** [int(d.timestamp() * 1000)] *)
Definition timestamp_ms (d : datetime) : Z := Z.quot (instant d) US_PER_MS.

Definition hour (d : datetime) : Z := (wall d / US_PER_HOUR) mod 24.
Definition minute (d : datetime) : Z := (wall d / US_PER_MINUTE) mod 60.
Definition day_number (d : datetime) : Z := wall d / US_PER_DAY.
Definition time_of_day (d : datetime) : Z := wall d mod US_PER_DAY.

(** [d.weekday()], Monday is 0; 1970-01-01 was a Thursday. *)
Definition weekday (d : datetime) : Z := (day_number d + 3) mod 7.

(** [timedelta(hours=h)], rounded half to even on the microsecond. *)
Definition timedelta_hours (h : Q) : Z :=
  let x := Qmult h (inject_Z US_PER_HOUR) in
  let f := Qfloor x in
  let r := Qminus x (inject_Z f) in
  match Qcompare r (1 # 2) with
  | Lt => f
  | Gt => f + 1
  | Eq => if Z.even f then f else f + 1
  end.

Definition add_us (d : datetime) (delta : Z) : datetime :=
  {| wall := wall d + delta; utcoff := utcoff d |}.

Definition add_days (d : datetime) (n : Z) : datetime := add_us d (n * US_PER_DAY).

(** [d.replace(hour=h, minute=0)]: seconds and microseconds are kept;
    [None] is the [ValueError] for an hour outside 0..23. *)
Definition replace_hour_minute0 (d : datetime) (h : Z) : option datetime :=
  if (0 <=? h) && (h <=? 23)
  then Some {| wall := wall d - time_of_day d + h * US_PER_HOUR
                       + wall d mod US_PER_MINUTE;
               utcoff := utcoff d |}
  else None.

(** [d.replace(hour=h, minute=m, second=0, microsecond=0)] *)
Definition replace_hms0 (d : datetime) (h m : Z) : option datetime :=
  if (0 <=? h) && (h <=? 23) && (0 <=? m) && (m <=? 59)
  then Some {| wall := wall d - time_of_day d + h * US_PER_HOUR + m * US_PER_MINUTE;
               utcoff := utcoff d |}
  else None.

End Clock.

(** ** The voice orchestrator, [reminder_system.py] *)

Module ReminderSystem.
Import Py Clock.

(** The five status tokens the classifier is asked to answer with. *)
Definition DONE : string := "ВЫПОЛНЕНО".
Definition NOT_DONE : string := "НЕ_ВЫПОЛНЕНО".
Definition IN_PROGRESS : string := "В_РАБОТЕ".
Definition CALL_BACK : string := "ПЕРЕЗВОНИТЬ".
Definition UNCLEAR : string := "НЕЯСНО".

Definition labels : list string := [DONE; NOT_DONE; IN_PROGRESS; CALL_BACK; UNCLEAR].

Definition is_label (s : string) : bool := bool_decide (s ∈ labels).

(** *** Completion ledger ([completed_tasks.json]) *)

Record CompletionRecord := { cr_name : string; cr_completed_at : Z }.

Abbreviation ledger := (gmap string CompletionRecord).

(** [_save_completed_tasks(completed_tasks)]: an error while writing the
    file is logged and swallowed, the file then keeps what it held. *)
Definition _save_completed_tasks (writable : bool) (completed_tasks old : ledger)
  : ledger :=
  if writable then completed_tasks else old.

Definition _mark_task_completed (writable : bool) (task_id task_name : string)
    (now : datetime) (completed_tasks : ledger) : ledger :=
  _save_completed_tasks writable
    (<[task_id := {| cr_name := task_name; cr_completed_at := instant now |}]>
       completed_tasks)
    completed_tasks.

Definition _is_task_completed (task_id : string) (completed_tasks : ledger) : bool :=
  bool_decide (is_Some (completed_tasks !! task_id)).

(** *** Configuration *)

(** A [start]/[end] value is an [int] hour or a [str] such as ["10:00"]. *)
Inductive hour_value := HInt (h : Z) | HStr (s : string).

Record working_hours_cfg := {
  wh_start : option hour_value;
  wh_end : option hour_value;
  wh_working_days : option (list Z);
  wh_days : option (list Z)
}.

Record config := {
  working_hours : working_hours_cfg;
  (** ["reminder_settings" in config], and its [interval_hours] if set *)
  reminder_settings : option (option Q);
  reminder_intervals : gmap string Q;
  status_mapping : gmap string string;
  workspace_id : option string;
  reminders_list_name : string;
  (** [_is_telegram_notification_enabled] per notification type *)
  notify_status_updates : bool;
  notify_errors : bool
}.

(** *** Tracker payloads *)

(** A task as the tracker returns it; an absent key is [None]. *)
Record raw_task := {
  task_id : string;
  task_name : option string;
  task_due_date : option string;
  task_description : option string;
  task_priority : option string
}.

(** [update_task_in_clickup] accepts a dict or anything else. *)
Inductive task_data := TaskDict (t : raw_task) | TaskOther.

(** The body of the PUT request: [description] always, the others if set. *)
Record update_data := {
  ud_description : string;
  ud_status : option string;
  ud_due_date : option Z
}.

Inductive put_outcome := PutStatus (code : Z) | PutRaises.

Record list_item := { list_id : string; list_name : string }.

(** The tracker's HTTP API as seen by one operation; [None] is any
    exception of the request, of [raise_for_status] or of reading the
    expected key of the response. *)
Record tracker := {
  get_spaces : string -> option (list string);
  get_folders : string -> option (list string);
  get_space_lists : string -> option (list list_item);
  get_folder_lists : string -> option (list list_item);
  get_list_tasks : string -> option (list raw_task);
  put_task : string -> update_data -> put_outcome
}.

(** *** World: the ledger file and the trace of outward effects *)

Inductive event :=
| EvLedgerWrite (task_id task_name : string)
| EvPut (task_id : string) (payload : update_data)
| EvTelegramStatusUpdate (task_id : string)
| EvTelegramError (task_id : string)
| EvFetchTasks
| EvBatchCall (recipient phone : string) (task_ids : list string).

(** [completed] is what [_load_completed_tasks] reads; [ledger_writable]
    tells whether the file can be written. *)
Record world := { completed : ledger; ledger_writable : bool; trace : list event }.

Definition emit (e : event) (w : world) : world :=
  {| completed := completed w; ledger_writable := ledger_writable w;
     trace := trace w ++ [e] |}.

Inductive outcome := Returned | Raised.


(** *** Working hours *)

Section WithRuntime.
Context `{Runtime}.

(** [_parse_time_string(value, default)] *)
Definition _parse_time_string (value : option string) (default : Z * Z) : Z * Z :=
  match value with
  | None => default
  | Some EmptyString => default
  | Some s =>
      match split s ":" with
      | [p0; p1] =>
          match py_int p0, py_int p1 with
          | Some hh, Some mm => (hh, mm)
          | _, _ => default
          end
      | _ => default
      end
  end.

(** The [(hour, minute)] pair [_is_working_hours] reads from a
    [start]/[end] value. *)
Definition resolve_time (v : option hour_value) (default : Z * Z) : Z * Z :=
  match v with
  | Some (HInt h) => (h, 0)
  | Some (HStr s) => _parse_time_string (Some s) default
  | None => _parse_time_string None default
  end.

(** [working_hours.get("working_days") or working_hours.get("days", [])] *)
Definition gate_working_days (wh : working_hours_cfg) : list Z :=
  match wh_working_days wh with
  | Some (d :: ds) => d :: ds
  | _ => match wh_days wh with Some l => l | None => [] end
  end.

Definition in_days (d : Z) (days : list Z) : bool := bool_decide (d ∈ days).

(** [_is_working_hours()]; [None] is the [ValueError] of [replace]. *)
Definition _is_working_hours (cfg : config) (now : datetime) : option bool :=
  let wh := working_hours cfg in
  let working_days := gate_working_days wh in
  if negb (bool_decide (working_days = [])) && negb (in_days (weekday now) working_days)
  then Some false
  else
    let '(start_hour, start_minute) := resolve_time (wh_start wh) (10, 0) in
    let '(end_hour, end_minute) := resolve_time (wh_end wh) (18, 0) in
    match replace_hms0 now start_hour start_minute with
    | None => None
    | Some start_dt =>
        match replace_hms0 now end_hour end_minute with
        | None => None
        | Some end_dt =>
            Some ((wall start_dt <=? wall now) && (wall now <? wall end_dt))
        end
    end.

(** *** Fetching due tasks *)

Fixpoint foldM {A B} (f : B -> A -> option B) (l : list A) (acc : B) : option B :=
  match l with
  | [] => Some acc
  | x :: rest =>
      match f acc x with
      | Some acc' => foldM f rest acc'
      | None => None
      end
  end.

(** The body of the loop over the tasks of the reminders list. *)
Definition keep_due_task (completed_tasks : ledger) (now : datetime)
    (all_tasks : list raw_task) (task : raw_task) : option (list raw_task) :=
  match task_due_date task with
  | None => Some all_tasks
  | Some EmptyString => Some all_tasks
  | Some due_date =>
      match py_int due_date with
      | None => None
      | Some ms =>
          if ms * US_PER_MS <=? instant now
          then if negb (_is_task_completed (task_id task) completed_tasks)
               then Some (all_tasks ++ [task])
               else Some all_tasks
          else Some all_tasks
      end
  end.

Definition scan_list (tr : tracker) (cfg : config) (completed_tasks : ledger)
    (now : datetime) (all_tasks : list raw_task) (list_item : list_item)
  : option (list raw_task) :=
  if String.eqb (list_name list_item) (reminders_list_name cfg)
  then match get_list_tasks tr (list_id list_item) with
       | None => None
       | Some tasks => foldM (keep_due_task completed_tasks now) tasks all_tasks
       end
  else Some all_tasks.

Definition extend_lists (tr : tracker) (lists : list list_item) (folder : string)
  : option (list list_item) :=
  match get_folder_lists tr folder with
  | None => None
  | Some more => Some (lists ++ more)
  end.

Definition scan_space (tr : tracker) (cfg : config) (completed_tasks : ledger)
    (now : datetime) (all_tasks : list raw_task) (space : string)
  : option (list raw_task) :=
  match get_folders tr space with
  | None => None
  | Some folders =>
      match get_space_lists tr space with
      | None => None
      | Some lists =>
          match foldM (extend_lists tr) folders lists with
          | None => None
          | Some lists' => foldM (scan_list tr cfg completed_tasks now) lists' all_tasks
          end
      end
  end.

(** The [try] block of [get_tasks_for_reminder]; [None] is any exception
    raised inside it. *)
Definition get_tasks_try (tr : tracker) (cfg : config) (completed_tasks : ledger)
    (now : datetime) : option (list raw_task) :=
  match workspace_id cfg with
  | None => None
  | Some EmptyString => None
  | Some ws =>
      match get_spaces tr ws with
      | None => None
      | Some spaces => foldM (scan_space tr cfg completed_tasks now) spaces []
      end
  end.

(** [get_tasks_for_reminder()] *)
Definition get_tasks_for_reminder (tr : tracker) (cfg : config)
    (completed_tasks : ledger) (now : datetime) : list raw_task :=
  match get_tasks_try tr cfg completed_tasks now with
  | Some all_tasks => all_tasks
  | None => []
  end.

(** *** Response classifier *)

(** The completion request: [None] is any exception of the call (timeout,
    authentication, missing key, empty [choices]); [Some None] is an answer
    whose [content] is [None]. *)
Definition completion := option (option string).

(** [analyze_response_with_ai(transcribed_text, task_name)]; the oracle is
    the request made with the prompt built from both arguments. *)
Definition analyze_response_with_ai (oracle : string -> string -> completion)
    (transcribed_text task_name : string) : string :=
  match oracle transcribed_text task_name with
  | Some (Some content) => py_upper (py_strip content)
  | Some None => UNCLEAR
  | None => UNCLEAR
  end.

Definition fence : string := "```".

(** Removal of the markdown fence; [None] is the [IndexError] of [[1]]. *)
Definition strip_fences (result_text : string) : option string :=
  if startswith result_text fence
  then match split result_text fence with
       | _ :: inner :: _ =>
           if startswith inner "json" then Some (drop_chars 4 inner) else Some inner
       | _ => None
       end
  else Some result_text.

Definition json_is_str (s : string) (j : json) : bool :=
  match j with JStr s' => String.eqb s' s | _ => false end.

(** The loop [for task in tasks: if task["id"] not in result:
    result[task["id"]] = UNCLEAR] on whatever [json.loads] returned;
    [None] is a [TypeError]. *)
Fixpoint fill_missing (tasks : list raw_task) (result : json) : option json :=
  match tasks with
  | [] => Some result
  | task :: rest =>
      match result with
      | JObj d =>
          if dict_has d (task_id task) then fill_missing rest result
          else fill_missing rest (JObj (dict_set d (task_id task) (JStr UNCLEAR)))
      | JArr items =>
          if existsb (json_is_str (task_id task)) items then fill_missing rest result
          else None
      | JStr s =>
          if contains s (task_id task) then fill_missing rest result else None
      | JNull | JBool _ | JNum _ => None
      end
  end.

(** [{task["id"]: UNCLEAR for task in tasks}] *)
Definition all_unclear (tasks : list raw_task) : json :=
  JObj (fold_left (fun d task => dict_set d (task_id task) (JStr UNCLEAR)) tasks []).

Definition analyze_batch_try (oracle : string -> list raw_task -> completion)
    (transcribed_text : string) (tasks : list raw_task) : option json :=
  if forallb (fun task => bool_decide (is_Some (task_name task))) tasks
  then match oracle transcribed_text tasks with
       | Some (Some content) =>
           match strip_fences (py_strip content) with
           | Some result_text =>
               match json_loads result_text with
               | Some result => fill_missing tasks result
               | None => None
               end
           | None => None
           end
       | _ => None
       end
  else None.

(** [analyze_batch_response(transcribed_text, tasks)]: the value returned. *)
Definition analyze_batch_response (oracle : string -> list raw_task -> completion)
    (transcribed_text : string) (tasks : list raw_task) : json :=
  match analyze_batch_try oracle transcribed_text tasks with
  | Some result => result
  | None => all_unclear tasks
  end.

(** *** Applying a status to a task *)

Definition nl : string := String (ascii_of_nat 10) EmptyString.

Definition history_entry (now : datetime) (status : string) : string :=
  (nl ++ nl ++ "---" ++ nl ++ "**" ++ strftime_seconds (wall now)
   ++ "** - Статус: " ++ status)%string.

(** The hour [update_task_in_clickup] reads from a [start]/[end] value;
    [None] is the [ValueError] of [int]. *)
Definition hour_of (v : option hour_value) (default : Z) : option Z :=
  match v with
  | None => Some default
  | Some (HInt h) => Some h
  | Some (HStr s) =>
      match split s ":" with
      | p0 :: _ => py_int p0
      | [] => None
      end
  end.

Definition interval_hours (cfg : config) (status priority : string) : Q :=
  if String.eqb status IN_PROGRESS then 1%Q
  else if String.eqb status CALL_BACK then (1 # 2)%Q
  else match reminder_settings cfg with
       | Some (Some h) => h
       | Some None => 2%Q
       | None => default 3%Q (reminder_intervals cfg !! priority)
       end.

(** [while working_days and d.weekday() not in working_days: d += 1 day].
    [None]: no exit within [fuel] iterations. *)
Fixpoint skip_non_working (fuel : nat) (working_days : list Z) (d : datetime)
  : option datetime :=
  if bool_decide (working_days = []) || in_days (weekday d) working_days
  then Some d
  else match fuel with
       | O => None
       | S fuel' => skip_non_working fuel' working_days (add_days d 1)
       end.

(** The new due time for a non-[DONE] label.  [None] is an exception: the
    [ValueError] of [int] or [replace], or the loop over the days never
    finding a working day (it then runs until [datetime] overflows; seven
    iterations decide it, see [skip_non_working_seven]). *)
Definition reschedule (cfg : config) (now : datetime) (status priority : string)
  : option datetime :=
  let next_reminder := add_us now (timedelta_hours (interval_hours cfg status priority)) in
  let wh := working_hours cfg in
  match hour_of (wh_end wh) 18 with
  | None => None
  | Some end_hour =>
      match hour_of (wh_start wh) 10 with
      | None => None
      | Some start_hour =>
          if end_hour <=? hour next_reminder
          then match replace_hour_minute0 next_reminder start_hour with
               | None => None
               | Some moved =>
                   skip_non_working 7 (default [0; 1; 2; 3; 4] (wh_working_days wh))
                     (add_days moved 1)
               end
          else Some next_reminder
      end
  end.

Definition unknown_task_name : string := "Неизвестная задача".

Definition data_name (task_data : task_data) : string :=
  match task_data with
  | TaskDict t => default unknown_task_name (task_name t)
  | TaskOther => unknown_task_name
  end.

Definition data_description (task_data : task_data) : string :=
  match task_data with
  | TaskDict t => default EmptyString (task_description t)
  | TaskOther => EmptyString
  end.

Definition data_priority (task_data : task_data) : string :=
  match task_data with
  | TaskDict t => default "normal" (task_priority t)
  | TaskOther => "normal"
  end.

(** [update_data["status"]], if the key is set. *)
Definition status_field (cfg : config) (status : string) : option string :=
  match status_mapping cfg !! status with
  | Some (String c rest) => Some (String c rest)
  | _ => if String.eqb status DONE then Some "complete" else None
  end.

(** The PUT request and the notifications after it. *)
Definition send_update (tr : tracker) (cfg : config) (task_id : string)
    (payload : update_data) (w : world) : outcome * world :=
  let w1 := emit (EvPut task_id payload) w in
  match put_task tr task_id payload with
  | PutRaises => (Raised, w1)
  | PutStatus code =>
      if code =? 200
      then (Returned, if notify_status_updates cfg
                      then emit (EvTelegramStatusUpdate task_id) w1 else w1)
      else (Returned, if notify_errors cfg
                      then emit (EvTelegramError task_id) w1 else w1)
  end.

Definition reschedule_labels : list string := [NOT_DONE; IN_PROGRESS; UNCLEAR; CALL_BACK].

(** [update_task_in_clickup(task_id, status, task_data)] *)
Definition update_task_in_clickup (tr : tracker) (cfg : config) (now : datetime)
    (task_id status : string) (task_data : task_data) (w : world)
  : outcome * world :=
  if _is_task_completed task_id (completed w) then (Returned, w)
  else
    let new_description :=
      (data_description task_data ++ history_entry now status)%string in
    let update_status := status_field cfg status in
    if String.eqb status DONE
    then
      let task_name := data_name task_data in
      let w1 := emit (EvLedgerWrite task_id task_name)
                  {| completed := _mark_task_completed (ledger_writable w) task_id
                                    task_name now (completed w);
                     ledger_writable := ledger_writable w;
                     trace := trace w |} in
      send_update tr cfg task_id
        {| ud_description := new_description; ud_status := update_status;
           ud_due_date := None |} w1
    else if bool_decide (status ∈ reschedule_labels)
    then
      match reschedule cfg now status (data_priority task_data) with
      | None => (Raised, w)
      | Some next_reminder =>
          send_update tr cfg task_id
            {| ud_description := new_description; ud_status := update_status;
               ud_due_date := Some (timestamp_ms next_reminder) |} w
      end
    else
      send_update tr cfg task_id
        {| ud_description := new_description; ud_status := update_status;
           ud_due_date := None |} w.

(** *** The cycle *)

Section Run.
(** [_extract_recipient_name], the phone of [_get_contact_info] ([None] when
    the recipient is skipped) and [process_batch_tasks], whose exceptions
    [run] catches. *)
Variable _extract_recipient_name : string -> option string.
Variable contact_phone : string -> option string.
Variable process_batch_tasks : list raw_task -> string -> string -> world -> world.

Definition group_task (groups : list (string * list raw_task)) (task : raw_task)
  : option (list (string * list raw_task)) :=
  match task_name task with
  | None => None
  | Some name =>
      match _extract_recipient_name name with
      | None => Some groups
      | Some EmptyString => Some groups
      | Some recipient =>
          Some (dict_set groups recipient
                  (default [] (dict_get groups recipient) ++ [task]))
      end
  end.

Definition process_recipient (w : world) (group : string * list raw_task) : world :=
  match contact_phone (fst group) with
  | None => w
  | Some phone =>
      process_batch_tasks (snd group) (fst group) phone
        (emit (EvBatchCall (fst group) phone (map task_id (snd group))) w)
  end.

(** [run] after the working-hours check. *)
Definition cycle (tr : tracker) (cfg : config) (now : datetime) (w : world)
  : outcome * world :=
  let w1 := emit EvFetchTasks w in
  match get_tasks_for_reminder tr cfg (completed w1) now with
  | [] => (Returned, w1)
  | tasks =>
      match foldM group_task tasks [] with
      | None => (Raised, w1)
      | Some tasks_by_recipient =>
          (Returned, fold_left process_recipient tasks_by_recipient w1)
      end
  end.

(** [run(force)] *)
Definition run (force : bool) (tr : tracker) (cfg : config) (now : datetime)
    (w : world) : outcome * world :=
  if force then cycle tr cfg now w
  else match _is_working_hours cfg now with
       | None => (Raised, w)
       | Some false => (Returned, w)
       | Some true => cycle tr cfg now w
       end.

End Run.

End WithRuntime.

(** *** Observations on the tracker, the ledger and the trace *)

(** A request of the traversal that fails: the spaces of the workspace,
    the folders or the lists of a space, the lists of a folder, or the tasks
    of a list that carries the reminders name. *)
Inductive transport_error (tr : tracker) (cfg : config) : Prop :=
| spaces_request_fails ws :
    workspace_id cfg = Some ws -> get_spaces tr ws = None ->
    transport_error tr cfg
| folders_request_fails ws spaces space :
    workspace_id cfg = Some ws -> get_spaces tr ws = Some spaces ->
    space ∈ spaces -> get_folders tr space = None ->
    transport_error tr cfg
| lists_request_fails ws spaces space :
    workspace_id cfg = Some ws -> get_spaces tr ws = Some spaces ->
    space ∈ spaces -> get_space_lists tr space = None ->
    transport_error tr cfg
| folder_lists_request_fails ws spaces space folders folder :
    workspace_id cfg = Some ws -> get_spaces tr ws = Some spaces ->
    space ∈ spaces -> get_folders tr space = Some folders ->
    folder ∈ folders -> get_folder_lists tr folder = None ->
    transport_error tr cfg
| tasks_request_fails ws spaces space lists item :
    workspace_id cfg = Some ws -> get_spaces tr ws = Some spaces ->
    space ∈ spaces -> get_space_lists tr space = Some lists ->
    item ∈ lists -> list_name item = reminders_list_name cfg ->
    get_list_tasks tr (list_id item) = None ->
    transport_error tr cfg
| folder_tasks_request_fails ws spaces space folders folder more item :
    workspace_id cfg = Some ws -> get_spaces tr ws = Some spaces ->
    space ∈ spaces -> get_folders tr space = Some folders ->
    folder ∈ folders -> get_folder_lists tr folder = Some more ->
    item ∈ more -> list_name item = reminders_list_name cfg ->
    get_list_tasks tr (list_id item) = None ->
    transport_error tr cfg.

(** No task of the list has a record in the ledger. *)
Definition not_ledgered (completed_tasks : ledger) (tasks : list raw_task) : Prop :=
  forall task, task ∈ tasks -> _is_task_completed (task_id task) completed_tasks = false.

(** The notifications that follow a PUT request. *)
Definition is_notification (ev : event) : bool :=
  match ev with
  | EvTelegramStatusUpdate _ | EvTelegramError _ => true
  | _ => false
  end.


End ReminderSystem.

(** ** The tracker engine, [core/engine.py] *)

Module ClickUpEngine.
Import Py Clock.

(** A task as [ClickUpClient.fetch_tasks] returns it. *)
Record raw_task := {
  raw_id : string;
  raw_name : option string;
  (** [status.type], when the task carries a status object *)
  raw_status_type : option string;
  raw_due_date : option string
}.

Record ReminderTask := { task_id : string; name : string }.

(** [ClickUpClient]: the class is imported from a module that is not part
    of the sources, so its methods are parameters.  [None] ([false] for the
    methods without a result) is an exception. *)
Record ClickUpClient := {
  find_list_id : string -> option (option string);
  fetch_tasks : string -> option (list raw_task);
  update_task_status : string -> string -> option bool;
  add_comment : string -> string -> bool
}.

Record ReminderConfig := {
  reminders_list_id : option string;
  reminder_list_name : string
}.

(** What reaches the tracker. *)
Inductive event :=
| EvUpdateStatus (task_id status : string) (applied : bool)
| EvAddComment (task_id text : string) (posted : bool).

Section WithRuntime.
Context `{Runtime}.

Definition _normalize_task (task : raw_task) : ReminderTask :=
  {| task_id := raw_id task; name := default "Без названия" (raw_name task) |}.

Definition keep_pending (now : datetime) (pending : list ReminderTask)
    (task : raw_task) : option (list ReminderTask) :=
  if bool_decide (raw_status_type task = Some "closed") then Some pending
  else match raw_due_date task with
       | None => Some pending
       | Some EmptyString => Some pending
       | Some due_raw =>
           match py_int due_raw with
           | None => None
           | Some ms =>
               if instant now <? ms * US_PER_MS then Some pending
               else Some (pending ++ [_normalize_task task])
           end
       end.

Fixpoint collect (now : datetime) (raw_tasks : list raw_task)
    (pending : list ReminderTask) : option (list ReminderTask) :=
  match raw_tasks with
  | [] => Some pending
  | task :: rest =>
      match keep_pending now pending task with
      | Some pending' => collect now rest pending'
      | None => None
      end
  end.

(** [fetch_pending_reminders()]; [None] is an exception leaving it. *)
Definition fetch_pending_reminders (client : ClickUpClient) (config : ReminderConfig)
    (now : datetime) : option (list ReminderTask) :=
  let resolved :=
    match reminders_list_id config with
    | Some (String c rest) => Some (Some (String c rest))
    | _ => find_list_id client (reminder_list_name config)
    end in
  match resolved with
  | None => None
  | Some None => Some []
  | Some (Some EmptyString) => Some []
  | Some (Some list_id) =>
      match fetch_tasks client list_id with
      | None => None
      | Some raw_tasks => collect now raw_tasks []
      end
  end.

End WithRuntime.

Definition audit_comment (status : string) : string :=
  ("Статус обновлен через Reminder Engine: " ++ status)%string.

(** [update_task_status(task_id, status)]: the result and what it did. *)
Definition engine_update_task_status (client : ClickUpClient) (task_id status : string)
  : bool * list event :=
  match update_task_status client task_id status with
  | None => (false, [EvUpdateStatus task_id status false])
  | Some false => (false, [EvUpdateStatus task_id status false])
  | Some true =>
      let posted := add_comment client task_id (audit_comment status) in
      (posted, [EvUpdateStatus task_id status true;
                EvAddComment task_id (audit_comment status) posted])
  end.

(** A request of the engine's fetch that fails: the search for the list
    when no list id is configured, or the request for the tasks of the
    list. *)
Inductive engine_error (client : ClickUpClient)
    (config : ReminderConfig) : Prop :=
| find_list_fails :
    reminders_list_id config = None
    \/ reminders_list_id config = Some EmptyString ->
    find_list_id client (reminder_list_name config) = None ->
    engine_error client config
| fetch_configured_fails list_id :
    list_id <> EmptyString ->
    reminders_list_id config = Some list_id ->
    fetch_tasks client list_id = None ->
    engine_error client config
| fetch_found_fails list_id :
    list_id <> EmptyString ->
    reminders_list_id config = None
    \/ reminders_list_id config = Some EmptyString ->
    find_list_id client (reminder_list_name config)
    = Some (Some list_id) ->
    fetch_tasks client list_id = None ->
    engine_error client config.

End ClickUpEngine.

(** ** The chat service, [telegram_reminder_service.py] *)

Module TelegramReminderService.
Import Py Clock.

(** An entry of [status_action_map]: [postpone_hours] is the value after
    [float()], absent when the key is missing or not a number. *)
Record action := {
  action_key : string;
  action_operation : option string;
  action_postpone_hours : option Q
}.

(** One line of the callback decision log. *)
Record log_entry := {
  entry_callback_id : option string;
  entry_task_id : string;
  entry_action_code : string;
  entry_status_key : string;
  entry_success : bool;
  entry_postpone_hours : option Q
}.

(** The task as [fetch_task] returns it. *)
Record task_payload := {
  payload_due_date : option string;
  (** truth value of [due_date_time] as [_postpone_task_due_date] reads it *)
  payload_has_due_time : bool
}.

Record due_update := { due_date : Z; due_date_time : bool }.

(** [callback["data"]], [callback["id"]], the chat and the message. *)
Record callback := {
  cb_data : string;
  cb_id : option string;
  cb_chat_id : option string;
  cb_message_id : option Z
}.

Record settings := {
  (** [callback_log_path] is set *)
  callback_log_enabled : bool;
  callback_log_max_bytes : Z;
  callback_log_max_entries : Z;
  (** size in bytes of the line written for an entry *)
  entry_bytes : log_entry -> Z;
  status_action_map : gmap string action;
  status_mapping : gmap string string;
  timezone : tzinfo;
  configured_default_chat : option string;
  engine_config : ClickUpEngine.ReminderConfig
}.

(** What the outside world does during one call of a handler. *)
Record env := {
  now_utc : Z;
  engine_client : ClickUpEngine.ClickUpClient;
  (** [clickup_client.fetch_task]; [None] is an exception *)
  fetch_task : string -> option task_payload;
  (** [clickup_client.update_task]; [false] is an exception *)
  update_task : string -> due_update -> bool;
  (** [clickup_client.add_comment]; [false] is an exception *)
  post_comment : string -> bool;
  (** opening and writing the log file succeeds *)
  log_write_ok : bool
}.

Inductive event :=
| EvEngine (e : ClickUpEngine.event)
| EvFetchTask (task_id : string)
| EvUpdateTask (task_id : string) (payload : due_update) (applied : bool)
| EvPostponeComment (task_id : string) (posted : bool)
| EvLogAppend (entry : log_entry)
| EvAnswerCallback (callback_id : string)
| EvRemoveKeyboard (chat_id : string)
| EvSendMessage (chat_id : string).

(** The mutable state: the in-memory set, the log file ([None] while the
    file does not exist) and the trace. *)
Record service := {
  _processed_callback_ids : gset string;
  callback_log : option (list log_entry);
  trace : list event
}.

Definition emit (evs : list event) (s : service) : service :=
  {| _processed_callback_ids := _processed_callback_ids s;
     callback_log := callback_log s;
     trace := trace s ++ evs |}.

Inductive outcome := Returned | Raised.

Definition truthy (o : option string) : bool :=
  match o with Some (String _ _) => true | _ => false end.

(** *** Callback decision log *)

(** [_load_processed_callback_ids()] (blank and undecodable lines, which
    the loader skips, are not part of [callback_log]). *)
Definition loaded_ids (lines : list log_entry) : gset string :=
  foldr (fun entry processed =>
           if entry_success entry
           then match entry_callback_id entry with
                | Some (String c rest) => {[String c rest]} ∪ processed
                | _ => processed
                end
           else processed) ∅ lines.

Definition _load_processed_callback_ids (st : settings)
    (file : option (list log_entry)) : gset string :=
  if callback_log_enabled st
  then match file with Some lines => loaded_ids lines | None => ∅ end
  else ∅.

(** The service as [__init__] leaves it. *)
Definition startup (st : settings) (file : option (list log_entry)) : service :=
  {| _processed_callback_ids := _load_processed_callback_ids st file;
     callback_log := file;
     trace := [] |}.

Definition _is_callback_processed (callback_id : option string) (s : service) : bool :=
  match callback_id with
  | Some (String c rest) => bool_decide (String c rest ∈ _processed_callback_ids s)
  | _ => false
  end.

Definition file_bytes (st : settings) (lines : list log_entry) : Z :=
  foldr (fun entry total => entry_bytes st entry + total) 0 lines.

(** [deque(fh, maxlen=n)] *)
Definition tail_lines (n : Z) (lines : list log_entry) : list log_entry :=
  drop (length lines - Z.to_nat n) lines.

(** [_prune_callback_log_if_needed()] on the file. *)
Definition _prune_callback_log_if_needed (st : settings)
    (file : option (list log_entry)) : option (list log_entry) :=
  match file with
  | None => None
  | Some lines =>
      if callback_log_max_bytes st <=? 0 then None
      else if file_bytes st lines <=? callback_log_max_bytes st then Some lines
      else if callback_log_max_entries st <=? 0 then None
      else Some (tail_lines (callback_log_max_entries st) lines)
  end.

(** [_append_callback_log(entry)] *)
Definition _append_callback_log (st : settings) (e : env) (entry : log_entry)
    (s : service) : service :=
  if callback_log_enabled st
  then
    let pruned := _prune_callback_log_if_needed st (callback_log s) in
    if log_write_ok e
    then
      {| _processed_callback_ids :=
           if entry_success entry
           then match entry_callback_id entry with
                | Some (String c rest) =>
                    {[String c rest]} ∪ _processed_callback_ids s
                | _ => _processed_callback_ids s
                end
           else _processed_callback_ids s;
         callback_log := Some (default [] pruned ++ [entry]);
         trace := trace s ++ [EvLogAppend entry] |}
    else
      {| _processed_callback_ids := _processed_callback_ids s;
         callback_log := pruned;
         trace := trace s |}
  else s.

(** *** Tracker helpers *)

Section WithRuntime.
Context `{Runtime}.

(** [fetch_pending_tasks(limit)] *)
Definition slice_limit {A} (limit : Z) (l : list A) : list A :=
  if 0 <=? limit then take (Z.to_nat limit) l
  else take (length l - Z.to_nat (- limit)) l.

Definition fetch_pending_tasks (st : settings) (e : env) (limit : option Z)
  : list ClickUpEngine.ReminderTask :=
  match ClickUpEngine.fetch_pending_reminders (engine_client e) (engine_config st)
          (fromtimestamp_us (timezone st) (now_utc e)) with
  | None => []
  | Some pending =>
      match limit with
      | None => pending
      | Some 0 => pending
      | Some n => slice_limit n pending
      end
  end.

(** [update_clickup_status(task_id, status_key)]: it returns normally in
    every case. *)
Definition update_clickup_status (st : settings) (e : env)
    (task_id status_key : string) : list event :=
  match status_mapping st !! status_key with
  | Some (String c rest) =>
      map EvEngine
        (snd (ClickUpEngine.engine_update_task_status (engine_client e) task_id
                (String c rest)))
  | _ => []
  end.

Definition positive_hours (h : option Q) : bool :=
  match h with
  | Some q => match Qcompare 0 q with Lt => true | _ => false end
  | None => false
  end.

(** The date [_postpone_task_due_date] starts from and whether the task had
    one: the existing due date if it can be read, else now. *)
Definition postpone_base (st : settings) (e : env) (payload : option task_payload)
  : datetime * bool :=
  let now := fromtimestamp_us (timezone st) (now_utc e) in
  match payload with
  | Some p =>
      match payload_due_date p with
      | Some (String c rest) =>
          match py_int (String c rest) with
          | Some ms => (fromtimestamp_us (timezone st) (ms * US_PER_MS), true)
          | None => (now, false)
          end
      | _ => (now, false)
      end
  | None => (now, false)
  end.

(** [_postpone_task_due_date(task_id, postpone_hours)] *)
Definition _postpone_task_due_date (st : settings) (e : env) (task_id : string)
    (postpone_hours : option Q) : outcome * list event :=
  match postpone_hours with
  | None => (Raised, [])
  | Some h =>
      if negb (positive_hours (Some h)) then (Raised, [])
      else
        let payload := fetch_task e task_id in
        let '(base_due, has_current) := postpone_base st e payload in
        let new_due := add_us base_due (timedelta_hours h) in
        let has_due_time :=
          match payload with Some p => payload_has_due_time p | None => false end in
        let update_payload :=
          {| due_date := timestamp_ms new_due;
             due_date_time := has_due_time || has_current |} in
        if update_task e task_id update_payload
        then (Returned, [EvFetchTask task_id;
                         EvUpdateTask task_id update_payload true;
                         EvPostponeComment task_id (post_comment e task_id)])
        else (Raised, [EvFetchTask task_id;
                       EvUpdateTask task_id update_payload false])
  end.

(** *** The callback handler *)

Definition answer (callback_id : option string) : list event :=
  match callback_id with
  | Some (String c rest) => [EvAnswerCallback (String c rest)]
  | _ => []
  end.

Definition notify_chat (chat_id : option string) : list event :=
  match chat_id with
  | Some (String c rest) => [EvSendMessage (String c rest)]
  | _ => []
  end.

(** [handle_callback(callback)] *)
Definition handle_callback (st : settings) (e : env) (cb : callback) (s : service)
  : outcome * service :=
  if _is_callback_processed (cb_id cb) s then (Returned, s)
  else if negb (startswith (cb_data cb) "s:") || negb (count (cb_data cb) ":" =? 2)%nat
  then (Returned, emit (answer (cb_id cb)) s)
  else
    match split (cb_data cb) ":" with
    | [_; task_id; action_code] =>
        match status_action_map st !! action_code with
        | None => (Returned, emit (answer (cb_id cb)) s)
        | Some action =>
            let postpone_hours := action_postpone_hours action in
            let status_key := action_key action in
            let is_postpone_action :=
              bool_decide (action_operation action = Some "postpone")
              && positive_hours postpone_hours in
            let entry result :=
              {| entry_callback_id := cb_id cb; entry_task_id := task_id;
                 entry_action_code := action_code; entry_status_key := status_key;
                 entry_success := result;
                 entry_postpone_hours :=
                   if result && is_postpone_action then postpone_hours else None |} in
            let '(result, effects) :=
              if is_postpone_action
              then _postpone_task_due_date st e task_id postpone_hours
              else (Returned, update_clickup_status st e task_id status_key) in
            let s1 := emit effects s in
            match result with
            | Raised =>
                let s2 := _append_callback_log st e (entry false) s1 in
                (Returned,
                 emit (answer (cb_id cb) ++ notify_chat (cb_chat_id cb)
                       ++ notify_chat (configured_default_chat st)) s2)
            | Returned =>
                let chat_id :=
                  if truthy (cb_chat_id cb) then cb_chat_id cb
                  else configured_default_chat st in
                let keyboard :=
                  match cb_chat_id cb, cb_message_id cb with
                  | Some (String c rest), Some m =>
                      if m =? 0 then [] else [EvRemoveKeyboard (String c rest)]
                  | _, _ => []
                  end in
                let s2 := _append_callback_log st e (entry true) (emit keyboard s1) in
                if truthy chat_id
                then (Returned,
                      emit (answer (cb_id cb) ++ [EvFetchTask task_id]
                            ++ notify_chat chat_id) s2)
                else (Returned, s2)
            end
        end
    | _ => (Raised, s)
    end.

(** The same callback delivered once per element of [envs]. *)
Definition replay (st : settings) (cb : callback) (envs : list env) (s : service)
  : service :=
  fold_left (fun s e => snd (handle_callback st e cb s)) envs s.

End WithRuntime.

(** Tracker writes that took effect, and success entries written for an id. *)
Definition is_applied (ev : event) : bool :=
  match ev with
  | EvEngine (ClickUpEngine.EvUpdateStatus _ _ applied) => applied
  | EvUpdateTask _ _ applied => applied
  | _ => false
  end.

Definition is_success_for (callback_id : string) (ev : event) : bool :=
  match ev with
  | EvLogAppend entry =>
      entry_success entry && bool_decide (entry_callback_id entry = Some callback_id)
  | _ => false
  end.

Definition applied_count (evs : list event) : nat :=
  length (List.filter is_applied evs).

Definition success_count (callback_id : string) (evs : list event) : nat :=
  length (List.filter (is_success_for callback_id) evs).


End TelegramReminderService.

(** ** A runtime for the examples *)

(** The builtins on the inputs the examples use: ASCII blanks, letters and
    digits, JSON documents without escapes or fractions, and the proleptic
    Gregorian calendar. *)
Module AsciiRuntime.
Import Py Clock.

Definition is_blank (c : ascii) : bool :=
  let n := nat_of_ascii c in
  (n =? 32)%nat || ((9 <=? n)%nat && (n <=? 13)%nat).

Fixpoint lstrip (s : string) : string :=
  match s with
  | String c rest => if is_blank c then lstrip rest else s
  | EmptyString => EmptyString
  end.

Fixpoint rev_string (s acc : string) : string :=
  match s with
  | String c rest => rev_string rest (String c acc)
  | EmptyString => acc
  end.

Definition strip (s : string) : string :=
  rev_string (lstrip (rev_string (lstrip s) EmptyString)) EmptyString.

Definition upper_char (c : ascii) : ascii :=
  let n := nat_of_ascii c in
  if (97 <=? n)%nat && (n <=? 122)%nat then ascii_of_nat (n - 32) else c.

Fixpoint upper (s : string) : string :=
  match s with
  | String c rest => String (upper_char c) (upper rest)
  | EmptyString => EmptyString
  end.

Definition digit (c : ascii) : option Z :=
  let n := nat_of_ascii c in
  if (48 <=? n)%nat && (n <=? 57)%nat then Some (Z.of_nat n - 48) else None.

Fixpoint digits_value (acc : Z) (s : string) : option Z :=
  match s with
  | EmptyString => Some acc
  | String c rest =>
      match digit c with
      | Some v => digits_value (10 * acc + v) rest
      | None => None
      end
  end.

Definition unsigned_of (s : string) : option Z :=
  match s with
  | EmptyString => None
  | _ => digits_value 0 s
  end.

Definition int_of (s : string) : option Z :=
  match strip s with
  | String "-" rest => option_map Z.opp (unsigned_of rest)
  | String "+" rest => unsigned_of rest
  | t => unsigned_of t
  end.

(** *** JSON documents *)

Definition dquote : ascii := "034"%char.

(** The characters of a string literal up to its closing quote. *)
Fixpoint string_body (s : string) : option (string * string) :=
  match s with
  | EmptyString => None
  | String c rest =>
      if Ascii.eqb c dquote then Some (EmptyString, rest)
      else if Ascii.eqb c "\"%char then None
      else match string_body rest with
           | Some (body, rest') => Some (String c body, rest')
           | None => None
           end
  end.

Fixpoint number_chars (s : string) : string * string :=
  match s with
  | String c rest =>
      match digit c with
      | Some _ => let '(ds, rest') := number_chars rest in (String c ds, rest')
      | None => (EmptyString, s)
      end
  | EmptyString => (EmptyString, EmptyString)
  end.

Definition after (word : string) (v : json) (s : string) : option (json * string) :=
  if String.prefix word s then Some (v, drop_chars (String.length word) s) else None.

Fixpoint value (fuel : nat) (s : string) : option (json * string) :=
  match fuel with
  | O => None
  | S fuel' =>
      match lstrip s with
      | String "n" _ => after "null" JNull (lstrip s)
      | String "t" _ => after "true" (JBool true) (lstrip s)
      | String "f" _ => after "false" (JBool false) (lstrip s)
      | String "[" rest =>
          match lstrip rest with
          | String "]" rest' => Some (JArr [], rest')
          | _ => match items fuel' rest with
                 | Some (l, rest') => Some (JArr l, rest')
                 | None => None
                 end
          end
      | String "{" rest =>
          match lstrip rest with
          | String "}" rest' => Some (JObj [], rest')
          | _ => match fields fuel' [] rest with
                 | Some (d, rest') => Some (JObj d, rest')
                 | None => None
                 end
          end
      | String "-" rest =>
          let '(ds, rest') := number_chars rest in
          match unsigned_of ds with
          | Some n => Some (JNum (- n), rest')
          | None => None
          end
      | String c rest =>
          if Ascii.eqb c dquote
          then match string_body rest with
               | Some (body, rest') => Some (JStr body, rest')
               | None => None
               end
          else let '(ds, rest') := number_chars (String c rest) in
               match unsigned_of ds with
               | Some n => Some (JNum n, rest')
               | None => None
               end
      | EmptyString => None
      end
  end
with items (fuel : nat) (s : string) : option (list json * string) :=
  match fuel with
  | O => None
  | S fuel' =>
      match value fuel' s with
      | Some (v, rest) =>
          match lstrip rest with
          | String "," rest' =>
              match items fuel' rest' with
              | Some (l, rest'') => Some (v :: l, rest'')
              | None => None
              end
          | String "]" rest' => Some ([v], rest')
          | _ => None
          end
      | None => None
      end
  end
with fields (fuel : nat) (d : list (string * json)) (s : string)
  : option (list (string * json) * string) :=
  match fuel with
  | O => None
  | S fuel' =>
      match lstrip s with
      | String c rest =>
          if Ascii.eqb c dquote
          then match string_body rest with
               | Some (key, rest1) =>
                   match lstrip rest1 with
                   | String ":" rest2 =>
                       match value fuel' rest2 with
                       | Some (v, rest3) =>
                           match lstrip rest3 with
                           | String "," rest4 => fields fuel' (dict_set d key v) rest4
                           | String "}" rest4 => Some (dict_set d key v, rest4)
                           | _ => None
                           end
                       | None => None
                       end
                   | _ => None
                   end
               | None => None
               end
          else None
      | EmptyString => None
      end
  end.

Definition loads (s : string) : option json :=
  match value (S (String.length s)) s with
  | Some (v, rest) =>
      match lstrip rest with EmptyString => Some v | _ => None end
  | None => None
  end.

(** *** Timestamps *)

Definition digit_char (n : Z) : ascii := ascii_of_nat (48 + Z.to_nat n).

Fixpoint padded (width : nat) (n : Z) (acc : string) : string :=
  match width with
  | O => acc
  | S w => padded w (n / 10) (String (digit_char (n mod 10)) acc)
  end.

(** Year, month and day of a day number (days since 1970-01-01). *)
Definition civil (days : Z) : Z * Z * Z :=
  let z := days + 719468 in
  let era := z / 146097 in
  let doe := z - era * 146097 in
  let yoe := (doe - doe / 1460 + doe / 36524 - doe / 146096) / 365 in
  let doy := doe - (365 * yoe + yoe / 4 - yoe / 100) in
  let mp := (5 * doy + 2) / 153 in
  let d := doy - (153 * mp + 2) / 5 + 1 in
  let m := if mp <? 10 then mp + 3 else mp - 9 in
  (if m <=? 2 then yoe + era * 400 + 1 else yoe + era * 400, m, d).

Definition strftime (wall_us : Z) : string :=
  let '(y, m, d) := civil (wall_us / US_PER_DAY) in
  let secs := (wall_us mod US_PER_DAY) / 1000000 in
  (padded 4 y "" ++ "-" ++ padded 2 m "" ++ "-" ++ padded 2 d "" ++ " "
   ++ padded 2 (secs / 3600) "" ++ ":" ++ padded 2 (secs / 60 mod 60) "" ++ ":"
   ++ padded 2 (secs mod 60) "")%string.

#[export] Instance runtime : Runtime := {|
  py_int := int_of;
  py_strip := strip;
  py_upper := upper;
  json_loads := loads;
  strftime_seconds := strftime
|}.

(** 2024-03-01 00:00, a Friday, as a day number. *)
Definition day_2024_03_01 : Z := 19783.

Definition at_time (day h m : Z) (offset_hours : Z) : datetime :=
  {| wall := day * US_PER_DAY + h * US_PER_HOUR + m * US_PER_MINUTE;
     utcoff := offset_hours * US_PER_HOUR |}.

End AsciiRuntime.

(** ** Sample data for the examples *)

Module Office.
Import Py Clock AsciiRuntime ReminderSystem.

(** Working hours 10:00-18:00, Monday to Friday, two hours between
    reminders. *)
Definition office : config := {|
  working_hours := {| wh_start := Some (HInt 10); wh_end := Some (HInt 18);
                      wh_working_days := Some [0; 1; 2; 3; 4]; wh_days := None |};
  reminder_settings := Some (Some 2%Q);
  reminder_intervals := ∅;
  status_mapping := ∅;
  workspace_id := Some "9001";
  reminders_list_name := "Напоминания";
  notify_status_updates := true;
  notify_errors := true
|}.

Definition friday_1730 : datetime := at_time day_2024_03_01 17 30 3.
Definition saturday_1200 : datetime := at_time (day_2024_03_01 + 1) 12 0 3.
Definition monday_1000 : datetime := at_time (day_2024_03_01 + 3) 10 0 3.
Definition monday_1200 : datetime := at_time (day_2024_03_01 + 3) 12 0 3.

Definition report : raw_task := {|
  task_id := "t1";
  task_name := Some "Позвонить клиенту";
  task_due_date := Some "1709280000000";
  task_description := Some "Отчёт";
  task_priority := None
|}.

Definition empty_world : world :=
  {| completed := ∅; ledger_writable := true; trace := [] |}.

(** A tracker with one space, no folders and the reminders list holding
    [tasks]; every PUT is answered with [put]. *)
Definition one_list (tasks : list raw_task) (put : put_outcome) : tracker := {|
  get_spaces := fun _ => Some ["s1"];
  get_folders := fun _ => Some [];
  get_space_lists := fun _ =>
    Some [{| list_id := "l1"; list_name := "Напоминания" |}];
  get_folder_lists := fun _ => Some [];
  get_list_tasks := fun _ => Some tasks;
  put_task := fun _ _ => put
|}.

(** Every task goes to the one contact; the call changes nothing. *)
Definition to_alex (task_name : string) : option string := Some "Alex".
Definition alex_phone (recipient : string) : option string := Some "+70000000000".
Definition silent_call (tasks : list raw_task) (recipient phone : string) (w : world)
  : world := w.

(** *** Answers of the completion oracle *)

Definition quoted (s : string) : string :=
  String dquote (s ++ String dquote EmptyString).

(** The label followed by a full stop. *)
Definition done_with_stop : string := (DONE ++ ".")%string.

(** A JSON array of the task ids instead of an object. *)
Definition array_answer : string := ("[" ++ quoted "t1" ++ "]")%string.

(** An object whose value is a word of the oracle's own. *)
Definition free_word_answer : string :=
  ("{" ++ quoted "t1" ++ ": " ++ quoted "ГОТОВО" ++ "}")%string.

(** An object inside a markdown fence. *)
Definition fenced_answer : string :=
  (fence ++ "json" ++ nl ++ "{" ++ quoted "t1" ++ ": " ++ quoted DONE ++ "}" ++ nl
   ++ fence)%string.

Definition second : raw_task := {|
  task_id := "t2";
  task_name := Some "Отправить счёт";
  task_due_date := Some "1709280000000";
  task_description := None;
  task_priority := None
|}.

(** The world after [DONE] was applied to [t1] while the tracker refused
    the update. *)
Definition after_done : world :=
  snd (update_task_in_clickup (one_list [report] (PutStatus 500))
         office monday_1000 "t1" DONE (TaskDict report)
         empty_world).

(** A tracker that answers no request. *)
Definition offline : tracker := {|
  get_spaces := fun _ => None;
  get_folders := fun _ => None;
  get_space_lists := fun _ => None;
  get_folder_lists := fun _ => None;
  get_list_tasks := fun _ => None;
  put_task := fun _ _ => PutRaises
|}.

(** *** The chat service *)

(** The task [t1] as the engine's client returns it: open, due on
    2024-03-01 08:00 UTC. *)
Definition engine_report : ClickUpEngine.raw_task := {|
  ClickUpEngine.raw_id := "t1";
  ClickUpEngine.raw_name := Some "Позвонить клиенту";
  ClickUpEngine.raw_status_type := Some "open";
  ClickUpEngine.raw_due_date := Some "1709280000000"
|}.

(** A client holding [tasks]; [applied] is the answer to a status update. *)
Definition client (tasks : list ClickUpEngine.raw_task) (applied : option bool)
  : ClickUpEngine.ClickUpClient := {|
  ClickUpEngine.find_list_id := fun _ => Some (Some "l1");
  ClickUpEngine.fetch_tasks := fun _ => Some tasks;
  ClickUpEngine.update_task_status := fun _ _ => applied;
  ClickUpEngine.add_comment := fun _ _ => true
|}.

Definition done_action : TelegramReminderService.action := {|
  TelegramReminderService.action_key := "ВЫПОЛНЕНО";
  TelegramReminderService.action_operation := None;
  TelegramReminderService.action_postpone_hours := None
|}.

Definition postpone_action : TelegramReminderService.action := {|
  TelegramReminderService.action_key := "ОТЛОЖИТЬ";
  TelegramReminderService.action_operation := Some "postpone";
  TelegramReminderService.action_postpone_hours := Some 2%Q
|}.

(** Moscow time, the default actions and a two-hour postpone button. *)
Definition chat (log_enabled : bool) : TelegramReminderService.settings := {|
  TelegramReminderService.callback_log_enabled := log_enabled;
  TelegramReminderService.callback_log_max_bytes := 1000000;
  TelegramReminderService.callback_log_max_entries := 1000;
  TelegramReminderService.entry_bytes := fun _ => 256;
  TelegramReminderService.status_action_map :=
    <["d" := done_action]> (<["p2" := postpone_action]> ∅);
  TelegramReminderService.status_mapping := <["ВЫПОЛНЕНО" := "complete"]> ∅;
  TelegramReminderService.timezone := fun _ => 3 * US_PER_HOUR;
  TelegramReminderService.configured_default_chat := Some "100";
  TelegramReminderService.engine_config :=
    {| ClickUpEngine.reminders_list_id := None;
       ClickUpEngine.reminder_list_name := "Напоминания" |}
|}.

(** The world at the instant [now]: the engine's client, the due date of
    the task as [fetch_task] reports it, and trackers and files that work. *)
Definition chat_env (now : datetime) (c : ClickUpEngine.ClickUpClient)
    (due : option string) : TelegramReminderService.env := {|
  TelegramReminderService.now_utc := instant now;
  TelegramReminderService.engine_client := c;
  TelegramReminderService.fetch_task := fun _ =>
    Some {| TelegramReminderService.payload_due_date := due;
            TelegramReminderService.payload_has_due_time := true |};
  TelegramReminderService.update_task := fun _ _ => true;
  TelegramReminderService.post_comment := fun _ => true;
  TelegramReminderService.log_write_ok := true
|}.

Definition done_pressed : TelegramReminderService.callback := {|
  TelegramReminderService.cb_data := "s:t1:d";
  TelegramReminderService.cb_id := Some "cb1";
  TelegramReminderService.cb_chat_id := Some "100";
  TelegramReminderService.cb_message_id := Some 7
|}.

Definition postpone_pressed : TelegramReminderService.callback := {|
  TelegramReminderService.cb_data := "s:t1:p2";
  TelegramReminderService.cb_id := Some "cb2";
  TelegramReminderService.cb_chat_id := Some "100";
  TelegramReminderService.cb_message_id := Some 8
|}.

(** The same instant with a tracker that refuses every write. *)
Definition refusing_env (now : datetime) : TelegramReminderService.env := {|
  TelegramReminderService.now_utc := instant now;
  TelegramReminderService.engine_client := client [engine_report] None;
  TelegramReminderService.fetch_task := fun _ => None;
  TelegramReminderService.update_task := fun _ _ => false;
  TelegramReminderService.post_comment := fun _ => false;
  TelegramReminderService.log_write_ok := true
|}.

End Office.

(** ** Observations on traces *)

Module TraceObs.
Import ReminderSystem.

Definition is_put (ev : event) : bool :=
  match ev with EvPut _ _ => true | _ => false end.

Definition is_ledger_write (ev : event) : bool :=
  match ev with EvLedgerWrite _ _ => true | _ => false end.

Definition is_batch_call (ev : event) : bool :=
  match ev with EvBatchCall _ _ _ => true | _ => false end.

End TraceObs.

(** ** The chat service: a sequence of callbacks *)

Module Serving.
Import Py TelegramReminderService.

Section WithRuntime.
Context `{Runtime}.

(** The loop over the updates of [poll_updates_for], for updates that are
    callback queries: each is handled in the state the one before left,
    each in the world as it is at the time. *)
Definition serve (st : settings) (deliveries : list (env * callback)) (s : service)
  : service :=
  fold_left (fun s d => snd (handle_callback st (fst d) (snd d) s)) deliveries s.

End WithRuntime.

(** What a restart would prime is known to the running service. *)
Definition log_in_memory (st : settings) (s : service) : Prop :=
  _load_processed_callback_ids st (callback_log s) ⊆ _processed_callback_ids s.

End Serving.

(** ** The call for a group of tasks, [reminder_system.py] *)

Module CallFlow.
Import Py Clock ReminderSystem.

(** Telephony and transcription as one call sees them.  [twilio_call] is
    [calls.create] ([None] is an exception), [download_call_recording] the
    path and the status that function returns, [file_exists] is
    [os.path.exists], [whisper] the text of the transcription request
    ([None] is an exception). *)
Record telephony := {
  twilio_call : string -> list raw_task -> string -> option string;
  download_call_recording : string -> option string * string;
  file_exists : string -> bool;
  whisper : string -> option string
}.

(** The world and the comments posted to the tasks: the task and the
    [status] field of the result. *)
Record flow := { fw : world; comments : list (string * string) }.

Definition with_world (w : world) (f : flow) : flow :=
  {| fw := w; comments := comments f |}.

(** [_post_call_result_comment]: the request is made inside [try]. *)
Definition _post_call_result_comment (task_id status : string) (f : flow) : flow :=
  {| fw := fw f; comments := comments f ++ [(task_id, status)] |}.

Definition truthy (o : option string) : bool :=
  match o with Some (String _ _) => true | _ => false end.

(** [str(n)] for an [int]. *)
Fixpoint digits (fuel : nat) (n : Z) (acc : string) : string :=
  match fuel with
  | O => acc
  | S fuel' =>
      let acc' := String (ascii_of_nat (48 + Z.to_nat (n mod 10))) acc in
      if n <? 10 then acc' else digits fuel' (n / 10) acc'
  end.

Definition str_of_int (z : Z) : string :=
  if z <? 0 then String "-" (digits (Z.to_nat (Z.log2 (- z)) + 1) (- z) EmptyString)
  else digits (Z.to_nat (Z.log2 z) + 1) z EmptyString.

Section WithRuntime.
Context `{Runtime}.

(** [make_batch_call]: [None] is the [KeyError] of a task without a name,
    [Some None] the status [ERROR], [Some (Some sid)] the status
    [INITIATED]. *)
Definition make_batch_call (tel : telephony) (phone : string) (tasks : list raw_task)
    (recipient_name : string) : option (option string) :=
  if forallb (fun task => bool_decide (is_Some (task_name task))) tasks
  then Some (twilio_call tel phone tasks recipient_name)
  else None.

(** [get_call_recording_and_transcribe(call_sid, recording_path)] *)
Definition get_call_recording_and_transcribe (tel : telephony)
    (recording_path : option string) : option string * string :=
  match recording_path with
  | Some (String c rest) =>
      if file_exists tel (String c rest)
      then match whisper tel (String c rest) with
           | Some text =>
               match py_strip text with
               | EmptyString => (None, "NO_RESPONSE")
               | transcription_text => (Some transcription_text, "SUCCESS")
               end
           | None => (None, "ERROR")
           end
      else (None, "NOT_FOUND")
  | _ => (None, "NOT_FOUND")
  end.

(** [update_task_in_clickup] with the value found for the task in the
    classifier's result: a string is a status; a number, a truth value or
    [None] is printed into the history entry and matches no label and no
    key of the status mapping; a list or an object cannot be looked up in
    the mapping ([TypeError]). *)
Definition update_with_value (tr : tracker) (cfg : config) (now : datetime)
    (task : raw_task) (value : json) (w : world) : outcome * world :=
  let printed text :=
    if _is_task_completed (task_id task) (completed w) then (Returned, w)
    else send_update tr cfg (task_id task)
           {| ud_description :=
                (data_description (TaskDict task) ++ history_entry now text)%string;
              ud_status := None; ud_due_date := None |} w in
  match value with
  | JStr status => update_task_in_clickup tr cfg now (task_id task) status (TaskDict task) w
  | JNull => printed "None"
  | JBool true => printed "True"
  | JBool false => printed "False"
  | JNum z => printed (str_of_int z)
  | JArr _ | JObj _ =>
      if _is_task_completed (task_id task) (completed w) then (Returned, w)
      else (Raised, w)
  end.

(** [for task in tasks: update_task_in_clickup(task["id"], status, task);
    _post_call_result_comment(...)]; the [k]-th update reads the clock as
    [now_at k]. *)
Fixpoint mark_all (tr : tracker) (cfg : config) (now_at : nat -> datetime) (k : nat)
    (status result : string) (tasks : list raw_task) (f : flow) : outcome * flow :=
  match tasks with
  | [] => (Returned, f)
  | task :: rest =>
      match update_task_in_clickup tr cfg (now_at k) (task_id task) status
              (TaskDict task) (fw f) with
      | (Raised, w) => (Raised, with_world w f)
      | (Returned, w) =>
          mark_all tr cfg now_at (S k) status result rest
            (_post_call_result_comment (task_id task) result (with_world w f))
      end
  end.

(** The loop over the tasks with the classifier's result: [None] from
    [task_statuses.get] is the [AttributeError] of a result that is no
    dict. *)
Fixpoint apply_statuses (tr : tracker) (cfg : config) (now_at : nat -> datetime)
    (k : nat) (task_statuses : json) (tasks : list raw_task) (f : flow)
  : outcome * flow :=
  match tasks with
  | [] => (Returned, f)
  | task :: rest =>
      match task_statuses with
      | JObj d =>
          let ai_status := default (JStr UNCLEAR) (dict_get d (task_id task)) in
          match task_name task with
          | None => (Raised, f)
          | Some _ =>
              match update_with_value tr cfg (now_at k) task ai_status (fw f) with
              | (Raised, w) => (Raised, with_world w f)
              | (Returned, w) =>
                  apply_statuses tr cfg now_at (S k) task_statuses rest
                    (_post_call_result_comment (task_id task) "recording_found"
                       (with_world w f))
              end
          end
      | _ => (Raised, f)
      end
  end.

(** [process_batch_tasks(tasks, recipient_name, phone)] *)
Definition process_batch_tasks (tel : telephony)
    (oracle : string -> list raw_task -> completion) (tr : tracker) (cfg : config)
    (now_at : nat -> datetime) (tasks : list raw_task) (recipient_name phone : string)
    (f : flow) : outcome * flow :=
  match make_batch_call tel phone tasks recipient_name with
  | None => (Raised, f)
  | Some None => mark_all tr cfg now_at 0 NOT_DONE "error" tasks f
  | Some (Some call_sid) =>
      let '(recording_path, rec_status) := download_call_recording tel call_sid in
      if negb (String.eqb rec_status "SUCCESS") || negb (truthy recording_path)
      then mark_all tr cfg now_at 0 NOT_DONE "no_recording" tasks f
      else
        let '(transcription, trans_status) :=
          get_call_recording_and_transcribe tel recording_path in
        if String.eqb trans_status "NOT_FOUND" || String.eqb trans_status "NO_RESPONSE"
           || negb (truthy transcription)
        then mark_all tr cfg now_at 0 NOT_DONE "no_recording" tasks f
        else if String.eqb trans_status "ERROR"
        then mark_all tr cfg now_at 0 UNCLEAR "error" tasks f
        else
          apply_statuses tr cfg now_at 0
            (analyze_batch_response oracle (default EmptyString transcription) tasks)
            tasks f
  end.

(** The calls of a run: what [run] catches is dropped, the world stays as
    the call left it. *)
Definition batch_for_run (tel : telephony)
    (oracle : string -> list raw_task -> completion) (tr : tracker) (cfg : config)
    (now_at : nat -> datetime) (tasks : list raw_task) (recipient_name phone : string)
    (w : world) : world :=
  fw (snd (process_batch_tasks tel oracle tr cfg now_at tasks recipient_name phone
             {| fw := w; comments := [] |})).

End WithRuntime.

End CallFlow.

(** ** Grouping the reminders by chat, [telegram_reminder_service.py] *)

Module ChatGroups.
Import Py Clock.

Section WithRuntime.
Context `{Runtime}.
(** [_chat_targets_for_task]: the chats configured for the assignee. *)
Variable _chat_targets_for_task : ClickUpEngine.ReminderTask -> list string.

(** [for chat_id in chat_ids] with the set [seen] of one task. *)
Fixpoint add_targets (task : ClickUpEngine.ReminderTask) (chat_ids : list string)
    (seen : gset string) (deliveries : list (string * list ClickUpEngine.ReminderTask))
  : list (string * list ClickUpEngine.ReminderTask) :=
  match chat_ids with
  | [] => deliveries
  | chat_id :: rest =>
      let chat_candidate := py_strip chat_id in
      if String.eqb chat_candidate EmptyString || bool_decide (chat_candidate ∈ seen)
      then add_targets task rest seen deliveries
      else add_targets task rest ({[chat_candidate]} ∪ seen)
             (dict_set deliveries chat_candidate
                (default [] (dict_get deliveries chat_candidate) ++ [task]))
  end.

(** [_group_tasks_by_chat(tasks)]; a task without targets is passed over. *)
Definition _group_tasks_by_chat (tasks : list ClickUpEngine.ReminderTask)
  : list (string * list ClickUpEngine.ReminderTask) :=
  fold_left (fun deliveries task =>
               add_targets task (_chat_targets_for_task task) ∅ deliveries)
    tasks [].

End WithRuntime.

End ChatGroups.

(** ** Sending the reminders to the chats, [telegram_reminder_service.py] *)

Module Reminders.
Import Py Clock TelegramReminderService ChatGroups.

(** The default chat of the service and the file that caches it
    ([chat_cache] is [None] while the file does not exist or cannot be
    read). *)
Record chats := {
  default_chat_id : option string;
  chat_cache : option string;
  chat_cache_writable : bool
}.

(** The messages [_dispatch_tasks_to_chat] tries to send. *)
Inductive message :=
| MsgEmptyState (chat_id : string)
| MsgPreface (chat_id : string) (count : nat)
| MsgTask (chat_id : string) (task : ClickUpEngine.ReminderTask) (ordinal : nat).

Section WithRuntime.
Context `{Runtime}.
Variable _chat_targets_for_task : ClickUpEngine.ReminderTask -> list string.
(** The request that sends the message succeeds. *)
Variable delivers : message -> bool.

(** [_load_cached_chat_id()] *)
Definition _load_cached_chat_id (cs : chats) : option string :=
  match chat_cache cs with
  | Some content =>
      match py_strip content with
      | EmptyString => None
      | value => Some value
      end
  | None => None
  end.

(** [_persist_chat_id(chat_id)] *)
Definition _persist_chat_id (chat_id : string) (cs : chats) : chats :=
  if chat_cache_writable cs
  then {| default_chat_id := default_chat_id cs; chat_cache := Some chat_id;
          chat_cache_writable := true |}
  else cs.

(** [_resolve_target_chat(override)] *)
Definition _resolve_target_chat (override : option string) (cs : chats)
  : option string * chats :=
  if truthy override then (override, cs)
  else if truthy (default_chat_id cs) then (default_chat_id cs, cs)
  else match _load_cached_chat_id cs with
       | Some cached =>
           (Some cached,
            {| default_chat_id := Some cached; chat_cache := chat_cache cs;
               chat_cache_writable := chat_cache_writable cs |})
       | None => (None, cs)
       end.

(** [_ensure_default_chat(chat_id)] *)
Definition _ensure_default_chat (chat_id : string) (cs : chats) : chats :=
  if truthy (default_chat_id cs) then cs
  else _persist_chat_id chat_id
         {| default_chat_id := Some chat_id; chat_cache := chat_cache cs;
            chat_cache_writable := chat_cache_writable cs |}.

(** [for idx, task in enumerate(tasks, start=1)] *)
Fixpoint task_messages (chat_id : string) (ordinal : nat)
    (tasks : list ClickUpEngine.ReminderTask) : list message :=
  match tasks with
  | [] => []
  | task :: rest => MsgTask chat_id task ordinal :: task_messages chat_id (S ordinal) rest
  end.

(** The messages of one [_dispatch_tasks_to_chat]: the note that there is
    nothing to do, or the preface and, if the preface was sent, one message
    per task; a message that fails to be sent is logged and nothing
    more. *)
Definition dispatch_messages (chat_id : string)
    (tasks : list ClickUpEngine.ReminderTask) : list message :=
  match tasks with
  | [] => [MsgEmptyState chat_id]
  | _ =>
      if delivers (MsgPreface chat_id (length tasks))
      then MsgPreface chat_id (length tasks) :: task_messages chat_id 1 tasks
      else [MsgPreface chat_id (length tasks)]
  end.

(** [_dispatch_tasks_to_chat(chat_id, tasks)] *)
Definition _dispatch_tasks_to_chat (chat_id : string)
    (tasks : list ClickUpEngine.ReminderTask) (state : chats * list message)
  : chats * list message :=
  match chat_id with
  | EmptyString => state
  | _ => (_ensure_default_chat chat_id (fst state),
          snd state ++ dispatch_messages chat_id tasks)
  end.

(** [_channel_enabled("telegram", task)]: the name of the channel
    normalises to itself, which is the first case. *)
Definition _channel_enabled_telegram (task : ClickUpEngine.ReminderTask) : bool := true.

Definition nonempty {A} (l : list A) : bool :=
  match l with [] => false | _ => true end.

(** [send_reminders(chat_id, limit, broadcast_all)]: the result ([None] is
    [ConfigurationError]), the chats and the messages.  The delivery
    statistics it keeps are not part of the model. *)
Definition send_reminders (st : settings) (e : env) (chat_id : option string)
    (limit : option Z) (broadcast_all : bool) (cs : chats)
  : option (list ClickUpEngine.ReminderTask) * (chats * list message) :=
  let all_tasks := fetch_pending_tasks st e limit in
  let telegram_tasks := List.filter _channel_enabled_telegram all_tasks in
  match chat_id with
  | Some c =>
      let '(target_chat, cs1) := _resolve_target_chat (Some c) cs in
      match target_chat with
      | Some (String c0 rest) =>
          let target_chat_str := String c0 rest in
          if broadcast_all
          then (Some telegram_tasks,
                _dispatch_tasks_to_chat target_chat_str telegram_tasks (cs1, []))
          else
            let deliveries := _group_tasks_by_chat _chat_targets_for_task telegram_tasks in
            let bucket := default [] (dict_get deliveries target_chat_str) in
            (Some telegram_tasks,
             _dispatch_tasks_to_chat target_chat_str bucket (cs1, []))
      | _ => (None, (cs1, []))
      end
  | None =>
      match telegram_tasks with
      | [] => (Some [], (cs, []))
      | _ =>
          let grouped := _group_tasks_by_chat _chat_targets_for_task telegram_tasks in
          let deliveries :=
            List.filter (fun d => nonempty (snd d))
              (map (fun d => (fst d, List.filter _channel_enabled_telegram (snd d)))
                 grouped) in
          match deliveries with
          | [] => (Some [], (cs, []))
          | _ =>
              (Some telegram_tasks,
               fold_left (fun state d => _dispatch_tasks_to_chat (fst d) (snd d) state)
                 deliveries (cs, []))
          end
      end
  end.

End WithRuntime.

End Reminders.

(** ** The status buttons, [telegram_reminder_service.py] *)

Module StatusActions.
Import Py Clock CallFlow.

(** An entry of [status_buttons] that is a dict: each of the fields read
    with [entry.get(...) or ...] holds [str(value)] of a value that is
    true, [None] when the key is missing or its value is false; [e_other]
    are the remaining items. *)
Record dict_entry := {
  e_key : option string;
  e_status : option string;
  e_value : option string;
  e_name : option string;
  e_text : option string;
  e_label : option string;
  e_code : option string;
  e_other : list (string * json)
}.

Inductive raw_action :=
| RawStr (entry : string)
| RawDict (entry : dict_entry)
| RawOther.

(** An action: [copied] is the entry that [dict(entry)] copied. *)
Record status_action := {
  code : string;
  key : string;
  text : string;
  copied : option dict_entry
}.

(** The candidates [_generate_action_code] tries: [base], then [base]
    followed by the counter. *)
Definition candidate (base : string) (counter : nat) : string :=
  match counter with
  | O => base
  | S _ => (base ++ str_of_int (Z.of_nat counter))%string
  end.

(** [while candidate in used]; [None] when the fuel runs out. *)
Fixpoint search (fuel : nat) (base : string) (counter : nat) (used : gset string)
  : option string :=
  if bool_decide (candidate base counter ∈ used)
  then match fuel with
       | O => None
       | S fuel' => search fuel' base (S counter) used
       end
  else Some (candidate base counter).

(** [_generate_action_code(index, used)]: the code and the set after
    [used.add]. *)
Definition _generate_action_code (index : Z) (used : gset string)
  : option (string * gset string) :=
  match search (size used) ("a" ++ str_of_int index)%string 0 used with
  | Some c => Some (c, {[c]} ∪ used)
  | None => None
  end.

Definition first_true (values : list (option string)) : string :=
  default EmptyString (List.find (fun v => bool_decide (is_Some v)) values ≫= id).

Definition default_actions : list status_action := [
  {| code := "d"; key := "Ð’Ð«ÐŸÐžÐ›ÐÐ•ÐÐž";
     text := "âœ… Ð’Ñ‹Ð¿Ð¾Ð»Ð½ÐµÐ½Ð¾"; copied := None |};
  {| code := "n"; key := "ÐÐ•_Ð’Ð«ÐŸÐžÐ›ÐÐ•ÐÐž";
     text := "âŒ ÐÐµ Ð²Ñ‹Ð¿Ð¾Ð»Ð½ÐµÐ½Ð¾"; copied := None |};
  {| code := "p"; key := "Ð’_Ð ÐÐ‘ÐžÐ¢Ð•";
     text := "ðŸ”„ Ð’ Ñ€Ð°Ð±Ð¾Ñ‚Ðµ"; copied := None |}
].

Section WithRuntime.
Context `{Runtime}.
(** [str.title] *)
Variable py_title : string -> string.

(** One turn of [for idx, entry in enumerate(raw_actions)]. *)
Definition add_action (idx : Z) (entry : raw_action)
    (state : list status_action * gset string)
  : option (list status_action * gset string) :=
  let '(actions, used_codes) := state in
  match entry with
  | RawStr s =>
      match py_upper (py_strip s) with
      | EmptyString => Some state
      | k =>
          match _generate_action_code idx used_codes with
          | None => None
          | Some (c, used') =>
              Some (actions ++ [{| code := c; key := k; text := py_title k;
                                   copied := None |}], used')
          end
      end
  | RawDict entry =>
      match py_upper (py_strip (first_true [e_key entry; e_status entry; e_value entry;
                                           e_name entry])) with
      | EmptyString => Some state
      | k =>
          let t := match e_text entry, e_label entry with
                   | Some t, _ => t
                   | None, Some l => l
                   | None, None => py_title k
                   end in
          let generated :=
            match _generate_action_code idx used_codes with
            | None => None
            | Some (c, used') =>
                Some (actions ++ [{| code := c; key := k; text := t;
                                     copied := Some entry |}], used')
            end in
          match e_code entry with
          | Some raw_code =>
              match py_strip raw_code with
              | EmptyString => generated
              | c =>
                  if bool_decide (c ∈ used_codes) then generated
                  else Some (actions ++ [{| code := c; key := k; text := t;
                                            copied := Some entry |}],
                             {[c]} ∪ used_codes)
              end
          | None => generated
          end
      end
  | RawOther => Some state
  end.

Fixpoint add_actions (idx : Z) (raw_actions : list raw_action)
    (state : list status_action * gset string)
  : option (list status_action * gset string) :=
  match raw_actions with
  | [] => Some state
  | entry :: rest =>
      match add_action idx entry state with
      | None => None
      | Some state' => add_actions (idx + 1) rest state'
      end
  end.

(** [_build_status_actions()]; [raw_actions] is [None] when the configured
    value is not a list.  The keys and texts of the default actions are the
    literals of the source file. *)
Definition _build_status_actions (raw_actions : option (list raw_action))
  : option (list status_action) :=
  match add_actions 0 (default [] raw_actions) ([], ∅) with
  | None => None
  | Some ([], _) => Some default_actions
  | Some (actions, _) => Some actions
  end.

End WithRuntime.

(** [{action["code"]: action for action in self.status_actions}] *)
Definition status_action_map (actions : list status_action) : gmap string status_action :=
  fold_left (fun m action => <[code action := action]> m) actions ∅.

End StatusActions.

(** ** The statuses behind the buttons, [telegram_reminder_service.py] *)

Module StatusMapping.
Import Py Clock StatusActions.

(** The [clickup] section of the configuration: the items of
    [status_mapping] and the five status names, [None] when the key is
    absent; the configured values are strings. *)
Record clickup_section := {
  section_status_mapping : list (string * string);
  completed_status : option string;
  pending_status : option string;
  in_progress_status : option string;
  callback_status : option string;
  cancelled_status : option string
}.

(** [mapping.setdefault(key, value)] *)
Definition setdefault (mapping : gmap string string) (k v : string) : gmap string string :=
  match mapping !! k with
  | Some _ => mapping
  | None => <[k := v]> mapping
  end.

(** The labels that always get a status, with the configured name each one
    falls back to and the name used when that is absent; the literals are
    those of the source file. *)
Definition default_statuses (section : clickup_section) : list (string * string) := [
  ("Ð’Ð«ÐŸÐžÐ›ÐÐ•ÐÐž",
   default "complete" (completed_status section));
  ("ÐÐ•_Ð’Ð«ÐŸÐžÐ›ÐÐ•ÐÐž",
   default "to do" (pending_status section));
  ("Ð’_Ð ÐÐ‘ÐžÐ¢Ð•",
   default "in progress" (in_progress_status section));
  ("ÐŸÐžÐ¡Ð¢ÐÐ’Ð›Ð•ÐÐ",
   default "Ð¿Ð¾ÑÑ‚Ð°Ð²Ð»ÐµÐ½Ð°" (pending_status section));
  ("ÐÐ_Ð”ÐžÐ ÐÐ‘ÐžÐ¢ÐšÐ•",
   default "Ð½Ð° Ð´Ð¾Ñ€Ð°Ð±Ð¾Ñ‚ÐºÐµ" (callback_status section));
  ("ÐžÐ¢ÐœÐ•ÐÐ•ÐÐ",
   default "Ð¾Ñ‚Ð¼ÐµÐ½ÐµÐ½Ð°" (cancelled_status section))
].

(** [key.replace("_", " ")] *)
Fixpoint replace_underscores (s : string) : string :=
  match s with
  | EmptyString => EmptyString
  | String c rest =>
      String (if Ascii.eqb c "_" then " "%char else c) (replace_underscores rest)
  end.

Section WithRuntime.
Context `{Runtime}.
(** [str.lower] *)
Variable py_lower : string -> string.

(** [{key.upper(): value for key, value in ...items()}] *)
Definition configured_mapping (section : clickup_section) : gmap string string :=
  fold_left (fun mapping item => <[py_upper (fst item) := snd item]> mapping)
    (section_status_mapping section) ∅.

(** [_build_status_mapping()] *)
Definition _build_status_mapping (section : clickup_section) : gmap string string :=
  fold_left (fun mapping item => setdefault mapping (fst item) (snd item))
    (default_statuses section) (configured_mapping section).

(** The loop of [__init__] over the actions: a key without a status gets
    its own name, in lower case and with spaces. *)
Definition with_action_keys (actions : list status_action)
    (mapping : gmap string string) : gmap string string :=
  fold_left (fun mapping action =>
               match mapping !! key action with
               | Some _ => mapping
               | None => <[key action := py_lower (replace_underscores (key action))]> mapping
               end) actions mapping.

End WithRuntime.

End StatusMapping.

(** ** Predicates and sample data of the further properties *)

(** *** The fetch *)

Module FetchSpec.
Import Py Clock ReminderSystem.

Section WithRuntime.
Context `{Runtime}.


(** A task the traversal reaches: it is in a list that carries the
    reminders name, the list being one of a space of the workspace or of a
    folder of such a space. *)
Definition reachable (tr : tracker) (cfg : config) (task : raw_task) : Prop :=
  exists ws spaces space item tasks,
    workspace_id cfg = Some ws /\ get_spaces tr ws = Some spaces /\ space ∈ spaces
    /\ ((exists lists, get_space_lists tr space = Some lists /\ item ∈ lists)
        \/ (exists folders folder more,
              get_folders tr space = Some folders /\ folder ∈ folders
              /\ get_folder_lists tr folder = Some more /\ item ∈ more))
    /\ list_name item = reminders_list_name cfg
    /\ get_list_tasks tr (list_id item) = Some tasks
    /\ task ∈ tasks.


End WithRuntime.

End FetchSpec.

(** *** The groups of a run *)

Module GroupSpec.
Import Py Clock ReminderSystem.

Section Group.
Variable _extract_recipient_name : string -> option string.

(** The task is one for [recipient]. *)
Definition for_recipient (recipient : string) (task : raw_task) : bool :=
  match task_name task with
  | Some name => bool_decide (_extract_recipient_name name = Some recipient)
  | None => false
  end.

End Group.

(** What the loop keeps true of the groups. *)
Definition groups_ok (groups : list (string * list raw_task)) : Prop :=
  NoDup (map fst groups)
  /\ forall recipient tasks,
       dict_get groups recipient = Some tasks ->
       recipient <> EmptyString /\ tasks <> [].

End GroupSpec.

(** *** The batch classifier *)

Module BatchSpec.
Import Py Clock ReminderSystem.

(** The id is the id of one of the tasks. *)
Definition listed (tasks : list raw_task) (k : string) : bool :=
  existsb (fun task => String.eqb (task_id task) k) tasks.

(** The text holds no backtick. *)
Fixpoint no_backtick (s : string) : bool :=
  match s with
  | EmptyString => true
  | String c rest => negb (Ascii.eqb c "`") && no_backtick rest
  end.

End BatchSpec.

(** *** The engine's filter *)

Module EngineSpec.
Import Py Clock ClickUpEngine.

Section WithRuntime.
Context `{Runtime}.


End WithRuntime.

End EngineSpec.

(** *** The ledger across calls *)

Module LedgerSpec.
Import Py Clock ReminderSystem CallFlow.

(** The ledger [l'] holds the records of [l] unchanged, and new records
    only for ids that satisfy [P]. *)
Definition grows_by (P : string -> Prop) (l l' : ledger) : Prop :=
  (forall id record, l !! id = Some record -> l' !! id = Some record)
  /\ (forall id, is_Some (l' !! id) -> is_Some (l !! id) \/ P id).

(** The classifier's result gives [DONE] to the task. *)
Definition classified_done (task_statuses : json) (id : string) : Prop :=
  exists d, task_statuses = JObj d /\ dict_get d id = Some (JStr DONE).

Section Run.
Context `{Runtime}.
Variables (tel : telephony) (oracle : string -> list raw_task -> completion).
Variables (tr : tracker) (cfg : config).
(** The clock as the updates of the call for one recipient read it. *)
Variable now_at : string -> nat -> datetime.

(** [process_batch_tasks] as [run] calls it. *)
Definition batch (tasks : list raw_task) (recipient_name phone : string) (w : world)
  : world :=
  batch_for_run tel oracle tr cfg (now_at recipient_name) tasks recipient_name phone w.

End Run.

End LedgerSpec.

(** *** The buttons *)

Module ButtonSpec.
Import Py Clock TelegramReminderService.

(** The action moves the due date ([is_postpone_action] of the handler). *)
Definition is_postpone_action (a : action) : bool :=
  bool_decide (action_operation a = Some "postpone")
  && positive_hours (action_postpone_hours a).

(** The data of the callback reads as [s:<task_id>:<action_code>]. *)
Definition reads_as (cb : callback) (task_id action_code : string) : Prop :=
  startswith (cb_data cb) "s:" = true
  /\ count (cb_data cb) ":" = 2%nat
  /\ exists prefix, split (cb_data cb) ":" = [prefix; task_id; action_code].

End ButtonSpec.

(** *** The chats *)

Module ChatSpec.
Import Py Clock ChatGroups Reminders.

Section Chats.
Context `{Runtime}.
Variable _chat_targets_for_task : ClickUpEngine.ReminderTask -> list string.

(** The chat is a target of the task. *)
Definition targets_chat (chat : string) (task : ClickUpEngine.ReminderTask) : bool :=
  bool_decide (chat <> EmptyString /\ chat ∈ map py_strip (_chat_targets_for_task task)).

End Chats.

(** What the loops keep true of the buckets. *)
Definition buckets_ok (deliveries : list (string * list ClickUpEngine.ReminderTask))
  : Prop :=
  NoDup (map fst deliveries)
  /\ forall chat bucket,
       dict_get deliveries chat = Some bucket -> chat <> EmptyString /\ bucket <> [].

(** The chat a message goes to. *)
Definition chat_of (m : message) : string :=
  match m with
  | MsgEmptyState chat_id | MsgPreface chat_id _ | MsgTask chat_id _ _ => chat_id
  end.

End ChatSpec.

(** *** The codes of the buttons *)

Module CodeSpec.
Import Py Clock CallFlow StatusActions.

(** The value of a decimal digit. *)
Definition digit_value (c : ascii) : Z := Z.of_nat (nat_of_ascii c) - 48.

(** Reading a decimal back, most significant digit first. *)
Fixpoint decode (v : Z) (s : string) : Z :=
  match s with
  | EmptyString => v
  | String c rest => decode (10 * v + digit_value c) rest
  end.

(** The used codes that the search has not passed yet. *)
Definition ahead (base : string) (counter : nat) (used : gset string) : gset string :=
  used ∖ list_to_set (map (candidate base) (seq 0 counter)).

(** The codes of the actions are pairwise distinct, all in the set of used
    codes, and no key is empty. *)
Definition codes_ok (state : list status_action * gset string) : Prop :=
  NoDup (map code (fst state))
  /\ (forall a, a ∈ fst state -> code a ∈ snd state)
  /\ (forall a, a ∈ fst state -> key a <> EmptyString).

End CodeSpec.

(** *** Sample data *)

Module Samples.
Import Py Clock ReminderSystem CallFlow AsciiRuntime Office.

(** Office hours that end at midnight, written 24:00. *)
Definition until_midnight : config := {|
  working_hours := {| wh_start := Some (HStr "10:00"); wh_end := Some (HStr "24:00");
                      wh_working_days := Some [0; 1; 2; 3; 4]; wh_days := None |};
  reminder_settings := reminder_settings office;
  reminder_intervals := reminder_intervals office;
  status_mapping := status_mapping office;
  workspace_id := workspace_id office;
  reminders_list_name := reminders_list_name office;
  notify_status_updates := true;
  notify_errors := true
|}.


(** A task whose due date is a word. *)
Definition tomorrow : raw_task := {|
  task_id := "t6";
  task_name := Some "Согласовать договор";
  task_due_date := Some "завтра";
  task_description := None;
  task_priority := None
|}.

(** A line on which no call can be placed. *)
Definition no_line : telephony := {|
  twilio_call := fun _ _ _ => None;
  download_call_recording := fun _ => (None, "NOT_FOUND");
  file_exists := fun _ => false;
  whisper := fun _ => None
|}.

End Samples.

Module ChatSamples.
Import Py Clock TelegramReminderService AsciiRuntime Office.

(** A button whose code is not configured. *)
Definition unknown_button : callback := {|
  cb_data := "s:t1:zz";
  cb_id := Some "cb9";
  cb_chat_id := Some "100";
  cb_message_id := Some 9
|}.

End ChatSamples.

Module EngineSamples.
Import Py Clock ClickUpEngine AsciiRuntime Office.


(** An open task whose due date is a word. *)
Definition undated : raw_task := {|
  raw_id := "t5";
  raw_name := Some "Без срока";
  raw_status_type := Some "open";
  raw_due_date := Some "завтра"
|}.

End EngineSamples.

(** * Properties *)

(** ** Wall clock arithmetic *)

Module ClockFacts.
Import Clock.

Ltac clock_unfold :=
  unfold hour, minute, day_number, time_of_day, weekday, add_days, add_us,
    instant, US_PER_DAY, US_PER_HOUR, US_PER_MINUTE, US_PER_MS in *;
  cbn [wall utcoff] in *.

Ltac clock_lia := clock_unfold; Z.to_euclidean_division_equations; lia.

Lemma hour_range d : 0 <= hour d < 24.
Proof. clock_lia. Qed.

Lemma weekday_range d : 0 <= weekday d < 7.
Proof. clock_lia. Qed.

Lemma replace_hour_minute0_spec d h d' :
  replace_hour_minute0 d h = Some d' ->
  hour d' = h /\ minute d' = 0 /\ day_number d' = day_number d
  /\ utcoff d' = utcoff d /\ 0 <= h <= 23.
Proof.
  unfold replace_hour_minute0.
  destruct (0 <=? h) eqn:H0; destruct (h <=? 23) eqn:H1; simpl; try discriminate.
  intros [= <-]. clock_lia.
Qed.


Lemma replace_hms0_wall d h m d' :
  replace_hms0 d h m = Some d' ->
  wall d' = day_number d * US_PER_DAY + h * US_PER_HOUR + m * US_PER_MINUTE
  /\ 0 <= h <= 23 /\ 0 <= m <= 59.
Proof.
  unfold replace_hms0.
  destruct (0 <=? h) eqn:H0; destruct (h <=? 23) eqn:H1;
    destruct (0 <=? m) eqn:H2; destruct (m <=? 59) eqn:H3; simpl; try discriminate.
  intros [= <-]. clock_lia.
Qed.

Lemma add_days_day d n : day_number (add_days d n) = day_number d + n.
Proof. clock_lia. Qed.



Lemma add_days_add d n m : add_days (add_days d n) m = add_days d (n + m).
Proof. unfold add_days, add_us. simpl. f_equal. lia. Qed.

Lemma add_days_0 d : add_days d 0 = d.
Proof. destruct d. unfold add_days, add_us. simpl. f_equal. lia. Qed.

Lemma weekday_add_days d n : weekday (add_days d n) = (weekday d + n) mod 7.
Proof.
  unfold weekday. rewrite add_days_day, Zplus_mod_idemp_l. f_equal. lia.
Qed.

End ClockFacts.

(** ** The orchestrator: rescheduling *)

Module RescheduleFacts.
Import Py Clock ClockFacts ReminderSystem.

Lemma in_days_true d days : in_days d days = true <-> d ∈ days.
Proof. unfold in_days. apply bool_decide_eq_true. Qed.

Lemma in_days_false d days : in_days d days = false <-> d ∉ days.
Proof. unfold in_days. apply bool_decide_eq_false. Qed.

Lemma skip_non_working_empty fuel d : skip_non_working fuel [] d = Some d.
Proof. destruct fuel; reflexivity. Qed.

(** The loop stops at the first working day it meets. *)
Lemma skip_non_working_first fuel : forall (working_days : list Z) d k,
  0 <= k <= Z.of_nat fuel ->
  weekday (add_days d k) ∈ working_days ->
  exists k', 0 <= k' <= k
    /\ skip_non_working fuel working_days d = Some (add_days d k')
    /\ weekday (add_days d k') ∈ working_days
    /\ forall j, 0 <= j < k' -> weekday (add_days d j) ∉ working_days.
Proof.
  induction fuel as [|fuel IH]; intros wd d k Hk Hin.
  - assert (k = 0) by lia. subst k. rewrite add_days_0 in Hin.
    exists 0. rewrite add_days_0.
    split; [lia|]. split; [|split; [assumption|intros; lia]].
    simpl. apply in_days_true in Hin. rewrite Hin, orb_true_r. reflexivity.
  - destruct (in_days (weekday d) wd) eqn:Hd.
    + exists 0. rewrite add_days_0.
      split; [lia|]. split; [|split; [now apply in_days_true|intros; lia]].
      simpl. rewrite Hd, orb_true_r. reflexivity.
    + assert (k <> 0).
      { intros ->. rewrite add_days_0 in Hin. apply in_days_true in Hin. congruence. }
      destruct (IH wd (add_days d 1) (k - 1)) as (k' & Hk' & Hs & Hw & Hfirst).
      { lia. }
      { rewrite add_days_add. now replace (1 + (k - 1)) with k by lia. }
      rewrite add_days_add in Hs, Hw.
      exists (1 + k').
      split; [lia|]. split; [|split; [assumption|]].
      * simpl. rewrite Hd, orb_false_r.
        destruct (bool_decide (wd = [])) eqn:He; [|exact Hs].
        apply bool_decide_eq_true in He. subst wd. inversion Hin.
      * intros j Hj. destruct (Z.eq_dec j 0) as [->|Hj0].
        { rewrite add_days_0. now apply in_days_false. }
        specialize (Hfirst (j - 1) ltac:(lia)). rewrite add_days_add in Hfirst.
        now replace (1 + (j - 1)) with j in Hfirst by lia.
Qed.

(** A configured list that names a day of the week is reached within six
    steps from any date. *)
Lemma working_day_within_week (working_days : list Z) d x :
  x ∈ working_days -> 0 <= x < 7 ->
  exists k, 0 <= k < 7 /\ weekday (add_days d k) ∈ working_days.
Proof.
  intros Hx Hr. exists ((x - weekday d) mod 7). split.
  - apply Z.mod_pos_bound. lia.
  - rewrite weekday_add_days.
    replace ((weekday d + (x - weekday d) mod 7) mod 7) with x; [assumption|].
    pose proof (weekday_range d). Z.to_euclidean_division_equations. lia.
Qed.

Lemma skip_non_working_total (working_days : list Z) d x :
  x ∈ working_days -> 0 <= x < 7 ->
  exists k, 0 <= k < 7
    /\ skip_non_working 7 working_days d = Some (add_days d k)
    /\ weekday (add_days d k) ∈ working_days
    /\ forall j, 0 <= j < k -> weekday (add_days d j) ∉ working_days.
Proof.
  intros Hx Hr.
  destruct (working_day_within_week working_days d x Hx Hr) as (k & Hk & Hin).
  destruct (skip_non_working_first 7 working_days d k ltac:(lia) Hin)
    as (k' & Hk' & Hs & Hw & Hfirst).
  exists k'. repeat split; try lia; assumption.
Qed.

(** When no day of the week is in a non-empty list the loop never exits,
    whatever the number of iterations. *)
Lemma skip_non_working_never fuel : forall (working_days : list Z) d,
  working_days <> [] ->
  (forall x, x ∈ working_days -> ~ 0 <= x < 7) ->
  skip_non_working fuel working_days d = None.
Proof.
  induction fuel as [|fuel IH]; intros wd d Hne Hout; simpl.
  - assert (in_days (weekday d) wd = false) as ->.
    { apply in_days_false. intros Hin. apply (Hout _ Hin), weekday_range. }
    rewrite bool_decide_eq_false_2 by assumption. reflexivity.
  - assert (in_days (weekday d) wd = false) as ->.
    { apply in_days_false. intros Hin. apply (Hout _ Hin), weekday_range. }
    rewrite bool_decide_eq_false_2 by assumption. simpl. now apply IH.
Qed.

(** Seven iterations decide the loop: if it has not stopped by then it
    never stops. *)
Lemma skip_non_working_seven working_days d :
  skip_non_working 7 working_days d = None ->
  forall fuel, skip_non_working fuel working_days d = None.
Proof.
  intros Hnone fuel.
  destruct (decide (working_days = [])) as [->|Hne].
  { rewrite skip_non_working_empty in Hnone. discriminate. }
  apply skip_non_working_never; [assumption|].
  intros x Hx Hr.
  destruct (skip_non_working_total working_days d x Hx Hr) as (k & _ & Hs & _).
  congruence.
Qed.


Lemma utcoff_add_days d n : utcoff (add_days d n) = utcoff d.
Proof. reflexivity. Qed.


Section Reschedule.
Context `{Runtime}.





End Reschedule.


Import AsciiRuntime Office.


(** The example of the specification: Friday 17:30 lands on Monday
    10:00. *)
Example reschedule_friday_monday :
  reschedule office friday_1730 NOT_DONE "normal" = Some monday_1000.
Proof. vm_compute. reflexivity. Qed.


End RescheduleFacts.

(** ** The runtime of the examples on sample inputs *)

Module AsciiRuntimeTests.
Import Py Clock AsciiRuntime.

Example strip_upper : upper (strip "  done
 ") = "DONE".
Proof. reflexivity. Qed.

Example int_of_ms : int_of "1709303400000" = Some 1709303400000.
Proof. reflexivity. Qed.

Example int_of_word : int_of "soon" = None.
Proof. reflexivity. Qed.

Example strftime_friday :
  strftime (wall (at_time day_2024_03_01 17 30 3)) = "2024-03-01 17:30:00".
Proof. reflexivity. Qed.

Example weekday_friday : weekday (at_time day_2024_03_01 17 30 3) = 4.
Proof. reflexivity. Qed.

Example loads_object :
  loads (String "{" (String dquote (String "a" (String dquote ": 1, "
         ++ String dquote (String "b" (String dquote ": [true, null]}"))))))
  = Some (JObj [("a", JNum 1); ("b", JArr [JBool true; JNull])]).
Proof. vm_compute. reflexivity. Qed.

End AsciiRuntimeTests.

(** ** The orchestrator: fetching due tasks *)

Module FetchFacts.
Import Py Clock ReminderSystem.

Lemma foldM_app {A B} (f : B -> A -> option B) l1 l2 acc :
  foldM f (l1 ++ l2) acc =
    match foldM f l1 acc with Some acc' => foldM f l2 acc' | None => None end.
Proof.
  revert acc. induction l1 as [|x l1 IH]; intros acc; simpl; [reflexivity|].
  destruct (f acc x); [apply IH|reflexivity].
Qed.

(** An element on which the body raises makes the loop raise. *)
Lemma foldM_raises {A B} (f : B -> A -> option B) l x acc :
  x ∈ l -> (forall acc', f acc' x = None) -> foldM f l acc = None.
Proof.
  intros Hin Hx. revert acc. induction l as [|y l IH]; intros acc.
  - inversion Hin.
  - simpl. destruct (f acc y) as [acc'|] eqn:Hy; [|reflexivity].
    apply elem_of_cons in Hin as [->|Hin]; [congruence|now apply IH].
Qed.

(** A property the body keeps holds at the end of a loop that returns. *)
Lemma foldM_invariant {A B} (P : B -> Prop) (f : B -> A -> option B) l :
  (forall acc x acc', P acc -> f acc x = Some acc' -> P acc') ->
  forall acc r, P acc -> foldM f l acc = Some r -> P r.
Proof.
  intros Hstep. induction l as [|x l IH]; intros acc r Hacc; simpl.
  - now intros [= <-].
  - destruct (f acc x) as [acc'|] eqn:Hx; [|discriminate].
    apply IH. now apply (Hstep acc x).
Qed.

Lemma extend_lists_grows tr folders : forall lists lists',
  foldM (extend_lists tr) folders lists = Some lists' ->
  (forall item, item ∈ lists -> item ∈ lists')
  /\ (forall folder more item,
        folder ∈ folders -> get_folder_lists tr folder = Some more ->
        item ∈ more -> item ∈ lists').
Proof.
  induction folders as [|f folders IH]; intros lists lists'; simpl.
  - intros [= <-]. split; [auto|]. intros ? ? ? Hin. inversion Hin.
  - unfold extend_lists at 1. destruct (get_folder_lists tr f) as [more0|] eqn:Hf;
      [|discriminate].
    intros Hrest. destruct (IH _ _ Hrest) as [Hkeep Hnew]. split.
    + intros item Hin. apply Hkeep, elem_of_app. now left.
    + intros folder more item Hfolder Hmore Hitem.
      apply elem_of_cons in Hfolder as [->|Hfolder].
      * apply Hkeep, elem_of_app. right. congruence.
      * now apply (Hnew folder more).
Qed.

Section Fetch.
Context `{Runtime}.

Lemma scan_list_raises tr cfg completed_tasks now item :
  list_name item = reminders_list_name cfg ->
  get_list_tasks tr (list_id item) = None ->
  forall acc, scan_list tr cfg completed_tasks now acc item = None.
Proof.
  intros Hname Htasks acc. unfold scan_list.
  rewrite Hname, String.eqb_refl, Htasks. reflexivity.
Qed.

Lemma get_tasks_try_space_raises tr cfg completed_tasks now ws spaces space :
  workspace_id cfg = Some ws -> get_spaces tr ws = Some spaces ->
  space ∈ spaces ->
  (forall acc, scan_space tr cfg completed_tasks now acc space = None) ->
  get_tasks_try tr cfg completed_tasks now = None.
Proof.
  intros Hws Hspaces Hin Hraise. unfold get_tasks_try. rewrite Hws.
  destruct ws; [reflexivity|]. rewrite Hspaces.
  now apply (foldM_raises _ _ space).
Qed.

Lemma transport_error_raises tr cfg completed_tasks now :
  transport_error tr cfg -> get_tasks_try tr cfg completed_tasks now = None.
Proof.
  intros [ws Hws Hs
         |ws spaces space Hws Hs Hin Hf
         |ws spaces space Hws Hs Hin Hl
         |ws spaces space folders folder Hws Hs Hin Hf Hfin Hfl
         |ws spaces space lists item Hws Hs Hin Hl Hitem Hname Ht
         |ws spaces space folders folder more item Hws Hs Hin Hf Hfin Hfl Hitem Hname Ht].
  - unfold get_tasks_try. rewrite Hws. destruct ws; [reflexivity|now rewrite Hs].
  - apply (get_tasks_try_space_raises _ _ _ _ ws spaces space); try assumption.
    intros acc. unfold scan_space. now rewrite Hf.
  - apply (get_tasks_try_space_raises _ _ _ _ ws spaces space); try assumption.
    intros acc. unfold scan_space. rewrite Hl. now destruct (get_folders tr space).
  - apply (get_tasks_try_space_raises _ _ _ _ ws spaces space); try assumption.
    intros acc. unfold scan_space. rewrite Hf.
    destruct (get_space_lists tr space) as [lists|]; [|reflexivity].
    rewrite (foldM_raises (extend_lists tr) folders folder lists Hfin); [reflexivity|].
    intros acc'. unfold extend_lists. now rewrite Hfl.
  - apply (get_tasks_try_space_raises _ _ _ _ ws spaces space); try assumption.
    intros acc. unfold scan_space. rewrite Hl.
    destruct (get_folders tr space) as [folders|]; [|reflexivity].
    destruct (foldM (extend_lists tr) folders lists) as [lists'|] eqn:Hext;
      [|reflexivity].
    apply (foldM_raises _ _ item).
    + now apply (extend_lists_grows _ _ _ _ Hext).
    + now apply scan_list_raises.
  - apply (get_tasks_try_space_raises _ _ _ _ ws spaces space); try assumption.
    intros acc. unfold scan_space. rewrite Hf.
    destruct (get_space_lists tr space) as [lists|]; [|reflexivity].
    destruct (foldM (extend_lists tr) folders lists) as [lists'|] eqn:Hext;
      [|reflexivity].
    apply (foldM_raises _ _ item).
    + now apply (proj2 (extend_lists_grows _ _ _ _ Hext) folder more).
    + now apply scan_list_raises.
Qed.

(** *** The ledger filter *)

Lemma keep_due_task_not_ledgered completed_tasks now acc task acc' :
  not_ledgered completed_tasks acc ->
  keep_due_task completed_tasks now acc task = Some acc' ->
  not_ledgered completed_tasks acc'.
Proof.
  intros Hacc. unfold keep_due_task.
  destruct (task_due_date task) as [[|c due]|]; try (now intros [= <-]).
  destruct (py_int _) as [ms|]; [|discriminate].
  destruct (_ <=? _); [|now intros [= <-]].
  destruct (_is_task_completed (task_id task) completed_tasks) eqn:Hled; simpl;
    intros [= <-]; [assumption|].
  intros t Ht. apply elem_of_app in Ht as [Ht|Ht]; [now apply Hacc|].
  apply list_elem_of_singleton in Ht. now subst t.
Qed.

Lemma scan_list_not_ledgered tr cfg completed_tasks now acc item acc' :
  not_ledgered completed_tasks acc ->
  scan_list tr cfg completed_tasks now acc item = Some acc' ->
  not_ledgered completed_tasks acc'.
Proof.
  intros Hacc. unfold scan_list. destruct (String.eqb _ _); [|now intros [= <-]].
  destruct (get_list_tasks tr _) as [tasks|]; [|discriminate].
  apply foldM_invariant; [|assumption].
  intros ? ? ?. apply keep_due_task_not_ledgered.
Qed.

Lemma scan_space_not_ledgered tr cfg completed_tasks now acc space acc' :
  not_ledgered completed_tasks acc ->
  scan_space tr cfg completed_tasks now acc space = Some acc' ->
  not_ledgered completed_tasks acc'.
Proof.
  intros Hacc. unfold scan_space.
  destruct (get_folders tr space); [|discriminate].
  destruct (get_space_lists tr space); [|discriminate].
  destruct (foldM (extend_lists tr) _ _); [|discriminate].
  apply foldM_invariant; [|assumption].
  intros ? ? ?. apply scan_list_not_ledgered.
Qed.

Lemma get_tasks_not_ledgered tr cfg completed_tasks now :
  not_ledgered completed_tasks (get_tasks_for_reminder tr cfg completed_tasks now).
Proof.
  unfold get_tasks_for_reminder.
  destruct (get_tasks_try tr cfg completed_tasks now) as [tasks|] eqn:Htry.
  - revert Htry. unfold get_tasks_try.
    destruct (workspace_id cfg) as [[|c ws]|]; try discriminate.
    destruct (get_spaces tr _); [|discriminate].
    apply foldM_invariant.
    + intros ? ? ?. apply scan_space_not_ledgered.
    + intros t Ht. inversion Ht.
  - intros t Ht. inversion Ht.
Qed.

End Fetch.

End FetchFacts.

(** ** The orchestrator: applying a status *)

Module UpdateFacts.
Import Py Clock ReminderSystem.

Lemma is_task_completed_true task_id (completed_tasks : ledger) :
  _is_task_completed task_id completed_tasks = true <->
  is_Some (completed_tasks !! task_id).
Proof. unfold _is_task_completed. apply bool_decide_eq_true. Qed.

Lemma mark_task_completed_recorded task_id task_name now completed_tasks :
  _is_task_completed task_id
    (_mark_task_completed true task_id task_name now completed_tasks) = true.
Proof.
  apply is_task_completed_true. unfold _mark_task_completed, _save_completed_tasks.
  rewrite lookup_insert_eq. eauto.
Qed.

(** A failed write leaves the file as it was. *)
Lemma mark_task_completed_unwritable task_id task_name now completed_tasks :
  _mark_task_completed false task_id task_name now completed_tasks = completed_tasks.
Proof. reflexivity. Qed.




Section Update.
Context `{Runtime}.

(** The PUT request touches the trace only: the request itself, then at
    most one notification. *)
Lemma send_update_world tr cfg task_id payload w :
  exists notes,
    snd (send_update tr cfg task_id payload w) =
      {| completed := completed w; ledger_writable := ledger_writable w;
         trace := trace w ++ EvPut task_id payload :: notes |}
    /\ Forall (fun ev => is_notification ev = true) notes.
Proof.
  unfold send_update. destruct (put_task tr task_id payload) as [code|].
  - destruct (code =? 200).
    + destruct (notify_status_updates cfg).
      * exists [EvTelegramStatusUpdate task_id]. split; [|repeat constructor].
        unfold emit. simpl. now rewrite <- app_assoc.
      * exists []. split; [reflexivity|constructor].
    + destruct (notify_errors cfg).
      * exists [EvTelegramError task_id]. split; [|repeat constructor].
        unfold emit. simpl. now rewrite <- app_assoc.
      * exists []. split; [reflexivity|constructor].
  - exists []. split; [reflexivity|constructor].
Qed.


(** A ledgered task is left alone, whatever the status. *)
Lemma update_ledgered_noop tr cfg now task_id status task_data w :
  _is_task_completed task_id (completed w) = true ->
  update_task_in_clickup tr cfg now task_id status task_data w = (Returned, w).
Proof. intros Hled. unfold update_task_in_clickup. now rewrite Hled. Qed.




End Update.



Import AsciiRuntime Office.


Example done_put_raises_trace :
  map (fun ev => match ev with
                 | EvLedgerWrite _ _ => "ledger"
                 | EvPut _ _ => "put"
                 | _ => "other"
                 end)
    (trace (snd (update_task_in_clickup (one_list [report] PutRaises) office
                   monday_1200 "t1" DONE (TaskDict report) empty_world)))
  = ["ledger"; "put"].
Proof. vm_compute. reflexivity. Qed.


End UpdateFacts.

(** ** The orchestrator: the working-hours gate *)

Module RunFacts.
Import Py Clock ClockFacts ReminderSystem.

Lemma wall_split d : wall d = day_number d * US_PER_DAY + time_of_day d.
Proof. clock_lia. Qed.

Section Gate.
Context `{Runtime}.

(** Outside the configured days or the configured window the check does
    not answer [True]. *)
Lemma is_working_hours_closed cfg now start_hour start_minute end_hour end_minute :
  resolve_time (wh_start (working_hours cfg)) (10, 0) = (start_hour, start_minute) ->
  resolve_time (wh_end (working_hours cfg)) (18, 0) = (end_hour, end_minute) ->
  (gate_working_days (working_hours cfg) <> []
   /\ weekday now ∉ gate_working_days (working_hours cfg))
  \/ time_of_day now < start_hour * US_PER_HOUR + start_minute * US_PER_MINUTE
  \/ end_hour * US_PER_HOUR + end_minute * US_PER_MINUTE <= time_of_day now ->
  _is_working_hours cfg now <> Some true.
Proof.
  intros Hs He Hclosed. unfold _is_working_hours. rewrite Hs, He.
  destruct (negb (bool_decide (gate_working_days (working_hours cfg) = []))
            && negb (in_days (weekday now) (gate_working_days (working_hours cfg))))
    eqn:Hday; [discriminate|].
  destruct (replace_hms0 now start_hour start_minute) as [start_dt|] eqn:Hsd;
    [|discriminate].
  destruct (replace_hms0 now end_hour end_minute) as [end_dt|] eqn:Hed;
    [|discriminate].
  apply replace_hms0_wall in Hsd as (Hsw & _). apply replace_hms0_wall in Hed as (Hew & _).
  destruct Hclosed as [[Hne Hout]|Hwindow].
  - apply andb_false_iff in Hday as [Hd|Hd]; apply negb_false_iff in Hd.
    + apply bool_decide_eq_true in Hd. contradiction.
    + apply bool_decide_eq_true in Hd. contradiction.
  - intros [= Hopen]. apply andb_true_iff in Hopen as [Hle Hlt].
    apply Z.leb_le in Hle. apply Z.ltb_lt in Hlt.
    rewrite Hsw in Hle. rewrite Hew in Hlt. rewrite (wall_split now) in Hle, Hlt. lia.
Qed.

(** On a configured day (or with no days configured) and inside a valid
    window it answers [True]. *)
Lemma is_working_hours_open cfg now start_hour start_minute end_hour end_minute :
  resolve_time (wh_start (working_hours cfg)) (10, 0) = (start_hour, start_minute) ->
  resolve_time (wh_end (working_hours cfg)) (18, 0) = (end_hour, end_minute) ->
  0 <= start_hour <= 23 -> 0 <= start_minute <= 59 ->
  0 <= end_hour <= 23 -> 0 <= end_minute <= 59 ->
  (gate_working_days (working_hours cfg) = []
   \/ weekday now ∈ gate_working_days (working_hours cfg)) ->
  start_hour * US_PER_HOUR + start_minute * US_PER_MINUTE <= time_of_day now
    < end_hour * US_PER_HOUR + end_minute * US_PER_MINUTE ->
  _is_working_hours cfg now = Some true.
Proof.
  intros Hs He Hsh Hsm Heh Hem Hday Hwin. unfold _is_working_hours. rewrite Hs, He.
  replace (negb _ && negb _) with false.
  2:{ symmetry. apply andb_false_iff. destruct Hday as [Hd|Hd].
      - left. now rewrite bool_decide_eq_true_2.
      - right. unfold in_days. now rewrite bool_decide_eq_true_2. }
  unfold replace_hms0.
  replace (0 <=? start_hour) with true by lia. replace (start_hour <=? 23) with true by lia.
  replace (0 <=? start_minute) with true by lia.
  replace (start_minute <=? 59) with true by lia.
  replace (0 <=? end_hour) with true by lia. replace (end_hour <=? 23) with true by lia.
  replace (0 <=? end_minute) with true by lia. replace (end_minute <=? 59) with true by lia.
  cbn [andb wall]. f_equal. apply andb_true_iff. split.
  - apply Z.leb_le. pose proof (wall_split now) as Hw.
    unfold time_of_day, day_number in *. lia.
  - apply Z.ltb_lt. pose proof (wall_split now) as Hw.
    unfold time_of_day, day_number in *. lia.
Qed.

Section Cycle.
Variable _extract_recipient_name : string -> option string.
Variable contact_phone : string -> option string.
Variable process_batch_tasks : list raw_task -> string -> string -> world -> world.

(** Whatever a call does, it does not take back what was done before. *)
Hypothesis process_batch_tasks_extends : forall tasks recipient phone w,
  exists evs, trace (process_batch_tasks tasks recipient phone w) = trace w ++ evs.

Lemma process_recipient_extends w group :
  exists evs, trace (process_recipient contact_phone process_batch_tasks w group)
              = trace w ++ evs.
Proof.
  unfold process_recipient. destruct (contact_phone (fst group)) as [phone|].
  - destruct (process_batch_tasks_extends (snd group) (fst group) phone
                (emit (EvBatchCall (fst group) phone (map task_id (snd group))) w))
      as [evs Hevs].
    rewrite Hevs. simpl. rewrite <- app_assoc. eauto.
  - exists []. now rewrite app_nil_r.
Qed.

Lemma process_recipients_extend groups : forall w,
  exists evs,
    trace (fold_left (process_recipient contact_phone process_batch_tasks) groups w)
    = trace w ++ evs.
Proof.
  induction groups as [|g groups IH]; intros w; simpl.
  - exists []. now rewrite app_nil_r.
  - destruct (IH (process_recipient contact_phone process_batch_tasks w g)) as [evs Hevs].
    destruct (process_recipient_extends w g) as [evs0 Hevs0].
    rewrite Hevs, Hevs0, <- app_assoc. eauto.
Qed.

(** The cycle starts by fetching. *)
Lemma cycle_fetches tr cfg now w :
  exists evs,
    trace (snd (cycle _extract_recipient_name contact_phone process_batch_tasks
                  tr cfg now w))
    = trace w ++ EvFetchTasks :: evs.
Proof.
  unfold cycle.
  destruct (get_tasks_for_reminder tr cfg (completed (emit EvFetchTasks w)) now)
    as [|task tasks].
  - exists []. reflexivity.
  - destruct (foldM (group_task _extract_recipient_name) (task :: tasks) [])
      as [groups|].
    + destruct (process_recipients_extend groups (emit EvFetchTasks w)) as [evs Hevs].
      exists evs. cbn [snd]. rewrite Hevs. simpl. now rewrite <- app_assoc.
    + exists []. reflexivity.
Qed.

End Cycle.
End Gate.

(** C8: outside the configured days or outside the start/end window, a run
    without the override flag leaves the world as it found it: nothing is
    fetched, no call is placed, the ledger is untouched.  With the flag the
    run is the cycle itself, whatever the time: it starts by fetching the
    due tasks. *)
Theorem run_gate `{Runtime} _extract_recipient_name contact_phone process_batch_tasks
    tr cfg now w start_hour start_minute end_hour end_minute :
  resolve_time (wh_start (working_hours cfg)) (10, 0) = (start_hour, start_minute) ->
  resolve_time (wh_end (working_hours cfg)) (18, 0) = (end_hour, end_minute) ->
  ((gate_working_days (working_hours cfg) <> []
    /\ weekday now ∉ gate_working_days (working_hours cfg))
   \/ time_of_day now < start_hour * US_PER_HOUR + start_minute * US_PER_MINUTE
   \/ end_hour * US_PER_HOUR + end_minute * US_PER_MINUTE <= time_of_day now ->
   snd (run _extract_recipient_name contact_phone process_batch_tasks false
          tr cfg now w) = w)
  /\ run _extract_recipient_name contact_phone process_batch_tasks true tr cfg now w
     = cycle _extract_recipient_name contact_phone process_batch_tasks tr cfg now w
  /\ ((forall tasks recipient phone w0,
         exists evs,
           trace (process_batch_tasks tasks recipient phone w0) = trace w0 ++ evs) ->
      exists evs,
        trace (snd (run _extract_recipient_name contact_phone process_batch_tasks true
                      tr cfg now w))
        = trace w ++ EvFetchTasks :: evs).
Proof.
  intros Hs He. split; [|split].
  - intros Hclosed.
    pose proof (is_working_hours_closed cfg now _ _ _ _ Hs He Hclosed) as Hno.
    unfold run. destruct (_is_working_hours cfg now) as [[|]|]; try reflexivity.
    congruence.
  - reflexivity.
  - intros Hext. now apply cycle_fetches.
Qed.

Import AsciiRuntime Office.

(** Saturday noon with Monday to Friday configured: nothing happens. *)
Lemma run_saturday_skipped :
  snd (run to_alex alex_phone silent_call false (one_list [report] (PutStatus 200))
         office saturday_1200 empty_world) = empty_world.
Proof.
  refine (proj1 (run_gate to_alex alex_phone silent_call
                   (one_list [report] (PutStatus 200)) office saturday_1200
                   empty_world 10 0 18 0 eq_refl eq_refl) _).
  left. split; [discriminate|].
  intros Hin. apply list_elem_of_In in Hin. vm_compute in Hin.
  repeat destruct Hin as [Hin|Hin]; try discriminate; assumption.
Defined.

Example run_saturday_forced :
  trace (snd (run to_alex alex_phone silent_call true
                (one_list [report] (PutStatus 200)) office saturday_1200 empty_world))
  = [EvFetchTasks; EvBatchCall "Alex" "+70000000000" ["t1"]].
Proof. vm_compute. reflexivity. Qed.

Example run_monday_noon :
  run to_alex alex_phone silent_call false (one_list [report] (PutStatus 200))
    office monday_1200 empty_world
  = cycle to_alex alex_phone silent_call (one_list [report] (PutStatus 200))
      office monday_1200 empty_world.
Proof. vm_compute. reflexivity. Qed.

End RunFacts.

(** ** Failures of the tracker and the ledger across the two fetches *)

Module TrackerFacts.
Import Py Clock.

Lemma engine_error_raises `{Runtime} client config now :
  ClickUpEngine.engine_error client config ->
  ClickUpEngine.fetch_pending_reminders client config now = None.
Proof.
  unfold ClickUpEngine.fetch_pending_reminders.
  intros [Hid Hfind|list_id Hne Hid Hfetch|list_id Hne Hid Hfind Hfetch].
  - destruct Hid as [-> | ->]; now rewrite Hfind.
  - rewrite Hid. destruct list_id; [contradiction|]. now rewrite Hfetch.
  - destruct Hid as [-> | ->]; rewrite Hfind; (destruct list_id; [contradiction|]);
      now rewrite Hfetch.
Qed.

(** C7: a request that fails while the due tasks are fetched makes the
    fetch return the empty list: the orchestrator's traversal (and the cycle
    around it returns normally, having done nothing but the fetch), and the
    chat service's fetch through the engine. *)
Theorem fetch_transport_error_empty `{Runtime} :
  (forall tr cfg completed_tasks now,
     ReminderSystem.transport_error tr cfg ->
     ReminderSystem.get_tasks_for_reminder tr cfg completed_tasks now = [])
  /\ (forall _extract_recipient_name contact_phone process_batch_tasks tr cfg now w,
        ReminderSystem.transport_error tr cfg ->
        ReminderSystem.run _extract_recipient_name contact_phone process_batch_tasks
          true tr cfg now w
        = (ReminderSystem.Returned, ReminderSystem.emit ReminderSystem.EvFetchTasks w))
  /\ (forall st e limit,
        ClickUpEngine.engine_error (TelegramReminderService.engine_client e)
          (TelegramReminderService.engine_config st) ->
        TelegramReminderService.fetch_pending_tasks st e limit = []).
Proof.
  split; [|split].
  - intros tr cfg completed_tasks now Herr.
    unfold ReminderSystem.get_tasks_for_reminder.
    now rewrite (FetchFacts.transport_error_raises tr cfg completed_tasks now Herr).
  - intros extract phone batch tr cfg now w Herr.
    unfold ReminderSystem.run, ReminderSystem.cycle,
      ReminderSystem.get_tasks_for_reminder.
    now rewrite (FetchFacts.transport_error_raises tr cfg _ now Herr).
  - intros st e limit Herr. unfold TelegramReminderService.fetch_pending_tasks.
    now rewrite (engine_error_raises _ _ _ Herr).
Qed.

(** C2, as the code has it: a task with a record in the ledger is in no
    list returned by the orchestrator's fetch of due tasks, and applying a
    status to it does nothing. *)
Theorem ledgered_task_excluded `{Runtime} tr cfg now task_id (w : ReminderSystem.world) :
  ReminderSystem._is_task_completed task_id (ReminderSystem.completed w) = true ->
  (forall task,
     task ∈ ReminderSystem.get_tasks_for_reminder tr cfg (ReminderSystem.completed w) now ->
     ReminderSystem.task_id task <> task_id)
  /\ (forall status task_data,
        ReminderSystem.update_task_in_clickup tr cfg now task_id status task_data w
        = (ReminderSystem.Returned, w)).
Proof.
  intros Hled. split.
  - intros task Hin Heq.
    pose proof (FetchFacts.get_tasks_not_ledgered tr cfg _ now task Hin) as Hno.
    rewrite Heq, Hled in Hno. discriminate.
  - intros. now apply UpdateFacts.update_ledgered_noop.
Qed.

Import AsciiRuntime Office.

(** The tracker is down: no task this cycle. *)
Lemma fetch_offline_empty :
  ReminderSystem.get_tasks_for_reminder offline office ∅ monday_1200 = [].
Proof.
  apply (proj1 fetch_transport_error_empty).
  now apply (ReminderSystem.spaces_request_fails offline office "9001").
Defined.

Lemma ledgered_report_skipped :
  ReminderSystem.update_task_in_clickup (one_list [report] (ReminderSystem.PutStatus 200))
    office monday_1200 "t1" ReminderSystem.NOT_DONE (ReminderSystem.TaskDict report)
    after_done
  = (ReminderSystem.Returned, after_done).
Proof.
  apply (ledgered_task_excluded (one_list [report] (ReminderSystem.PutStatus 200))
           office monday_1200 "t1" after_done).
  vm_compute. reflexivity.
Defined.

(** C2, as stated, fails: with [t1] in the ledger and still open in the
    tracker, the orchestrator's fetch leaves it out, but the engine's fetch,
    which reads no ledger, returns it. *)
Lemma engine_fetch_ignores_ledger :
  ReminderSystem._is_task_completed "t1" (ReminderSystem.completed after_done) = true
  /\ ReminderSystem.get_tasks_for_reminder (one_list [report] (ReminderSystem.PutStatus 200))
       office (ReminderSystem.completed after_done) monday_1200 = []
  /\ map ClickUpEngine.task_id
       (TelegramReminderService.fetch_pending_tasks (chat true)
          (chat_env monday_1200 (client [engine_report] (Some true)) None) None)
     = ["t1"].
Proof. repeat split; vm_compute; reflexivity. Qed.

End TrackerFacts.

(** ** The response classifier *)

Module ClassifierFacts.
Import Py Clock ReminderSystem.

Lemma dict_get_set_eq {A} (d : list (string * A)) k v :
  dict_get (dict_set d k v) k = Some v.
Proof.
  induction d as [|[k' v'] d IH]; simpl.
  - now rewrite String.eqb_refl.
  - destruct (String.eqb k' k) eqn:Hk; simpl; now rewrite Hk.
Qed.

Lemma dict_get_set_ne {A} (d : list (string * A)) k k' v :
  k <> k' -> dict_get (dict_set d k v) k' = dict_get d k'.
Proof.
  intros Hne. induction d as [|[k0 v0] d IH]; simpl.
  - now apply String.eqb_neq in Hne as ->.
  - destruct (String.eqb k0 k) eqn:Hk; simpl.
    + apply String.eqb_eq in Hk as ->. now apply String.eqb_neq in Hne as ->.
    + now rewrite IH.
Qed.

Lemma dict_has_true {A} (d : list (string * A)) k :
  dict_has d k = true <-> is_Some (dict_get d k).
Proof.
  unfold dict_has. destruct (dict_get d k); split; eauto; try discriminate.
  intros [? [=]].
Qed.

(** On an object the loop adds [UNCLEAR] for the ids that are missing and
    keeps every entry that is there. *)
Lemma fill_missing_object tasks : forall d,
  exists d',
    fill_missing tasks (JObj d) = Some (JObj d')
    /\ (forall task, task ∈ tasks -> is_Some (dict_get d' (task_id task)))
    /\ (forall k v, dict_get d k = Some v -> dict_get d' k = Some v)
    /\ (forall k, dict_get d k = None ->
          dict_get d' k = None \/ dict_get d' k = Some (JStr UNCLEAR)).
Proof.
  induction tasks as [|t tasks IH]; intros d.
  - exists d. repeat split; auto. intros task Hin. inversion Hin.
  - cbn [fill_missing]. destruct (dict_has d (task_id t)) eqn:Hhas.
    + destruct (IH d) as (d' & Hfill & Hall & Hkeep & Hnew).
      exists d'. split; [assumption|]. split; [|now split].
      intros task Hin. apply elem_of_cons in Hin as [->|Hin]; [|now apply Hall].
      apply dict_has_true in Hhas as [v Hv]. rewrite (Hkeep _ _ Hv). eauto.
    + destruct (IH (dict_set d (task_id t) (JStr UNCLEAR)))
        as (d' & Hfill & Hall & Hkeep & Hnew).
      assert (Hnone : dict_get d (task_id t) = None).
      { unfold dict_has in Hhas. now destruct (dict_get d (task_id t)). }
      exists d'. split; [assumption|]. split; [|split].
      * intros task Hin. apply elem_of_cons in Hin as [->|Hin]; [|now apply Hall].
        rewrite (Hkeep _ _ (dict_get_set_eq d _ _)). eauto.
      * intros k v Hk. apply Hkeep.
        rewrite dict_get_set_ne; [assumption|]. intros <-. congruence.
      * intros k Hk. destruct (String.eqb_spec (task_id t) k) as [<-|Hne].
        { right. apply Hkeep, dict_get_set_eq. }
        apply Hnew. now rewrite dict_get_set_ne.
Qed.

(** The fallback gives [UNCLEAR] to every listed id. *)
Lemma all_unclear_complete tasks :
  exists d, all_unclear tasks = JObj d
    /\ forall task, task ∈ tasks -> dict_get d (task_id task) = Some (JStr UNCLEAR).
Proof.
  unfold all_unclear. eexists. split; [reflexivity|].
  assert (Hgen : forall d0,
    (forall task, task ∈ tasks ->
       dict_get (fold_left (fun d task => dict_set d (task_id task) (JStr UNCLEAR))
                   tasks d0) (task_id task) = Some (JStr UNCLEAR))
    /\ (forall k, dict_get d0 k = Some (JStr UNCLEAR) ->
          dict_get (fold_left (fun d task => dict_set d (task_id task) (JStr UNCLEAR))
                      tasks d0) k = Some (JStr UNCLEAR))).
  { induction tasks as [|t tasks IH]; intros d0; simpl.
    - split; [intros task Hin; inversion Hin|auto].
    - destruct (IH (dict_set d0 (task_id t) (JStr UNCLEAR))) as [Hin Hkeep]. split.
      + intros task Ht. apply elem_of_cons in Ht as [->|Ht]; [|now apply Hin].
        apply Hkeep, dict_get_set_eq.
      + intros k Hk. apply Hkeep.
        destruct (String.eqb_spec (task_id t) k) as [<-|Hne];
          [apply dict_get_set_eq|now rewrite dict_get_set_ne]. }
  apply Hgen.
Qed.

Section Classifier.
Context `{Runtime}.

(** The oracle cannot be reached, or answers without content. *)
Lemma analyze_response_unavailable oracle text name :
  oracle text name = None \/ oracle text name = Some None ->
  analyze_response_with_ai oracle text name = UNCLEAR.
Proof. unfold analyze_response_with_ai. now intros [-> | ->]. Qed.

Lemma analyze_response_content oracle text name content :
  oracle text name = Some (Some content) ->
  analyze_response_with_ai oracle text name = py_upper (py_strip content).
Proof. unfold analyze_response_with_ai. now intros ->. Qed.

(** Whatever goes wrong inside the [try] block, every listed id gets
    [UNCLEAR]. *)
Lemma analyze_batch_fallback oracle text tasks :
  analyze_batch_try oracle text tasks = None ->
  analyze_batch_response oracle text tasks = all_unclear tasks.
Proof. unfold analyze_batch_response. now intros ->. Qed.

(** An object from the oracle is completed with [UNCLEAR]. *)
Lemma analyze_batch_object oracle text tasks content result_text d :
  forallb (fun task => bool_decide (is_Some (task_name task))) tasks = true ->
  oracle text tasks = Some (Some content) ->
  strip_fences (py_strip content) = Some result_text ->
  json_loads result_text = Some (JObj d) ->
  exists d',
    analyze_batch_response oracle text tasks = JObj d'
    /\ (forall task, task ∈ tasks -> is_Some (dict_get d' (task_id task)))
    /\ (forall k v, dict_get d k = Some v -> dict_get d' k = Some v)
    /\ (forall k, dict_get d k = None ->
          dict_get d' k = None \/ dict_get d' k = Some (JStr UNCLEAR)).
Proof.
  intros Hnames Horacle Hstrip Hloads.
  destruct (fill_missing_object tasks d) as (d' & Hfill & Hrest).
  exists d'. split; [|exact Hrest].
  unfold analyze_batch_response, analyze_batch_try.
  now rewrite Hnames, Horacle, Hstrip, Hloads, Hfill.
Qed.

Lemma fill_missing_array tasks items :
  Forall (fun task => existsb (json_is_str (task_id task)) items = true) tasks ->
  fill_missing tasks (JArr items) = Some (JArr items).
Proof.
  induction 1 as [|t tasks Ht _ IH]; [reflexivity|].
  cbn [fill_missing]. now rewrite Ht.
Qed.

End Classifier.

(** C3 does not hold of the code: an answer of the oracle is returned as
    it is, stripped and upper-cased; when that text is none of the five
    labels the classifier returns it all the same, not [UNCLEAR]. *)
Theorem analyze_response_keeps_oracle_output `{Runtime} oracle text name content :
  oracle text name = Some (Some content) ->
  py_upper (py_strip content) ∉ labels ->
  analyze_response_with_ai oracle text name = py_upper (py_strip content)
  /\ (analyze_response_with_ai oracle text name ∉ labels)
  /\ analyze_response_with_ai oracle text name <> UNCLEAR.
Proof.
  intros Horacle Hout. rewrite (analyze_response_content _ _ _ _ Horacle).
  split; [reflexivity|]. split; [assumption|].
  intros Heq. apply Hout. rewrite Heq. unfold labels. set_solver.
Qed.

(** C6 does not hold of the code: when the oracle answers with a JSON array
    that holds every listed id, the membership test finds nothing missing
    and the array itself is returned, which maps no id to a label. *)
Theorem analyze_batch_returns_array `{Runtime} oracle text tasks content result_text
    items :
  forallb (fun task => bool_decide (is_Some (task_name task))) tasks = true ->
  oracle text tasks = Some (Some content) ->
  strip_fences (py_strip content) = Some result_text ->
  json_loads result_text = Some (JArr items) ->
  Forall (fun task => existsb (json_is_str (task_id task)) items = true) tasks ->
  analyze_batch_response oracle text tasks = JArr items
  /\ forall d, analyze_batch_response oracle text tasks <> JObj d.
Proof.
  intros Hnames Horacle Hstrip Hloads Hall.
  assert (Hres : analyze_batch_response oracle text tasks = JArr items).
  { unfold analyze_batch_response, analyze_batch_try.
    now rewrite Hnames, Horacle, Hstrip, Hloads, (fill_missing_array _ _ Hall). }
  split; [exact Hres|]. intros d. rewrite Hres. discriminate.
Qed.

Import AsciiRuntime Office.

Lemma not_a_label s : is_label s = false -> s ∉ labels.
Proof. unfold is_label. apply bool_decide_eq_false. Qed.

(** The oracle answers with the label and a full stop. *)
Lemma analyze_response_done_with_stop :
  analyze_response_with_ai (fun _ _ => Some (Some done_with_stop))
    "да, всё готово" "Позвонить клиенту" = done_with_stop
  /\ is_label done_with_stop = false.
Proof.
  split; [|vm_compute; reflexivity].
  refine (proj1 (analyze_response_keeps_oracle_output
                   (fun _ _ => Some (Some done_with_stop))
                   "да, всё готово" "Позвонить клиенту" done_with_stop eq_refl _)).
  apply not_a_label. vm_compute. reflexivity.
Defined.

(** The oracle answers with the array of the ids. *)
Lemma analyze_batch_array_answer :
  analyze_batch_response (fun _ _ => Some (Some array_answer))
    "первую сделал" [report] = JArr [JStr "t1"].
Proof.
  refine (proj1 (analyze_batch_returns_array (fun _ _ => Some (Some array_answer))
                   "первую сделал" [report] array_answer array_answer [JStr "t1"]
                   eq_refl eq_refl _ _ _)).
  - vm_compute. reflexivity.
  - vm_compute. reflexivity.
  - repeat constructor.
Defined.

(** The paths that do what is asked: a label, a fenced object with an id
    missing, an answer that is no JSON, an oracle that cannot be reached. *)
Example analyze_response_label :
  analyze_response_with_ai (fun _ _ => Some (Some (" " ++ DONE ++ nl)%string))
    "готово" "Позвонить клиенту" = DONE.
Proof. vm_compute. reflexivity. Qed.

Example analyze_batch_fenced :
  analyze_batch_response (fun _ _ => Some (Some fenced_answer)) "первую сделал"
    [report; second]
  = JObj [("t1", JStr DONE); ("t2", JStr UNCLEAR)].
Proof. vm_compute. reflexivity. Qed.

(** A value that is no label is kept as well. *)
Example analyze_batch_free_word :
  analyze_batch_response (fun _ _ => Some (Some free_word_answer)) "первую сделал"
    [report]
  = JObj [("t1", JStr "ГОТОВО")].
Proof. vm_compute. reflexivity. Qed.

Example analyze_batch_not_json :
  analyze_batch_response (fun _ _ => Some (Some "не знаю")) "первую сделал"
    [report; second]
  = JObj [("t1", JStr UNCLEAR); ("t2", JStr UNCLEAR)].
Proof. vm_compute. reflexivity. Qed.

Example analyze_batch_unreachable :
  analyze_batch_response (fun _ _ => None) "первую сделал" [report; second]
  = JObj [("t1", JStr UNCLEAR); ("t2", JStr UNCLEAR)].
Proof. vm_compute. reflexivity. Qed.

End ClassifierFacts.

(** ** The chat service: callbacks *)

Module CallbackFacts.
Import Py Clock TelegramReminderService.

Lemma applied_count_app evs1 evs2 :
  applied_count (evs1 ++ evs2) = (applied_count evs1 + applied_count evs2)%nat.
Proof. unfold applied_count. now rewrite List.filter_app, List.length_app. Qed.

Lemma success_count_app id evs1 evs2 :
  success_count id (evs1 ++ evs2) = (success_count id evs1 + success_count id evs2)%nat.
Proof. unfold success_count. now rewrite List.filter_app, List.length_app. Qed.

Lemma answer_counts id callback_id :
  applied_count (answer callback_id) = 0%nat
  /\ success_count id (answer callback_id) = 0%nat.
Proof. destruct callback_id as [[|c rest]|]; split; reflexivity. Qed.

Lemma notify_chat_counts id chat_id :
  applied_count (notify_chat chat_id) = 0%nat
  /\ success_count id (notify_chat chat_id) = 0%nat.
Proof. destruct chat_id as [[|c rest]|]; split; reflexivity. Qed.


Section Callbacks.
Context `{Runtime}.


Lemma postpone_counts id st e task_id postpone_hours :
  let r := _postpone_task_due_date st e task_id postpone_hours in
  success_count id (snd r) = 0%nat
  /\ (applied_count (snd r) <= 1)%nat
  /\ (fst r = Raised -> applied_count (snd r) = 0%nat).
Proof.
  unfold _postpone_task_due_date. destruct postpone_hours as [h|].
  2:{ cbn. repeat split; unfold applied_count; simpl; lia. }
  destruct (negb (positive_hours (Some h))).
  { cbn. repeat split; unfold applied_count; simpl; lia. }
  destruct (postpone_base st e (fetch_task e task_id)) as [base_due has_current].
  destruct (update_task e task_id _); cbn; repeat split; try reflexivity;
    try (unfold applied_count; simpl; lia); discriminate.
Qed.

Lemma append_log_written st e entry s :
  callback_log_enabled st = true -> log_write_ok e = true ->
  _append_callback_log st e entry s =
    {| _processed_callback_ids :=
         if entry_success entry
         then match entry_callback_id entry with
              | Some (String c rest) => {[String c rest]} ∪ _processed_callback_ids s
              | _ => _processed_callback_ids s
              end
         else _processed_callback_ids s;
       callback_log :=
         Some (default [] (_prune_callback_log_if_needed st (callback_log s)) ++ [entry]);
       trace := trace s ++ [EvLogAppend entry] |}.
Proof. intros Hen Hok. unfold _append_callback_log. now rewrite Hen, Hok. Qed.

Lemma append_log_disabled st e entry s :
  callback_log_enabled st = false -> _append_callback_log st e entry s = s.
Proof. intros Hen. unfold _append_callback_log. now rewrite Hen. Qed.

(** A callback whose id has a success entry is dropped before anything
    else is looked at. *)
Lemma handle_callback_processed st e cb s id :
  cb_id cb = Some id -> id <> EmptyString -> id ∈ _processed_callback_ids s ->
  handle_callback st e cb s = (Returned, s).
Proof.
  intros Hid Hne Hin. unfold handle_callback, _is_callback_processed. rewrite Hid.
  destruct id as [|c rest]; [contradiction|].
  now rewrite bool_decide_eq_true_2.
Qed.






End Callbacks.



Import AsciiRuntime Office.


Example done_pressed_thrice_counts :
  let s := replay (chat true) done_pressed
             (replicate 3 (chat_env monday_1200 (client [engine_report] (Some true)) None))
             (startup (chat true) None) in
  applied_count (trace s) = 1%nat /\ success_count "cb1" (trace s) = 1%nat.
Proof. vm_compute. split; reflexivity. Qed.


End CallbackFacts.

(** ** The chat service: postponing a task *)

Module PostponeFacts.
Import Py Clock TelegramReminderService.



(** [timedelta(hours=n)] for a whole number of hours. *)
Lemma timedelta_hours_whole n : timedelta_hours (inject_Z n) = n * US_PER_HOUR.
Proof.
  unfold timedelta_hours.
  assert (Hfloor : Qfloor (Qmult (inject_Z n) (inject_Z US_PER_HOUR)) = n * US_PER_HOUR).
  { unfold Qfloor, Qmult, inject_Z. simpl. now rewrite Z.div_1_r. }
  rewrite Hfloor.
  replace (Qcompare _ _) with Lt; [reflexivity|].
  symmetry. unfold Qcompare, Qminus, Qplus, Qopp, Qmult, inject_Z.
  cbn [Qnum Qden]. apply Z.compare_lt_iff. unfold US_PER_HOUR. lia.
Qed.

Section Postpone.
Context `{Runtime}.



End Postpone.


Import AsciiRuntime Office.



End PostponeFacts.

(** * Further properties *)

(** ** The ledger and the status update *)

Module UpdateProps.
Import Py Clock ReminderSystem UpdateFacts TraceObs.

(** X1: marking a task and asking for it are a round trip: once marked (the
    file being writable) the task is reported completed, the answer for
    every other id is what it was, and when the file cannot be written the
    ledger stays as it was. *)
Theorem ledger_mark_then_ask task_id task_name now (completed_tasks : ledger) :
  _is_task_completed task_id
    (_mark_task_completed true task_id task_name now completed_tasks) = true
  /\ (forall other, other <> task_id ->
        _is_task_completed other
          (_mark_task_completed true task_id task_name now completed_tasks)
        = _is_task_completed other completed_tasks)
  /\ _mark_task_completed false task_id task_name now completed_tasks = completed_tasks.
Proof.
  split; [apply mark_task_completed_recorded|]. split; [|reflexivity].
  intros other Hne. unfold _is_task_completed, _mark_task_completed, _save_completed_tasks.
  now rewrite lookup_insert_ne.
Qed.

Section Update.
Context `{Runtime}.

Lemma send_update_completed tr cfg task_id payload w :
  completed (snd (send_update tr cfg task_id payload w)) = completed w
  /\ ledger_writable (snd (send_update tr cfg task_id payload w)) = ledger_writable w.
Proof.
  destruct (send_update_world tr cfg task_id payload w) as (notes & -> & _). now split.
Qed.

(** What [update_task_in_clickup] leaves behind, branch by branch. *)
Lemma update_world tr cfg now task_id status task_data w :
  let w' := snd (update_task_in_clickup tr cfg now task_id status task_data w) in
  ledger_writable w' = ledger_writable w
  /\ (completed w' = completed w
      \/ (status = DONE /\ _is_task_completed task_id (completed w) = false
          /\ completed w' =
               _mark_task_completed (ledger_writable w) task_id
                 (data_name task_data) now (completed w))).
Proof.
  cbv zeta. unfold update_task_in_clickup.
  destruct (_is_task_completed task_id (completed w)) eqn:Hled; [now split; [|left]|].
  destruct (String.eqb status DONE) eqn:Hdone.
  - apply String.eqb_eq in Hdone.
    match goal with |- context [send_update ?a ?b ?c ?d ?e] =>
      destruct (send_update_completed a b c d e) as [-> ->] end.
    split; [reflexivity|]. right. now repeat split.
  - destruct (bool_decide (status ∈ reschedule_labels)).
    + destruct (reschedule cfg now status (data_priority task_data)).
      * match goal with |- context [send_update ?a ?b ?c ?d ?e] =>
          destruct (send_update_completed a b c d e) as [-> ->] end.
        split; [reflexivity|now left].
      * split; [reflexivity|now left].
    + match goal with |- context [send_update ?a ?b ?c ?d ?e] =>
        destruct (send_update_completed a b c d e) as [-> ->] end.
      split; [reflexivity|now left].
Qed.

End Update.

(** X2: applying a status never removes or rewrites a record of the
    ledger; it can add a record for the given task only, and only when the
    status is [DONE]. *)
Theorem update_keeps_ledger_records `{Runtime} tr cfg now task_id status task_data w :
  let w' := snd (update_task_in_clickup tr cfg now task_id status task_data w) in
  (forall id record, completed w !! id = Some record -> completed w' !! id = Some record)
  /\ (forall id, id <> task_id -> completed w' !! id = completed w !! id)
  /\ (status <> DONE -> completed w' = completed w).
Proof.
  destruct (update_world tr cfg now task_id status task_data w)
    as [_ [Hsame|(Hdone & Hled & Hmark)]]; cbv zeta.
  - rewrite Hsame. repeat split; auto.
  - rewrite Hmark. unfold _mark_task_completed, _save_completed_tasks.
    destruct (ledger_writable w); [|repeat split; auto; contradiction].
    split; [|split].
    + intros id record Hid. destruct (decide (id = task_id)) as [->|Hne].
      * apply bool_decide_eq_false in Hled. destruct Hled. rewrite Hid. eauto.
      * now rewrite lookup_insert_ne.
    + intros id Hne. now rewrite lookup_insert_ne.
    + contradiction.
Qed.

(** X3: one call makes at most one PUT request; the request is for the
    given task, its description is the task's description followed by the
    new history entry, and it carries a due date only for the four labels
    that reschedule; a task with a ledger record gets no request at all. *)
Theorem update_puts_at_most_once `{Runtime} tr cfg now task_id status task_data w :
  let w' := snd (update_task_in_clickup tr cfg now task_id status task_data w) in
  exists evs,
    trace w' = trace w ++ evs
    /\ (length (List.filter is_put evs) <= 1)%nat
    /\ (forall id payload, EvPut id payload ∈ evs ->
          id = task_id
          /\ ud_description payload =
               (data_description task_data ++ history_entry now status)%string
          /\ ud_status payload = status_field cfg status
          /\ (is_Some (ud_due_date payload) <-> status ∈ reschedule_labels))
    /\ (_is_task_completed task_id (completed w) = true -> evs = []).
Proof.
  cbv zeta. unfold update_task_in_clickup.
  destruct (_is_task_completed task_id (completed w)) eqn:Hled.
  { exists []. rewrite app_nil_r. split; [reflexivity|]. split; [simpl; lia|].
    split; [intros ? ? Hin; inversion Hin|reflexivity]. }
  assert (Hnotes : forall notes, Forall (fun ev => is_notification ev = true) notes ->
            List.filter is_put notes = []
            /\ forall id payload, EvPut id payload ∉ notes).
  { induction 1 as [|ev notes Hev _ [IH1 IH2]]; [split; [reflexivity|]|].
    - intros ? ? Hin. inversion Hin.
    - split.
      + simpl. destruct ev; try discriminate; exact IH1.
      + intros id payload Hin. apply elem_of_cons in Hin as [<-|Hin]; [discriminate|].
        now apply (IH2 id payload). }
  assert (Hsend : forall payload w0 pre,
            trace w0 = trace w ++ pre -> List.filter is_put pre = [] ->
            (forall id p, EvPut id p ∉ pre) ->
            exists evs,
              trace (snd (send_update tr cfg task_id payload w0)) = trace w ++ evs
              /\ (length (List.filter is_put evs) <= 1)%nat
              /\ forall id p, EvPut id p ∈ evs -> id = task_id /\ p = payload).
  { intros payload w0 pre Hpre Hnone Hno.
    destruct (send_update_world tr cfg task_id payload w0) as (notes & -> & Hn).
    destruct (Hnotes notes Hn) as [Hf Hnot].
    exists (pre ++ EvPut task_id payload :: notes). cbn [trace].
    rewrite Hpre, <- app_assoc. split; [reflexivity|]. split.
    - rewrite List.filter_app, Hnone. simpl. rewrite Hf. simpl. lia.
    - intros id p Hin. apply elem_of_app in Hin as [Hin|Hin]; [now apply Hno in Hin|].
      apply elem_of_cons in Hin as [[= -> ->]|Hin]; [now split|].
      now apply Hnot in Hin. }
  destruct (String.eqb status DONE) eqn:Hdone.
  - apply String.eqb_eq in Hdone.
    match goal with |- context [send_update _ _ _ ?p ?w0] =>
      destruct (Hsend p w0 [EvLedgerWrite task_id (data_name task_data)])
        as (evs & Htr & Hlen & Hput) end.
    + reflexivity.
    + reflexivity.
    + intros id p Hin. apply list_elem_of_singleton in Hin. discriminate.
    + exists evs. split; [exact Htr|]. split; [exact Hlen|]. split; [|discriminate].
      intros id payload Hin. destruct (Hput _ _ Hin) as [-> ->]. cbn.
      repeat split; try reflexivity.
      * intros [? [=]].
      * intros Hin'. subst status. apply list_elem_of_In in Hin'. vm_compute in Hin'.
        repeat destruct Hin' as [Hin'|Hin']; try discriminate; contradiction.
  - destruct (bool_decide (status ∈ reschedule_labels)) eqn:Hres.
    + apply bool_decide_eq_true in Hres.
      destruct (reschedule cfg now status (data_priority task_data)) as [next|].
      * match goal with |- context [send_update _ _ _ ?p ?w0] =>
          destruct (Hsend p w0 []) as (evs & Htr & Hlen & Hput) end;
          [now rewrite app_nil_r|reflexivity|intros ? ? Hin; inversion Hin|].
        exists evs. split; [exact Htr|]. split; [exact Hlen|]. split; [|discriminate].
        intros id payload Hin. destruct (Hput _ _ Hin) as [-> ->]. cbn.
        repeat split; eauto.
      * exists []. rewrite app_nil_r. split; [reflexivity|]. split; [simpl; lia|].
        split; [intros ? ? Hin; inversion Hin|discriminate].
    + apply bool_decide_eq_false in Hres.
      match goal with |- context [send_update _ _ _ ?p ?w0] =>
        destruct (Hsend p w0 []) as (evs & Htr & Hlen & Hput) end;
        [now rewrite app_nil_r|reflexivity|intros ? ? Hin; inversion Hin|].
      exists evs. split; [exact Htr|]. split; [exact Hlen|]. split; [|discriminate].
      intros id payload Hin. destruct (Hput _ _ Hin) as [-> ->]. cbn.
      repeat split; try reflexivity; [intros [? [=]]|contradiction].
Qed.

End UpdateProps.

(** ** Rescheduling *)

Module RescheduleProps.
Import Py Clock ClockFacts ReminderSystem RescheduleFacts.

Lemma skip_non_working_forward fuel : forall (working_days : list Z) d r,
  skip_non_working fuel working_days d = Some r ->
  exists k, 0 <= k /\ r = add_days d k.
Proof.
  induction fuel as [|fuel IH]; intros wd d r; simpl.
  - destruct (_ || _); [|discriminate]. intros [= <-]. exists 0.
    now rewrite add_days_0.
  - destruct (_ || _).
    + intros [= <-]. exists 0. now rewrite add_days_0.
    + intros Hr. destruct (IH _ _ _ Hr) as (k & Hk & ->).
      exists (1 + k). rewrite add_days_add. split; [lia|reflexivity].
Qed.

(** X4: the loop over the days stops, within six steps and at the first
    working day, exactly when the list of working days is empty or names a
    day of the week; with a list such as [[7]] it never stops, however long
    it runs. *)
Theorem skip_non_working_stops (working_days : list Z) d :
  (working_days = [] \/ (exists x, x ∈ working_days /\ 0 <= x < 7) ->
   exists k, 0 <= k < 7
     /\ (forall fuel, (6 <= fuel)%nat ->
           skip_non_working fuel working_days d = Some (add_days d k))
     /\ (working_days <> [] -> weekday (add_days d k) ∈ working_days)
     /\ (forall j, 0 <= j < k -> weekday (add_days d j) ∉ working_days))
  /\ (working_days <> [] /\ (forall x, x ∈ working_days -> ~ 0 <= x < 7) ->
      forall fuel, skip_non_working fuel working_days d = None).
Proof.
  split.
  - intros [->|(x & Hx & Hr)].
    + exists 0. split; [lia|]. split; [|split; [congruence|intros; lia]].
      intros fuel _. now rewrite skip_non_working_empty, add_days_0.
    + destruct (working_day_within_week working_days d x Hx Hr) as (k0 & Hk0 & Hin0).
      destruct (skip_non_working_first 6 working_days d k0 ltac:(lia) Hin0)
        as (k & Hk & _ & Hin & Hfirst).
      exists k. split; [lia|]. split; [|split; [auto|exact Hfirst]].
      intros fuel Hfuel.
      destruct (skip_non_working_first fuel working_days d k ltac:(lia) Hin)
        as (k' & Hk' & Hs & Hin' & _).
      destruct (Z.eq_dec k' k) as [->|Hne]; [exact Hs|].
      exfalso. apply (Hfirst k'); [lia|exact Hin'].
  - intros [Hne Hout] fuel. now apply skip_non_working_never.
Qed.

Section Reschedule.
Context `{Runtime}.

Lemma replace_hour_minute0_wall d h d' :
  replace_hour_minute0 d h = Some d' ->
  day_number d * US_PER_DAY <= wall d' /\ day_number d' = day_number d.
Proof.
  intros Hr. destruct (replace_hour_minute0_spec _ _ _ Hr) as (_ & _ & Hday & _ & Hh).
  split; [|exact Hday]. rewrite <- Hday. clock_lia.
Qed.

Lemma reschedule_forward cfg now status priority due :
  reschedule cfg now status priority = Some due ->
  wall now + timedelta_hours (interval_hours cfg status priority) <= wall due
  /\ utcoff due = utcoff now.
Proof.
  unfold reschedule.
  destruct (hour_of (wh_end _) 18) as [end_hour|]; [|discriminate].
  destruct (hour_of (wh_start _) 10) as [start_hour|]; [|discriminate].
  set (computed := add_us now _).
  destruct (end_hour <=? hour computed); [|intros [= <-]; split; [reflexivity|reflexivity]].
  destruct (replace_hour_minute0 computed start_hour) as [moved|] eqn:Hmoved;
    [|discriminate].
  intros Hskip. destruct (skip_non_working_forward _ _ _ _ Hskip) as (k & Hk & ->).
  destruct (replace_hour_minute0_wall _ _ _ Hmoved) as [Hwall Hday].
  destruct (replace_hour_minute0_spec _ _ _ Hmoved) as (_ & _ & _ & Hoff & _).
  split; [|now rewrite !utcoff_add_days, Hoff].
  change (wall now + _) with (wall computed).
  rewrite add_days_add. unfold add_days, add_us. cbn [wall].
  pose proof (RunFacts.wall_split computed) as Hsplit.
  assert (0 <= time_of_day computed < US_PER_DAY)
    by (unfold time_of_day; apply Z.mod_pos_bound; reflexivity).
  unfold US_PER_DAY in *. nia.
Qed.

End Reschedule.

(** X5: the due date sent for a non-[DONE] label is never earlier than now
    plus the interval of the label, and it keeps the time zone: a task in
    progress is not due again within the hour, a call-back not within half
    an hour. *)
Theorem reschedule_not_before_interval `{Runtime} cfg now status priority due :
  reschedule cfg now status priority = Some due ->
  instant now + timedelta_hours (interval_hours cfg status priority) <= instant due
  /\ (status = IN_PROGRESS -> instant now + US_PER_HOUR <= instant due)
  /\ (status = CALL_BACK -> instant now + US_PER_HOUR / 2 <= instant due).
Proof.
  intros Hres. destruct (reschedule_forward _ _ _ _ _ Hres) as [Hwall Hoff].
  assert (Hinst : instant now + timedelta_hours (interval_hours cfg status priority)
                  <= instant due) by (unfold instant; lia).
  split; [exact Hinst|]. split; intros ->; exact Hinst.
Qed.

Import AsciiRuntime Office.

Lemma reschedule_friday_not_before :
  instant friday_1730 + timedelta_hours (interval_hours office NOT_DONE "normal")
  <= instant monday_1000.
Proof.
  refine (proj1 (reschedule_not_before_interval office friday_1730 NOT_DONE "normal"
                   monday_1000 _)).
  vm_compute. reflexivity.
Defined.

End RescheduleProps.

(** ** The working-hours check *)

Module GateProps.
Import Py Clock ClockFacts ReminderSystem RunFacts.

(** X6: with start and end times that are times of the day, the check
    answers, and it answers [True] exactly on a configured day (any day when
    none is configured) at a time of day from the start time on and before
    the end time. *)
Theorem is_working_hours_window `{Runtime} cfg now start_hour start_minute
    end_hour end_minute :
  resolve_time (wh_start (working_hours cfg)) (10, 0) = (start_hour, start_minute) ->
  resolve_time (wh_end (working_hours cfg)) (18, 0) = (end_hour, end_minute) ->
  0 <= start_hour <= 23 -> 0 <= start_minute <= 59 ->
  0 <= end_hour <= 23 -> 0 <= end_minute <= 59 ->
  is_Some (_is_working_hours cfg now)
  /\ (_is_working_hours cfg now = Some true <->
      (gate_working_days (working_hours cfg) = []
       \/ weekday now ∈ gate_working_days (working_hours cfg))
      /\ start_hour * US_PER_HOUR + start_minute * US_PER_MINUTE <= time_of_day now
         < end_hour * US_PER_HOUR + end_minute * US_PER_MINUTE).
Proof.
  intros Hs He Hsh Hsm Heh Hem.
  assert (Hsome : is_Some (_is_working_hours cfg now)).
  { unfold _is_working_hours. rewrite Hs, He. destruct (_ && _); [eauto|].
    unfold replace_hms0.
    replace (0 <=? start_hour) with true by lia.
    replace (start_hour <=? 23) with true by lia.
    replace (0 <=? start_minute) with true by lia.
    replace (start_minute <=? 59) with true by lia.
    replace (0 <=? end_hour) with true by lia. replace (end_hour <=? 23) with true by lia.
    replace (0 <=? end_minute) with true by lia.
    replace (end_minute <=? 59) with true by lia.
    cbn [andb]. eauto. }
  split; [exact Hsome|]. split.
  - intros Htrue.
    destruct (decide (gate_working_days (working_hours cfg) = [])) as [Hd|Hd].
    + split; [now left|].
      destruct (Z_lt_ge_dec (time_of_day now)
                  (start_hour * US_PER_HOUR + start_minute * US_PER_MINUTE)) as [Hlt|Hge].
      { exfalso. apply (is_working_hours_closed cfg now _ _ _ _ Hs He); auto. }
      destruct (Z_lt_ge_dec (time_of_day now)
                  (end_hour * US_PER_HOUR + end_minute * US_PER_MINUTE)) as [Hlt2|Hge2];
        [lia|].
      exfalso. apply (is_working_hours_closed cfg now _ _ _ _ Hs He); [|exact Htrue].
      right. right. lia.
    + destruct (decide (weekday now ∈ gate_working_days (working_hours cfg)))
        as [Hin|Hout].
      2:{ exfalso. apply (is_working_hours_closed cfg now _ _ _ _ Hs He); auto. }
      split; [now right|].
      destruct (Z_lt_ge_dec (time_of_day now)
                  (start_hour * US_PER_HOUR + start_minute * US_PER_MINUTE)) as [Hlt|Hge].
      { exfalso. apply (is_working_hours_closed cfg now _ _ _ _ Hs He); auto. }
      destruct (Z_lt_ge_dec (time_of_day now)
                  (end_hour * US_PER_HOUR + end_minute * US_PER_MINUTE)) as [Hlt2|Hge2];
        [lia|].
      exfalso. apply (is_working_hours_closed cfg now _ _ _ _ Hs He); [|exact Htrue].
      right. right. lia.
  - intros [Hday Hwin]. now apply (is_working_hours_open cfg now _ _ _ _ Hs He).
Qed.

(** X7: the times read from the configuration are not checked: on a day
    that passes the day filter, an hour outside 0..23 or a minute outside
    0..59 (an end time of 24:00, say) makes the check raise, and a run
    without the override flag raises with it before anything is fetched. *)
Theorem is_working_hours_bad_time `{Runtime} _extract_recipient_name contact_phone
    process_batch_tasks tr cfg now w start_hour start_minute end_hour end_minute :
  resolve_time (wh_start (working_hours cfg)) (10, 0) = (start_hour, start_minute) ->
  resolve_time (wh_end (working_hours cfg)) (18, 0) = (end_hour, end_minute) ->
  gate_working_days (working_hours cfg) = []
  \/ weekday now ∈ gate_working_days (working_hours cfg) ->
  ~ (0 <= start_hour <= 23 /\ 0 <= start_minute <= 59
     /\ 0 <= end_hour <= 23 /\ 0 <= end_minute <= 59) ->
  _is_working_hours cfg now = None
  /\ run _extract_recipient_name contact_phone process_batch_tasks false tr cfg now w
     = (Raised, w).
Proof.
  intros Hs He Hday Hbad.
  assert (Hnone : _is_working_hours cfg now = None).
  { unfold _is_working_hours. rewrite Hs, He.
    replace (negb _ && negb _) with false.
    2:{ symmetry. apply andb_false_iff. destruct Hday as [Hd|Hd].
        - left. now rewrite bool_decide_eq_true_2.
        - right. unfold in_days. now rewrite bool_decide_eq_true_2. }
    unfold replace_hms0.
    destruct ((0 <=? start_hour) && (start_hour <=? 23) && (0 <=? start_minute)
              && (start_minute <=? 59)) eqn:Hstart; [|reflexivity].
    destruct ((0 <=? end_hour) && (end_hour <=? 23) && (0 <=? end_minute)
              && (end_minute <=? 59)) eqn:Hend; [|reflexivity].
    exfalso. apply Hbad.
    repeat (apply andb_true_iff in Hstart as [Hstart ?]).
    repeat (apply andb_true_iff in Hend as [Hend ?]). lia. }
  split; [exact Hnone|]. unfold run. now rewrite Hnone.
Qed.

Import AsciiRuntime Office Samples.

Lemma monday_noon_is_open :
  _is_working_hours office monday_1200 = Some true.
Proof.
  apply (proj2 (is_working_hours_window office monday_1200 10 0 18 0
                  eq_refl eq_refl ltac:(lia) ltac:(lia) ltac:(lia) ltac:(lia))).
  split; [right|vm_compute; split; [discriminate|reflexivity]].
  vm_compute. repeat constructor.
Defined.

Lemma run_until_midnight_raises :
  run to_alex alex_phone silent_call false (one_list [report] (PutStatus 200))
    until_midnight monday_1200 empty_world = (Raised, empty_world).
Proof.
  refine (proj2 (is_working_hours_bad_time to_alex alex_phone silent_call
                   (one_list [report] (PutStatus 200)) until_midnight monday_1200
                   empty_world 10 0 24 0 _ _ _ _)).
  - vm_compute. reflexivity.
  - vm_compute. reflexivity.
  - right. vm_compute. repeat constructor.
  - lia.
Defined.

End GateProps.

(** ** The traversal of the tracker *)

Module FetchProps.
Import Py Clock ReminderSystem FetchFacts FetchSpec.



Section Fetch.
Context `{Runtime}.










End Fetch.


Import AsciiRuntime Office Samples.


End FetchProps.

(** ** Grouping the tasks by recipient *)

Module GroupProps.
Import Py Clock ReminderSystem ClassifierFacts GroupSpec.

Lemma dict_set_keys {A} (d : list (string * A)) k v :
  map fst (dict_set d k v) = if dict_has d k then map fst d else map fst d ++ [k].
Proof.
  unfold dict_has. induction d as [|[k' v'] d IH]; simpl; [reflexivity|].
  destruct (String.eqb k' k) eqn:Hk; simpl; [reflexivity|].
  rewrite IH. now destruct (dict_get d k).
Qed.

Lemma dict_get_keys {A} (d : list (string * A)) k :
  is_Some (dict_get d k) <-> k ∈ map fst d.
Proof.
  induction d as [|[k' v'] d IH]; simpl.
  - split; [intros [? [=]]|intros Hin; inversion Hin].
  - destruct (String.eqb_spec k' k) as [->|Hne].
    + split; [intros _; now left|eauto].
    + rewrite IH. split; [now right|].
      intros Hin. apply elem_of_cons in Hin as [->|Hin]; [contradiction|assumption].
Qed.

Lemma dict_get_elem {A} (d : list (string * A)) k v :
  NoDup (map fst d) -> (k, v) ∈ d <-> dict_get d k = Some v.
Proof.
  induction d as [|[k' v'] d IH]; simpl; intros Hnd.
  - split; [intros Hin; inversion Hin|discriminate].
  - apply NoDup_cons in Hnd as [Hnot Hnd]. destruct (String.eqb_spec k' k) as [->|Hne].
    + split.
      * intros Hin. apply elem_of_cons in Hin as [[= ->]|Hin]; [reflexivity|].
        exfalso. apply Hnot. apply list_elem_of_fmap. now exists (k, v).
      * intros [= ->]. now left.
    + rewrite <- (IH Hnd). split.
      * intros Hin. apply elem_of_cons in Hin as [[= -> ->]|Hin];
          [contradiction|assumption].
      * now right.
Qed.

Section Group.
Variable _extract_recipient_name : string -> option string.

Lemma group_task_step groups task groups' :
  groups_ok groups ->
  group_task _extract_recipient_name groups task = Some groups' ->
  groups_ok groups'
  /\ forall recipient,
       default [] (dict_get groups' recipient) =
         default [] (dict_get groups recipient)
         ++ (if for_recipient _extract_recipient_name recipient task
                && negb (String.eqb recipient EmptyString)
             then [task] else []).
Proof.
  intros [Hnd Hne]. unfold group_task, for_recipient.
  destruct (task_name task) as [name|]; [|discriminate].
  destruct (_extract_recipient_name name) as [[|c to]|] eqn:Hex.
  - intros [= <-]. split; [now split|]. intros recipient.
    destruct (bool_decide _) eqn:Hd; [|now rewrite app_nil_r].
    apply bool_decide_eq_true in Hd. injection Hd as <-. now rewrite app_nil_r.
  - intros [= <-]. split; [split|].
    + rewrite dict_set_keys. destruct (dict_has groups (String c to)) eqn:Hhas;
        [assumption|].
      apply NoDup_app. split; [assumption|]. split; [|apply NoDup_singleton].
      intros x Hx Hx'. apply list_elem_of_singleton in Hx' as ->.
      apply dict_get_keys, dict_has_true in Hx. congruence.
    + intros recipient tasks.
      destruct (String.eqb_spec (String c to) recipient) as [<-|Hneq].
      * rewrite dict_get_set_eq. intros [= <-]. split; [discriminate|].
        now destruct (default [] _).
      * rewrite dict_get_set_ne by assumption. apply Hne.
    + intros recipient.
      destruct (String.eqb_spec (String c to) recipient) as [<-|Hneq].
      * rewrite dict_get_set_eq, bool_decide_eq_true_2 by reflexivity. reflexivity.
      * rewrite dict_get_set_ne by assumption.
        rewrite bool_decide_eq_false_2 by congruence. now rewrite app_nil_r.
  - intros [= <-]. split; [now split|]. intros recipient.
    rewrite bool_decide_eq_false_2 by discriminate. now rewrite app_nil_r.
Qed.

Lemma group_tasks_spec tasks : forall groups groups',
  groups_ok groups ->
  foldM (group_task _extract_recipient_name) tasks groups = Some groups' ->
  groups_ok groups'
  /\ forall recipient,
       default [] (dict_get groups' recipient) =
         default [] (dict_get groups recipient)
         ++ List.filter (fun task => for_recipient _extract_recipient_name recipient task
                                     && negb (String.eqb recipient EmptyString)) tasks.
Proof.
  induction tasks as [|task tasks IH]; intros groups groups' Hok; simpl.
  - intros [= <-]. split; [assumption|]. intros. now rewrite app_nil_r.
  - destruct (group_task _ groups task) as [g1|] eqn:Hstep; [|discriminate].
    intros Hrest. destruct (group_task_step _ _ _ Hok Hstep) as [Hok1 Hget1].
    destruct (IH _ _ Hok1 Hrest) as [Hok' Hget']. split; [assumption|].
    intros recipient. rewrite Hget', Hget1, <- app_assoc. f_equal.
    now destruct (for_recipient _extract_recipient_name recipient task && _).
Qed.

End Group.

(** X9: the grouping loop of a run puts every task under the recipient
    read from its name: the recipients of the groups are pairwise distinct
    and never empty, no group is empty, and the group of a recipient is the
    list of the fetched tasks for that recipient, in the order fetched; a
    task without a recipient is in no group. *)
Theorem group_by_recipient _extract_recipient_name tasks groups :
  foldM (group_task _extract_recipient_name) tasks [] = Some groups ->
  NoDup (map fst groups)
  /\ forall recipient group,
       (recipient, group) ∈ groups <->
       recipient <> EmptyString /\ group <> []
       /\ group = List.filter (for_recipient _extract_recipient_name recipient) tasks.
Proof.
  intros Hfold.
  assert (Hok0 : groups_ok (@nil (string * list raw_task))).
  { split; [constructor|]. intros ? ? [=]. }
  destruct (group_tasks_spec _extract_recipient_name tasks [] groups Hok0 Hfold)
    as [[Hnd Hne] Hget].
  split; [exact Hnd|]. intros recipient group. rewrite (dict_get_elem _ _ _ Hnd).
  specialize (Hget recipient). cbn [dict_get default app] in Hget. split.
  - intros Hg. destruct (Hne _ _ Hg) as [Hr Hgne]. split; [exact Hr|]. split; [exact Hgne|].
    rewrite Hg in Hget. cbn in Hget. rewrite Hget.
    apply String.eqb_neq in Hr. rewrite Hr. cbn [negb].
    apply List.filter_ext. intros t. apply andb_true_r.
  - intros (Hr & Hgne & ->). apply String.eqb_neq in Hr. rewrite Hr in Hget. cbn [negb] in Hget.
    rewrite (List.filter_ext _ (for_recipient _extract_recipient_name recipient)) in Hget
      by (intros t; apply andb_true_r).
    destruct (dict_get groups recipient) as [g|]; cbn in Hget; [now rewrite Hget|].
    now rewrite <- Hget in Hgne.
Qed.

Import AsciiRuntime Office.

(** Two tasks for the one contact make one group of two. *)
Lemma group_two_tasks :
  ("Alex", [report; second]) ∈ [("Alex", [report; second])]
  <-> "Alex" <> EmptyString /\ [report; second] <> []
      /\ [report; second] = List.filter (for_recipient to_alex "Alex") [report; second].
Proof.
  apply (proj2 (group_by_recipient to_alex [report; second] [("Alex", [report; second])]
                  eq_refl)).
Defined.

End GroupProps.

(** ** The batch classifier *)

Module BatchProps.
Import Py Clock ReminderSystem ClassifierFacts BatchSpec.

Lemma listed_cons task tasks k :
  listed (task :: tasks) k = String.eqb (task_id task) k || listed tasks k.
Proof. reflexivity. Qed.

(** The entries after the loop: those that were there, and [UNCLEAR] for
    the listed ids that were not. *)
Lemma fill_missing_entries tasks : forall d,
  exists d',
    fill_missing tasks (JObj d) = Some (JObj d')
    /\ forall k,
         dict_get d' k =
           match dict_get d k with
           | Some v => Some v
           | None => if listed tasks k then Some (JStr UNCLEAR) else None
           end.
Proof.
  induction tasks as [|t tasks IH]; intros d.
  - exists d. split; [reflexivity|]. intros k. now destruct (dict_get d k).
  - cbn [fill_missing]. destruct (dict_has d (task_id t)) eqn:Hhas.
    + destruct (IH d) as (d' & Hfill & Hget). exists d'. split; [assumption|].
      intros k. rewrite Hget, listed_cons.
      destruct (dict_get d k) eqn:Hk; [reflexivity|].
      destruct (String.eqb_spec (task_id t) k) as [<-|Hne]; [|reflexivity].
      apply dict_has_true in Hhas as [v Hv]. congruence.
    + destruct (IH (dict_set d (task_id t) (JStr UNCLEAR))) as (d' & Hfill & Hget).
      exists d'. split; [assumption|]. intros k. rewrite Hget, listed_cons.
      destruct (String.eqb_spec (task_id t) k) as [<-|Hne].
      * rewrite dict_get_set_eq. unfold dict_has in Hhas.
        now destruct (dict_get d (task_id t)).
      * now rewrite dict_get_set_ne.
Qed.

Lemma all_unclear_entries tasks :
  exists d, all_unclear tasks = JObj d
    /\ forall k, dict_get d k = if listed tasks k then Some (JStr UNCLEAR) else None.
Proof.
  unfold all_unclear. eexists. split; [reflexivity|].
  assert (Hgen : forall d0 k,
    dict_get (fold_left (fun d task => dict_set d (task_id task) (JStr UNCLEAR))
                tasks d0) k
    = if listed tasks k then Some (JStr UNCLEAR) else dict_get d0 k).
  { induction tasks as [|t tasks IH]; intros d0 k; [reflexivity|].
    cbn [fold_left]. rewrite IH, listed_cons.
    destruct (String.eqb_spec (task_id t) k) as [<-|Hne]; cbn [orb].
    - rewrite dict_get_set_eq. now destruct (listed tasks (task_id t)).
    - now rewrite dict_get_set_ne. }
  intros k. now rewrite Hgen.
Qed.

(** X10: when the oracle's answer, the fence removed, is a JSON object, the
    batch classifier returns an object that has an entry for every listed
    task id: the entries of the oracle are kept as they are, the listed ids
    the oracle left out get [UNCLEAR], and nothing else is added. *)
Theorem analyze_batch_completes_object `{Runtime} oracle text tasks content
    result_text d :
  forallb (fun task => bool_decide (is_Some (task_name task))) tasks = true ->
  oracle text tasks = Some (Some content) ->
  strip_fences (py_strip content) = Some result_text ->
  json_loads result_text = Some (JObj d) ->
  exists d',
    analyze_batch_response oracle text tasks = JObj d'
    /\ (forall task, task ∈ tasks -> is_Some (dict_get d' (task_id task)))
    /\ forall k,
         dict_get d' k =
           match dict_get d k with
           | Some v => Some v
           | None => if listed tasks k then Some (JStr UNCLEAR) else None
           end.
Proof.
  intros Hnames Horacle Hstrip Hloads.
  destruct (fill_missing_entries tasks d) as (d' & Hfill & Hget).
  exists d'. split; [|split; [|exact Hget]].
  - unfold analyze_batch_response, analyze_batch_try.
    now rewrite Hnames, Horacle, Hstrip, Hloads, Hfill.
  - intros task Hin. rewrite Hget.
    assert (Hl : listed tasks (task_id task) = true).
    { apply existsb_exists. exists task. split; [now apply list_elem_of_In|].
      apply String.eqb_refl. }
    rewrite Hl. destruct (dict_get d (task_id task)); eauto.
Qed.

(** X11: when the oracle cannot be reached, answers without content,
    answers with text that is no JSON, or with a JSON number, truth value or
    null, the batch classifier returns the object that maps every listed
    task id to [UNCLEAR] and holds nothing else. *)
Theorem analyze_batch_falls_back `{Runtime} oracle text tasks :
  oracle text tasks = None
  \/ oracle text tasks = Some None
  \/ (exists content result_text,
        oracle text tasks = Some (Some content)
        /\ strip_fences (py_strip content) = Some result_text
        /\ (json_loads result_text = None
            \/ tasks <> []
               /\ (json_loads result_text = Some JNull
                   \/ (exists b, json_loads result_text = Some (JBool b))
                   \/ exists z, json_loads result_text = Some (JNum z)))) ->
  exists d,
    analyze_batch_response oracle text tasks = JObj d
    /\ forall k, dict_get d k = if listed tasks k then Some (JStr UNCLEAR) else None.
Proof.
  intros Hfail.
  assert (Htry : analyze_batch_try oracle text tasks = None).
  { unfold analyze_batch_try. destruct (forallb _ tasks); [|reflexivity].
    destruct Hfail as [-> |[-> |(content & result_text & -> & -> & Hjson)]];
      try reflexivity.
    destruct Hjson as [-> |[Hne [-> |[[b ->]|[z ->]]]]]; try reflexivity;
      destruct tasks; try contradiction; reflexivity. }
  rewrite (analyze_batch_fallback _ _ _ Htry). apply all_unclear_entries.
Qed.

Import AsciiRuntime Office.

Lemma analyze_batch_two_of_one :
  exists d',
    analyze_batch_response (fun _ _ => Some (Some fenced_answer)) "первую сделал"
      [report; second] = JObj d'
    /\ dict_get d' "t1" = Some (JStr DONE)
    /\ dict_get d' "t2" = Some (JStr UNCLEAR).
Proof.
  destruct (analyze_batch_completes_object (fun _ _ => Some (Some fenced_answer))
              "первую сделал" [report; second] fenced_answer
              (nl ++ "{" ++ quoted "t1" ++ ": " ++ quoted DONE ++ "}" ++ nl)%string
              [("t1", JStr DONE)] eq_refl eq_refl)
    as (d' & Hres & _ & Hget).
  - vm_compute. reflexivity.
  - vm_compute. reflexivity.
  - exists d'. split; [exact Hres|]. rewrite !Hget. split; reflexivity.
Defined.

Lemma analyze_batch_oracle_down :
  exists d,
    analyze_batch_response (fun _ _ => None) "первую сделал" [report; second] = JObj d
    /\ forall k,
         dict_get d k = if listed [report; second] k then Some (JStr UNCLEAR) else None.
Proof.
  apply (analyze_batch_falls_back (fun _ _ => None) "первую сделал" [report; second]).
  now left.
Defined.

(** *** The markdown fence *)

Lemma append_assoc (a b c : string) : ((a ++ b) ++ c = a ++ (b ++ c))%string.
Proof.
  induction a as [|x a IH]; [reflexivity|].
  change (String x ((a ++ b) ++ c) = String x (a ++ (b ++ c)))%string. now rewrite IH.
Qed.

Lemma append_empty_r (a : string) : (a ++ EmptyString = a)%string.
Proof.
  induction a as [|x a IH]; [reflexivity|].
  change (String x (a ++ EmptyString) = String x a)%string. now rewrite IH.
Qed.

Lemma split_go_fence cur rest :
  split_go fence 0 cur (fence ++ rest) = cur :: split_go fence 0 EmptyString rest.
Proof. destruct rest; reflexivity. Qed.

Lemma startswith_append (p s : string) : startswith (p ++ s) p = true.
Proof.
  unfold startswith. induction p as [|c p IH]; [now destruct s|].
  change (String c p ++ s)%string with (String c (p ++ s)%string).
  cbn [String.prefix]. destruct (Ascii.ascii_dec c c); [exact IH|contradiction].
Qed.

Lemma split_go_plain body : forall cur tail,
  no_backtick body = true ->
  split_go fence 0 cur (body ++ tail) = split_go fence 0 (cur ++ body) tail.
Proof.
  induction body as [|c body IH]; intros cur tail Hno.
  - change (EmptyString ++ tail)%string with tail. now rewrite append_empty_r.
  - cbn [no_backtick] in Hno. apply andb_true_iff in Hno as [Hc Hno].
    apply negb_true_iff, Ascii.eqb_neq in Hc.
    change (String c body ++ tail)%string with (String c (body ++ tail)%string).
    cbn [split_go fence String.prefix].
    destruct (Ascii.ascii_dec "`" c) as [Heq|_]; [congruence|].
    rewrite (IH _ _ Hno), append_assoc. reflexivity.
Qed.

Lemma split_go_end cur : split_go fence 0 cur EmptyString = [cur].
Proof. reflexivity. Qed.

(** X12: a payload wrapped in a markdown fence is unwrapped: for a body
    without backticks, the text between the opening fence (with or without
    the word json after it) and the closing fence is what is parsed,
    whatever follows the closing fence, and also when the closing fence is
    missing; a text that does not start with a fence is parsed as it is. *)
Theorem strip_fences_unwraps body rest :
  no_backtick body = true ->
  strip_fences (fence ++ "json" ++ body ++ fence ++ rest) = Some body
  /\ strip_fences (fence ++ "json" ++ body) = Some body
  /\ (startswith body "json" = false ->
      strip_fences (fence ++ body ++ fence ++ rest) = Some body)
  /\ (forall s, startswith s fence = false -> strip_fences s = Some s).
Proof.
  intros Hno.
  assert (Hjson : no_backtick ("json" ++ body) = true) by exact Hno.
  split; [|split; [|split]].
  - unfold strip_fences, split. rewrite startswith_append, split_go_fence.
    rewrite <- (append_assoc "json" body), (split_go_plain _ _ _ Hjson), split_go_fence.
    change (EmptyString ++ ("json" ++ body))%string with ("json" ++ body)%string.
    now rewrite startswith_append.
  - unfold strip_fences, split. rewrite startswith_append, split_go_fence.
    rewrite <- (append_empty_r ("json" ++ body)), (split_go_plain _ _ _ Hjson), split_go_end.
    change (EmptyString ++ ("json" ++ body))%string with ("json" ++ body)%string.
    now rewrite startswith_append.
  - intros Hstart. unfold strip_fences, split.
    rewrite startswith_append, split_go_fence, (split_go_plain _ _ _ Hno), split_go_fence.
    change (EmptyString ++ body)%string with body. now rewrite Hstart.
  - intros s Hs. unfold strip_fences. now rewrite Hs.
Qed.

Import AsciiRuntime Office.

Lemma strip_fences_object :
  strip_fences fenced_answer
  = Some (nl ++ "{" ++ quoted "t1" ++ ": " ++ quoted DONE ++ "}" ++ nl)%string.
Proof.
  refine (proj1 (strip_fences_unwraps
                   (nl ++ "{" ++ quoted "t1" ++ ": " ++ quoted DONE ++ "}" ++ nl)%string
                   EmptyString _)).
  vm_compute. reflexivity.
Defined.

End BatchProps.

(** ** The callback decision log *)

Module LogProps.
Import Py Clock TelegramReminderService CallbackFacts.

Lemma loaded_ids_iff lines id :
  id ∈ loaded_ids lines <->
  id <> EmptyString
  /\ exists entry, entry ∈ lines /\ entry_success entry = true
                   /\ entry_callback_id entry = Some id.
Proof.
  induction lines as [|line lines IH]; simpl.
  - split; [set_solver|]. intros (_ & entry & Hin & _). inversion Hin.
  - assert (Hrest : id ∈ loaded_ids lines ->
              id <> EmptyString
              /\ exists entry, entry ∈ line :: lines /\ entry_success entry = true
                               /\ entry_callback_id entry = Some id).
    { intros Hin. apply IH in Hin as (Hne & entry & He & Hs & Hid).
      split; [assumption|]. exists entry. split; [now right|auto]. }
    split.
    + destruct (entry_success line) eqn:Hok; [|exact Hrest].
      destruct (entry_callback_id line) as [[|c rest]|] eqn:Hid; try exact Hrest.
      intros Hin. apply elem_of_union in Hin as [Hin|Hin]; [|now apply Hrest].
      apply elem_of_singleton in Hin as ->. split; [discriminate|].
      exists line. split; [now left|auto].
    + intros (Hne & entry & Hin & Hok & Hid).
      apply elem_of_cons in Hin as [<-|Hin].
      * rewrite Hok, Hid. destruct id; [contradiction|].
        apply elem_of_union. left. now apply elem_of_singleton.
      * assert (id ∈ loaded_ids lines) by (apply IH; eauto).
        destruct (entry_success line); [|assumption].
        destruct (entry_callback_id line) as [[|c rest]|]; try assumption.
        apply elem_of_union. now right.
Qed.

(** X13: the ids primed at startup are exactly the non-empty callback ids
    of the success entries of the log file; without a log file, or with the
    log switched off, no id is primed. *)
Theorem load_processed_ids_exact st file id :
  (id ∈ _load_processed_callback_ids st file <->
   callback_log_enabled st = true /\ id <> EmptyString
   /\ exists lines entry,
        file = Some lines /\ entry ∈ lines /\ entry_success entry = true
        /\ entry_callback_id entry = Some id)
  /\ _processed_callback_ids (startup st file) = _load_processed_callback_ids st file.
Proof.
  split; [|reflexivity]. unfold _load_processed_callback_ids.
  destruct (callback_log_enabled st).
  - destruct file as [lines|].
    + rewrite loaded_ids_iff. split.
      * intros (Hne & entry & Hin & Hok & Hid). split; [reflexivity|]. split; [exact Hne|].
        now exists lines, entry.
      * intros (_ & Hne & l & entry & [= <-] & Hin & Hok & Hid). eauto.
    + split; [set_solver|]. intros (_ & _ & l & entry & [=] & _).
  - split; [set_solver|]. intros ([=] & _).
Qed.

(** *** Pruning *)

Lemma tail_lines_suffix n lines : exists dropped, lines = dropped ++ tail_lines n lines.
Proof. unfold tail_lines. eexists. symmetry. apply take_drop. Qed.

Lemma tail_lines_length n lines :
  0 <= n -> (length (tail_lines n lines) <= Z.to_nat n)%nat.
Proof. intros Hn. unfold tail_lines. rewrite length_drop. lia. Qed.

(** What pruning keeps is a suffix of what was there. *)
Lemma prune_suffix st lines kept :
  _prune_callback_log_if_needed st (Some lines) = Some kept ->
  exists dropped, lines = dropped ++ kept.
Proof.
  unfold _prune_callback_log_if_needed.
  destruct (callback_log_max_bytes st <=? 0); [discriminate|].
  destruct (file_bytes st lines <=? callback_log_max_bytes st).
  - intros [= <-]. now exists [].
  - destruct (callback_log_max_entries st <=? 0); [discriminate|].
    intros [= <-]. apply tail_lines_suffix.
Qed.

(** X14: pruning only ever drops the oldest lines: what is left of the log
    is a suffix of what was there; a log within the size limit is left
    alone; a log over the limit is cut to at most the configured number of
    newest lines, and is removed when that number or the size limit is not
    positive. *)
Theorem prune_keeps_newest st lines :
  (forall kept, _prune_callback_log_if_needed st (Some lines) = Some kept ->
     (exists dropped, lines = dropped ++ kept)
     /\ (callback_log_max_bytes st < file_bytes st lines ->
         (length kept <= Z.to_nat (callback_log_max_entries st))%nat
         /\ kept = tail_lines (callback_log_max_entries st) lines))
  /\ (0 < callback_log_max_bytes st ->
      file_bytes st lines <= callback_log_max_bytes st ->
      _prune_callback_log_if_needed st (Some lines) = Some lines)
  /\ (callback_log_max_bytes st <= 0
      \/ (callback_log_max_bytes st < file_bytes st lines
          /\ callback_log_max_entries st <= 0) ->
      _prune_callback_log_if_needed st (Some lines) = None)
  /\ _prune_callback_log_if_needed st None = None.
Proof.
  split; [|unfold _prune_callback_log_if_needed; split; [|split; [|reflexivity]]].
  - intros kept Hkept. split; [exact (prune_suffix st lines kept Hkept)|].
    revert Hkept. unfold _prune_callback_log_if_needed.
    destruct (callback_log_max_bytes st <=? 0) eqn:Hb; [discriminate|].
    destruct (file_bytes st lines <=? callback_log_max_bytes st) eqn:Hsize.
    + intros [= <-]. lia.
    + destruct (callback_log_max_entries st <=? 0) eqn:He; [discriminate|].
      intros [= <-] _. split; [apply tail_lines_length; lia|reflexivity].
  - intros Hpos Hle. replace (_ <=? 0) with false by lia.
    now replace (file_bytes st lines <=? _) with true by lia.
  - intros [Hb|[Hsize He]].
    + now replace (callback_log_max_bytes st <=? 0) with true by lia.
    + destruct (callback_log_max_bytes st <=? 0); [reflexivity|].
      replace (file_bytes st lines <=? _) with false by lia.
      now replace (callback_log_max_entries st <=? 0) with true by lia.
Qed.

End LogProps.

(** ** The callback handler and its log *)

Module HandlerProps.
Import Py Clock TelegramReminderService CallbackFacts LogProps Serving.

Lemma loaded_ids_app lines1 lines2 :
  loaded_ids (lines1 ++ lines2) = loaded_ids lines1 ∪ loaded_ids lines2.
Proof.
  induction lines1 as [|line lines1 IH]; simpl.
  - now rewrite (left_id_L ∅ (∪)).
  - rewrite IH. destruct (entry_success line); [|reflexivity].
    destruct (entry_callback_id line) as [[|c rest]|]; try reflexivity.
    now rewrite (assoc_L (∪)).
Qed.

Lemma prune_loaded st file :
  loaded_ids (default [] (_prune_callback_log_if_needed st file))
  ⊆ match file with Some lines => loaded_ids lines | None => ∅ end.
Proof.
  destruct file as [lines|]; [|reflexivity].
  destruct (_prune_callback_log_if_needed st (Some lines)) as [kept|] eqn:Hp.
  - destruct (prune_suffix st lines kept Hp) as [dropped ->].
    cbn [default]. rewrite loaded_ids_app. apply union_subseteq_r.
  - cbn. apply empty_subseteq.
Qed.

(** Appending an entry keeps the ids of the file among the ids in memory,
    and adds to the memory at most the id of the entry. *)
Lemma append_log_in_memory st e entry s :
  log_in_memory st s ->
  log_in_memory st (_append_callback_log st e entry s)
  /\ _processed_callback_ids s ⊆ _processed_callback_ids (_append_callback_log st e entry s)
  /\ (forall id, id ∈ _processed_callback_ids (_append_callback_log st e entry s) ->
        id ∈ _processed_callback_ids s
        \/ (entry_callback_id entry = Some id /\ entry_success entry = true)).
Proof.
  unfold log_in_memory, _append_callback_log, _load_processed_callback_ids.
  destruct (callback_log_enabled st) eqn:Hen; [|intros Hinv; repeat split; auto].
  intros Hinv. pose proof (prune_loaded st (callback_log s)) as Hprune.
  destruct (log_write_ok e); cbn [callback_log _processed_callback_ids].
  - rewrite loaded_ids_app.
    assert (Hkept : loaded_ids (default [] (_prune_callback_log_if_needed st
                                              (callback_log s)))
                    ⊆ _processed_callback_ids s).
    { etrans; [exact Hprune|]. destruct (callback_log s); [exact Hinv|].
      apply empty_subseteq. }
    cbn [loaded_ids foldr].
    destruct (entry_success entry); [|repeat split; auto; set_solver].
    destruct (entry_callback_id entry) as [[|c rest]|]; repeat split; auto; set_solver.
  - split; [|split; [reflexivity|auto]].
    destruct (_prune_callback_log_if_needed st (callback_log s)) as [kept|] eqn:Hp;
      [|apply empty_subseteq].
    etrans; [exact Hprune|]. destruct (callback_log s); [exact Hinv|].
    apply empty_subseteq.
Qed.

Lemma emit_nil s : emit [] s = s.
Proof. destruct s. unfold emit. cbn. now rewrite app_nil_r. Qed.

Lemma emit_in_memory st evs s : log_in_memory st s <-> log_in_memory st (emit evs s).
Proof. reflexivity. Qed.

Section Handler.
Context `{Runtime}.

(** One delivery leaves the state as it was up to the trace, or appends
    one entry that carries the id of the callback. *)
Lemma handle_callback_shape st e cb s :
  (exists evs, snd (handle_callback st e cb s) = emit evs s)
  \/ exists evs1 evs2 entry,
       entry_callback_id entry = cb_id cb
       /\ snd (handle_callback st e cb s)
          = emit evs2 (_append_callback_log st e entry (emit evs1 s)).
Proof.
  assert (Hsame : exists evs, s = emit evs s).
  { exists []. destruct s. unfold emit. cbn. now rewrite app_nil_r. }
  assert (Hemit2 : forall evs1 evs2, emit evs2 (emit evs1 s) = emit (evs1 ++ evs2) s).
  { intros. unfold emit. cbn. now rewrite app_assoc. }
  unfold handle_callback.
  destruct (_is_callback_processed (cb_id cb) s); [now left|].
  destruct (negb (startswith (cb_data cb) "s:") || _); [left; eauto|].
  destruct (split (cb_data cb) ":") as [|? [|task_id [|action_code [|? ?]]]];
    try (now left).
  destruct (status_action_map st !! action_code) as [action|]; [|left; eauto].
  destruct (if bool_decide (action_operation action = Some "postpone")
               && positive_hours (action_postpone_hours action)
            then _postpone_task_due_date st e task_id (action_postpone_hours action)
            else (Returned, update_clickup_status st e task_id (action_key action)))
    as [[|] effects].
  - right. destruct (truthy _).
    + eexists _, _, _. split; [|cbn [snd]; rewrite Hemit2; reflexivity]. reflexivity.
    + eexists _, [], _. split; [|cbn [snd]; rewrite emit_nil, Hemit2; reflexivity].
      reflexivity.
  - right. eexists _, _, _. split; [|reflexivity]. reflexivity.
Qed.

Lemma handle_callback_in_memory st e cb s :
  log_in_memory st s ->
  log_in_memory st (snd (handle_callback st e cb s))
  /\ _processed_callback_ids s ⊆ _processed_callback_ids (snd (handle_callback st e cb s))
  /\ (forall id, id ∈ _processed_callback_ids (snd (handle_callback st e cb s)) ->
        id ∈ _processed_callback_ids s \/ cb_id cb = Some id).
Proof.
  intros Hinv.
  destruct (handle_callback_shape st e cb s)
    as [[evs ->]|(evs1 & evs2 & entry & Hid & ->)].
  - split; [exact Hinv|]. split; [reflexivity|auto].
  - destruct (append_log_in_memory st e entry (emit evs1 s) Hinv) as (Hinv' & Hsub & Hnew).
    split; [exact Hinv'|]. split; [exact Hsub|].
    intros id Hin. destruct (Hnew id Hin) as [Hold|[Hentry _]]; [now left|].
    right. congruence.
Qed.

Lemma serve_in_memory st deliveries : forall s,
  log_in_memory st s ->
  log_in_memory st (serve st deliveries s)
  /\ _processed_callback_ids s ⊆ _processed_callback_ids (serve st deliveries s)
  /\ (forall id, id ∈ _processed_callback_ids (serve st deliveries s) ->
        id ∈ _processed_callback_ids s
        \/ exists d, d ∈ deliveries /\ cb_id (snd d) = Some id).
Proof.
  induction deliveries as [|d deliveries IH]; intros s Hinv.
  - split; [exact Hinv|]. split; [reflexivity|auto].
  - destruct (handle_callback_in_memory st (fst d) (snd d) s Hinv) as (Hinv1 & Hsub1 & Hnew1).
    destruct (IH _ Hinv1) as (Hinv2 & Hsub2 & Hnew2).
    split; [exact Hinv2|]. split; [etrans; [exact Hsub1|exact Hsub2]|].
    intros id Hin. destruct (Hnew2 id Hin) as [Hold|(d' & Hd' & Hid)].
    + destruct (Hnew1 id Hold) as [Hs|Hid]; [now left|].
      right. exists d. split; [now left|exact Hid].
    + right. exists d'. split; [now right|exact Hid].
Qed.

End Handler.

(** X15: while callbacks are served the processed ids only grow, an id
    enters the set only as the id of a callback that was delivered, and
    every id a restart would prime from the log file is already in the set:
    a restart never knows of a processed callback that the running service
    has forgotten. *)
Theorem serve_keeps_log_in_memory `{Runtime} st deliveries file :
  let s := serve st deliveries (startup st file) in
  log_in_memory st s
  /\ _load_processed_callback_ids st file ⊆ _processed_callback_ids s
  /\ (forall id, id ∈ _processed_callback_ids s ->
        id ∈ _load_processed_callback_ids st file
        \/ exists d, d ∈ deliveries /\ cb_id (snd d) = Some id).
Proof.
  apply (serve_in_memory st deliveries (startup st file)).
  unfold log_in_memory, startup. reflexivity.
Qed.

(** X16: a callback the service cannot read changes nothing but the chat:
    when the data is not of the form [s:<task>:<code>] or the code is not a
    configured action, the handler answers the callback (if it has an id)
    and returns; no request goes to the tracker and the log is not
    written. *)
Theorem handle_callback_unreadable `{Runtime} st e cb s :
  _is_callback_processed (cb_id cb) s = false ->
  startswith (cb_data cb) "s:" = false
  \/ count (cb_data cb) ":" <> 2%nat
  \/ (exists prefix task_id action_code,
        split (cb_data cb) ":" = [prefix; task_id; action_code]
        /\ status_action_map st !! action_code = None) ->
  handle_callback st e cb s = (Returned, emit (answer (cb_id cb)) s)
  /\ applied_count (answer (cb_id cb)) = 0%nat
  /\ callback_log (emit (answer (cb_id cb)) s) = callback_log s
  /\ _processed_callback_ids (emit (answer (cb_id cb)) s) = _processed_callback_ids s.
Proof.
  intros Hnew Hbad. split; [|split; [|split; reflexivity]].
  - unfold handle_callback. rewrite Hnew.
    destruct Hbad as [Hs|[Hc|(prefix & task_id & action_code & Hsplit & Hnone)]].
    + now rewrite Hs.
    + apply Nat.eqb_neq in Hc. rewrite Hc. now rewrite orb_true_r.
    + destruct (negb _ || negb _); [reflexivity|]. now rewrite Hsplit, Hnone.
  - apply (answer_counts EmptyString).
Qed.

Import AsciiRuntime Office ChatSamples.

Lemma unknown_button_answered :
  handle_callback (chat true)
    (chat_env monday_1200 (client [engine_report] (Some true)) None) unknown_button
    (startup (chat true) None)
  = (Returned, emit [EvAnswerCallback "cb9"] (startup (chat true) None)).
Proof.
  refine (proj1 (handle_callback_unreadable (chat true)
                   (chat_env monday_1200 (client [engine_report] (Some true)) None)
                   unknown_button (startup (chat true) None) eq_refl _)).
  right. right. exists "s", "t1", "zz". split; vm_compute; reflexivity.
Defined.

End HandlerProps.

(** ** The engine's fetch and the chat service's use of it *)

Module EngineProps.
Import Py Clock ClickUpEngine EngineSpec.

Section Engine.
Context `{Runtime}.




End Engine.


Import TelegramReminderService.

(** X18: the limit of the chat service's fetch cuts the list at the end
    only: the result is always a prefix of what the engine returned; no
    limit, or a limit of 0, keeps everything; a positive limit keeps that
    many tasks at most; a negative limit drops that many tasks from the
    end. *)
Theorem fetch_pending_tasks_limit `{Runtime} st e limit pending :
  fetch_pending_reminders (engine_client e) (engine_config st)
    (fromtimestamp_us (timezone st) (now_utc e)) = Some pending ->
  (exists rest, pending = fetch_pending_tasks st e limit ++ rest)
  /\ (limit = None \/ limit = Some 0 -> fetch_pending_tasks st e limit = pending)
  /\ (forall n, limit = Some n -> 0 < n ->
        length (fetch_pending_tasks st e limit) = (Z.to_nat n `min` length pending)%nat)
  /\ (forall n, limit = Some n -> n < 0 ->
        length (fetch_pending_tasks st e limit)
        = (length pending - Z.to_nat (- n))%nat).
Proof.
  intros Hfetch. unfold fetch_pending_tasks. rewrite Hfetch.
  split; [|split; [|split]].
  - destruct limit as [[|n|n]|]; try (exists []; now rewrite app_nil_r);
      unfold slice_limit; destruct (_ <=? _); eexists; symmetry; apply take_drop.
  - intros [-> | ->]; reflexivity.
  - intros n -> Hn. destruct n as [|n|n]; try lia.
    unfold slice_limit. cbn [Z.leb Z.compare]. now rewrite length_take.
  - intros n -> Hn. destruct n as [|n|n]; try lia.
    unfold slice_limit. cbn [Z.leb Z.compare]. rewrite length_take. lia.
Qed.

Import AsciiRuntime Office EngineSamples.


Lemma fetch_pending_first_only :
  length (fetch_pending_tasks (chat true)
            (chat_env monday_1200 (client [engine_report; engine_report] (Some true)) None)
            (Some 1)) = 1%nat.
Proof.
  refine (proj1 (proj2 (proj2 (fetch_pending_tasks_limit (chat true)
            (chat_env monday_1200 (client [engine_report; engine_report] (Some true)) None)
            (Some 1) _ eq_refl))) 1 eq_refl _).
  lia.
Defined.

End EngineProps.

(** ** A due date that is not a number *)

Module DueDateProps.
Import Py Clock ReminderSystem FetchFacts FetchSpec FetchProps.

(** X19: one task of a reminders list whose due date is not empty and does
    not read as a number makes the conversion raise inside the traversal:
    the fetch then returns no task at all, whatever else is due. *)
Theorem get_tasks_bad_due_date `{Runtime} tr cfg completed_tasks now task due :
  reachable tr cfg task ->
  task_due_date task = Some due -> due <> EmptyString -> py_int due = None ->
  get_tasks_for_reminder tr cfg completed_tasks now = [].
Proof.
  intros (ws & spaces & space & item & tasks & Hws & Hspaces & Hspace & Hitem
          & Hname & Htasks & Htask) Hdue Hne Hint.
  assert (Hkeep : forall acc, keep_due_task completed_tasks now acc task = None).
  { intros acc. unfold keep_due_task. rewrite Hdue.
    destruct due; [contradiction|]. now rewrite Hint. }
  assert (Hlist : forall acc, scan_list tr cfg completed_tasks now acc item = None).
  { intros acc. unfold scan_list. rewrite Hname, String.eqb_refl, Htasks.
    now apply (foldM_raises _ _ task). }
  assert (Hscan : forall acc, scan_space tr cfg completed_tasks now acc space = None).
  { intros acc. unfold scan_space.
    destruct (get_folders tr space) as [folders|] eqn:Hfolders; [|reflexivity].
    destruct (get_space_lists tr space) as [lists|] eqn:Hlists; [|reflexivity].
    destruct (foldM (extend_lists tr) folders lists) as [lists'|] eqn:Hext;
      [|reflexivity].
    apply (foldM_raises _ _ item); [|exact Hlist].
    destruct (extend_lists_grows _ _ _ _ Hext) as [Hold Hnew].
    destruct Hitem as [(l & [= <-] & Hl)|(fs & fd & m & [= <-] & Hfd & Hm & Hl)].
    - now apply Hold.
    - now apply (Hnew fd m). }
  unfold get_tasks_for_reminder.
  now rewrite (get_tasks_try_space_raises tr cfg completed_tasks now ws spaces space
                 Hws Hspaces Hspace Hscan).
Qed.

Import AsciiRuntime Office Samples.

Lemma get_tasks_hidden_by_bad_date :
  get_tasks_for_reminder (one_list [report; tomorrow] (PutStatus 200)) office ∅
    monday_1200 = [].
Proof.
  apply (get_tasks_bad_due_date (one_list [report; tomorrow] (PutStatus 200)) office ∅
           monday_1200 tomorrow "завтра").
  - exists "9001", ["s1"], "s1", {| list_id := "l1"; list_name := "Напоминания" |},
      [report; tomorrow].
    repeat split; try reflexivity.
    + constructor.
    + left. exists [{| list_id := "l1"; list_name := "Напоминания" |}].
      split; [reflexivity|constructor].
    + right. constructor.
  - reflexivity.
  - discriminate.
  - vm_compute. reflexivity.
Defined.

End DueDateProps.

(** ** The call for a group of tasks *)

Module CallFlowProps.
Import Py Clock ReminderSystem CallFlow UpdateFacts UpdateProps LedgerSpec AsciiRuntime
  Office Samples.

Example str_of_int_samples :
  map str_of_int [0; 7; 10; 1709280000000; -42] = ["0"; "7"; "10"; "1709280000000"; "-42"].
Proof. vm_compute. reflexivity. Qed.

Lemma grows_by_refl P l : grows_by P l l.
Proof. split; auto. Qed.

Lemma grows_by_trans P l1 l2 l3 :
  grows_by P l1 l2 -> grows_by P l2 l3 -> grows_by P l1 l3.
Proof.
  intros [Hk1 Hn1] [Hk2 Hn2]. split; [auto|].
  intros id Hid. destruct (Hn2 id Hid) as [H2|Hin]; [auto|now right].
Qed.

Lemma grows_by_weaken (P Q : string -> Prop) l l' :
  (forall id, P id -> Q id) -> grows_by P l l' -> grows_by Q l l'.
Proof.
  intros Hsub [Hk Hn]. split; [exact Hk|].
  intros id Hid. destruct (Hn id Hid); auto.
Qed.

Lemma grows_by_mark writable id0 name now l :
  l !! id0 = None ->
  grows_by (eq id0) l (_mark_task_completed writable id0 name now l).
Proof.
  intros Hnone. unfold _mark_task_completed, _save_completed_tasks.
  destruct writable; [|apply grows_by_refl]. split.
  - intros id record Hid. destruct (decide (id = id0)) as [->|Hne]; [congruence|].
    now rewrite lookup_insert_ne.
  - intros id Hid. destruct (decide (id = id0)) as [->|Hne]; [now right|].
    left. now rewrite lookup_insert_ne in Hid.
Qed.

Section Flow.
Context `{Runtime}.

Lemma update_grows tr cfg now task_id status task_data w :
  let w' := snd (update_task_in_clickup tr cfg now task_id status task_data w) in
  ledger_writable w' = ledger_writable w
  /\ grows_by (eq task_id) (completed w) (completed w')
  /\ (status <> DONE -> completed w' = completed w).
Proof.
  destruct (update_world tr cfg now task_id status task_data w)
    as [Hwr [Hsame|(Hdone & Hled & Hmark)]]; cbv zeta.
  - rewrite Hsame. split; [exact Hwr|]. split; [apply grows_by_refl|auto].
  - rewrite Hmark. split; [exact Hwr|]. split; [|contradiction].
    apply grows_by_mark. apply bool_decide_eq_false in Hled.
    destruct (completed w !! task_id) eqn:Hl; [|reflexivity]. destruct Hled. eauto.
Qed.

Lemma update_with_value_grows tr cfg now task value w :
  let w' := snd (update_with_value tr cfg now task value w) in
  ledger_writable w' = ledger_writable w
  /\ grows_by (eq (task_id task)) (completed w) (completed w')
  /\ (value <> JStr DONE -> completed w' = completed w).
Proof.
  assert (Hprinted : forall text,
    let r := if _is_task_completed (task_id task) (completed w) then (Returned, w)
             else send_update tr cfg (task_id task)
                    {| ud_description :=
                         (data_description (TaskDict task) ++ history_entry now text)%string;
                       ud_status := None; ud_due_date := None |} w in
    ledger_writable (snd r) = ledger_writable w
    /\ grows_by (eq (task_id task)) (completed w) (completed (snd r))
    /\ completed (snd r) = completed w).
  { intros text. cbv zeta. destruct (_is_task_completed _ _).
    - split; [reflexivity|]. split; [apply grows_by_refl|reflexivity].
    - match goal with |- context [send_update ?a ?b ?c ?d ?e] =>
        destruct (send_update_completed a b c d e) as [-> ->] end.
      split; [reflexivity|]. split; [apply grows_by_refl|reflexivity]. }
  cbv zeta. destruct value as [|[|]|z|status|items|fields]; cbn [update_with_value];
    try (destruct (Hprinted "None") as (? & ? & ?); now auto);
    try (destruct (Hprinted "True") as (? & ? & ?); now auto);
    try (destruct (Hprinted "False") as (? & ? & ?); now auto);
    try (destruct (Hprinted (str_of_int z)) as (? & ? & ?); now auto).
  - destruct (update_grows tr cfg now (task_id task) status (TaskDict task) w)
      as (Hwr & Hgrow & Hsame).
    split; [exact Hwr|]. split; [exact Hgrow|]. intros Hne. apply Hsame. congruence.
  - destruct (_is_task_completed _ _); cbn;
      (split; [reflexivity|]; split; [apply grows_by_refl|reflexivity]).
  - destruct (_is_task_completed _ _); cbn;
      (split; [reflexivity|]; split; [apply grows_by_refl|reflexivity]).
Qed.

(** A loop that applies one status other than [DONE] leaves the ledger as
    it was. *)
Lemma mark_all_ledger tr cfg now_at status result tasks : forall k f,
  status <> DONE ->
  completed (fw (snd (mark_all tr cfg now_at k status result tasks f)))
  = completed (fw f).
Proof.
  induction tasks as [|task tasks IH]; intros k f Hne; [reflexivity|].
  cbn [mark_all].
  destruct (update_grows tr cfg (now_at k) (task_id task) status (TaskDict task) (fw f))
    as (_ & _ & Hsame).
  destruct (update_task_in_clickup tr cfg (now_at k) (task_id task) status
              (TaskDict task) (fw f)) as [[|] w] eqn:Hup; cbn [snd] in *.
  - rewrite (IH _ _ Hne). cbn. now apply Hsame.
  - cbn. now apply Hsame.
Qed.

(** The transcription is a text that is not empty, with the status
    [SUCCESS], or there is none, with one of the three other statuses. *)
Lemma transcribe_contract tel recording_path :
  (exists text, get_call_recording_and_transcribe tel recording_path
                = (Some text, "SUCCESS") /\ text <> EmptyString)
  \/ (fst (get_call_recording_and_transcribe tel recording_path) = None
      /\ snd (get_call_recording_and_transcribe tel recording_path)
         ∈ ["NOT_FOUND"; "NO_RESPONSE"; "ERROR"]).
Proof.
  unfold get_call_recording_and_transcribe.
  destruct recording_path as [[|c rest]|]; try (right; split; [reflexivity|constructor]).
  destruct (file_exists tel _); [|right; split; [reflexivity|constructor]].
  destruct (whisper tel _) as [text|]; [|right; split; [reflexivity|]].
  - destruct (py_strip text) as [|c' t] eqn:Hs.
    + right. split; [reflexivity|]. right. constructor.
    + left. exists (String c' t). split; [reflexivity|discriminate].
  - right. right. constructor.
Qed.

Lemma process_batch_no_answer tel tr cfg now_at tasks recipient phone f call :
  make_batch_call tel phone tasks recipient = Some call ->
  call = None
  \/ (exists sid, call = Some sid
        /\ (snd (download_call_recording tel sid) <> "SUCCESS"
            \/ CallFlow.truthy (fst (download_call_recording tel sid)) = false
            \/ fst (get_call_recording_and_transcribe tel
                      (fst (download_call_recording tel sid))) = None)) ->
  exists result, forall oracle,
    process_batch_tasks tel oracle tr cfg now_at tasks recipient phone f
    = mark_all tr cfg now_at 0 NOT_DONE result tasks f.
Proof.
  intros Hcall Hno. unfold process_batch_tasks. rewrite Hcall.
  destruct Hno as [-> |(sid & -> & Hno)]; [eauto|].
  destruct (download_call_recording tel sid) as [path status]. cbn [fst snd] in Hno.
  destruct (negb (String.eqb status "SUCCESS") || negb (CallFlow.truthy path)) eqn:Hrec;
    [eauto|].
  apply orb_false_iff in Hrec as [Hs Hp].
  apply negb_false_iff in Hs. apply String.eqb_eq in Hs. apply negb_false_iff in Hp.
  destruct Hno as [Hno|[Hno|Hno]]; [congruence|congruence|].
  destruct (get_call_recording_and_transcribe tel path) as [transcription trans_status].
  cbn [fst] in Hno. subst transcription. cbn [CallFlow.truthy negb].
  rewrite orb_true_r. eauto.
Qed.

Lemma apply_statuses_grows tr cfg now_at task_statuses tasks : forall k f,
  grows_by (fun id => id ∈ map task_id tasks /\ classified_done task_statuses id)
    (completed (fw f))
    (completed (fw (snd (apply_statuses tr cfg now_at k task_statuses tasks f)))).
Proof.
  induction tasks as [|task tasks IH]; intros k f; [apply grows_by_refl|].
  cbn [apply_statuses].
  destruct task_statuses as [| | | | |d]; try apply grows_by_refl.
  destruct (task_name task); [|apply grows_by_refl].
  set (value := default (JStr UNCLEAR) (dict_get d (task_id task))).
  destruct (update_with_value_grows tr cfg (now_at k) task value (fw f))
    as (_ & Hgrow & Hsame).
  assert (Hstep : grows_by
            (fun id => id ∈ map task_id (task :: tasks) /\ classified_done (JObj d) id)
            (completed (fw f))
            (completed (snd (update_with_value tr cfg (now_at k) task value (fw f))))).
  { assert (Hcase : value = JStr DONE \/ value <> JStr DONE).
    { destruct value as [| |n|label| |]; try (right; discriminate).
      destruct (decide (label = DONE)) as [->|Hne]; [now left|right; congruence]. }
    destruct Hcase as [Hdone|Hne].
    - apply (grows_by_weaken (eq (task_id task))); [|exact Hgrow].
      intros id <-. split; [now left|]. exists d. split; [reflexivity|].
      unfold value in Hdone. destruct (dict_get d (task_id task)); cbn in Hdone;
        [now rewrite Hdone|discriminate].
    - rewrite (Hsame Hne). apply grows_by_refl. }
  destruct (update_with_value tr cfg (now_at k) task value (fw f)) as [[|] w];
    cbn [snd] in *; [|exact Hstep].
  eapply grows_by_trans; [exact Hstep|].
  match goal with
  | |- grows_by _ _ (completed (fw (snd (apply_statuses _ _ _ ?k' _ _ ?f')))) =>
      eapply grows_by_weaken; [|exact (IH k' f')]
  end.
  intros id [Hin Hdone]. split; [now right|exact Hdone].
Qed.

Lemma process_batch_grows tel oracle tr cfg now_at tasks recipient phone f :
  grows_by
    (fun id => id ∈ map task_id tasks
               /\ exists text, classified_done (analyze_batch_response oracle text tasks) id)
    (completed (fw f))
    (completed (fw (snd (process_batch_tasks tel oracle tr cfg now_at tasks recipient
                           phone f)))).
Proof.
  unfold process_batch_tasks.
  assert (Hmark : forall status result, status <> DONE ->
            grows_by
              (fun id => id ∈ map task_id tasks
                 /\ exists text,
                      classified_done (analyze_batch_response oracle text tasks) id)
              (completed (fw f))
              (completed (fw (snd (mark_all tr cfg now_at 0 status result tasks f))))).
  { intros status result Hne. rewrite (mark_all_ledger _ _ _ _ _ _ _ _ Hne).
    apply grows_by_refl. }
  destruct (make_batch_call tel phone tasks recipient) as [[sid|]|];
    [|now apply Hmark|apply grows_by_refl].
  destruct (download_call_recording tel sid) as [path status].
  destruct (negb _ || negb _); [now apply Hmark|].
  destruct (get_call_recording_and_transcribe tel path) as [transcription trans_status].
  destruct (_ || _ || _); [now apply Hmark|].
  destruct (String.eqb trans_status "ERROR"); [now apply Hmark|].
  eapply grows_by_weaken; [|apply apply_statuses_grows].
  intros id [Hin Hdone]. split; [exact Hin|eauto].
Qed.

End Flow.


(** X20: when the call cannot be placed, the recording cannot be had, or
    there is no transcription (no file, a transcription request that
    fails, an empty text), every task of the group gets [NOT_DONE], one
    after the other until an update raises; the ledger is left as it was
    and the classifier plays no part.  A failed transcription request is
    such a case: the branch that would apply [UNCLEAR] is not reached. *)
Theorem batch_without_answer `{Runtime} tel oracle tr cfg now_at tasks recipient phone
    f call :
  make_batch_call tel phone tasks recipient = Some call ->
  call = None
  \/ (exists sid, call = Some sid
        /\ (snd (download_call_recording tel sid) <> "SUCCESS"
            \/ CallFlow.truthy (fst (download_call_recording tel sid)) = false
            \/ fst (get_call_recording_and_transcribe tel
                      (fst (download_call_recording tel sid))) = None)) ->
  (exists result,
     process_batch_tasks tel oracle tr cfg now_at tasks recipient phone f
     = mark_all tr cfg now_at 0 NOT_DONE result tasks f)
  /\ completed (fw (snd (process_batch_tasks tel oracle tr cfg now_at tasks recipient
                           phone f)))
     = completed (fw f)
  /\ (forall oracle',
        process_batch_tasks tel oracle' tr cfg now_at tasks recipient phone f
        = process_batch_tasks tel oracle tr cfg now_at tasks recipient phone f)
  /\ (forall path, whisper tel path = None ->
        fst (get_call_recording_and_transcribe tel (Some path)) = None).
Proof.
  intros Hcall Hno.
  destruct (process_batch_no_answer tel tr cfg now_at tasks recipient phone f
              call Hcall Hno) as [result Hres].
  split; [eauto|]. split; [|split].
  - rewrite Hres. apply mark_all_ledger. discriminate.
  - intros oracle'. now rewrite !Hres.
  - intros path Hw. unfold get_call_recording_and_transcribe.
    destruct path as [|c rest]; [reflexivity|].
    destruct (file_exists tel _); [now rewrite Hw|reflexivity].
Qed.

Lemma batch_call_not_placed :
  completed (fw (snd (process_batch_tasks no_line (fun _ _ => None)
                        (one_list [report; second] (PutStatus 200)) office (fun _ => monday_1200)
                        [report; second] "Alex" "+70000000000"
                        {| fw := empty_world; comments := [] |})))
  = completed empty_world.
Proof.
  refine (proj1 (proj2 (batch_without_answer no_line (fun _ _ => None)
                          (one_list [report; second] (PutStatus 200)) office
                          (fun _ => monday_1200) [report; second] "Alex" "+70000000000"
                          {| fw := empty_world; comments := [] |} None _ _)));
    [reflexivity|now left].
Defined.

End CallFlowProps.

(** ** A whole run with its calls *)

Module RunProps.
Import Py Clock ReminderSystem CallFlow GroupSpec LedgerSpec GroupProps CallFlowProps.

Section Run.
Context `{Runtime}.
Variable _extract_recipient_name : string -> option string.
Variable contact_phone : string -> option string.
Variables (tel : telephony) (oracle : string -> list raw_task -> completion).
Variables (tr : tracker) (cfg : config).
(** The clock as the updates of the call for one recipient read it. *)
Variable now_at : string -> nat -> datetime.

Lemma groups_within tasks groups :
  foldM (group_task _extract_recipient_name) tasks [] = Some groups ->
  forall recipient group task,
    (recipient, group) ∈ groups -> task ∈ group -> task ∈ tasks.
Proof.
  intros Hfold recipient group task Hg Hin.
  assert (Hok0 : groups_ok (@nil (string * list raw_task))).
  { split; [constructor|]. intros ? ? [=]. }
  destruct (group_tasks_spec _extract_recipient_name tasks [] groups Hok0 Hfold)
    as [[Hnd _] Hget].
  apply (dict_get_elem _ _ _ Hnd) in Hg. specialize (Hget recipient).
  rewrite Hg in Hget. cbn in Hget. rewrite Hget in Hin.
  apply list_elem_of_In, List.filter_In in Hin as [Hin _]. now apply list_elem_of_In.
Qed.

Lemma process_recipient_grows w group :
  grows_by (fun id => id ∈ map task_id (snd group)) (completed w)
    (completed (process_recipient contact_phone (batch tel oracle tr cfg now_at) w
                  group)).
Proof.
  unfold process_recipient. destruct (contact_phone (fst group)) as [phone|];
    [|apply grows_by_refl].
  unfold batch, batch_for_run.
  eapply grows_by_weaken;
    [|exact (process_batch_grows tel oracle tr cfg (now_at (fst group)) (snd group)
               (fst group) phone
               {| fw := emit (EvBatchCall (fst group) phone (map task_id (snd group))) w;
                  comments := [] |})].
  now intros id [Hin _].
Qed.

Lemma process_recipients_grow groups : forall w,
  grows_by (fun id => exists group, group ∈ groups /\ id ∈ map task_id (snd group))
    (completed w)
    (completed (fold_left (process_recipient contact_phone
                             (batch tel oracle tr cfg now_at)) groups w)).
Proof.
  induction groups as [|group groups IH]; intros w; cbn [fold_left];
    [apply grows_by_refl|].
  eapply grows_by_trans.
  - eapply grows_by_weaken; [|apply process_recipient_grows].
    intros id Hin. exists group. split; [now left|exact Hin].
  - eapply grows_by_weaken; [|apply IH].
    intros id (g & Hg & Hin). exists g. split; [now right|exact Hin].
Qed.

Lemma cycle_grows now w :
  grows_by (fun id => id ∈ map task_id (get_tasks_for_reminder tr cfg (completed w) now))
    (completed w)
    (completed (snd (cycle _extract_recipient_name contact_phone
                       (batch tel oracle tr cfg now_at) tr cfg now w))).
Proof.
  unfold cycle. cbn [emit completed].
  destruct (get_tasks_for_reminder tr cfg (completed w) now) as [|task tasks] eqn:Hget;
    [apply grows_by_refl|].
  destruct (foldM (group_task _extract_recipient_name) (task :: tasks) [])
    as [groups|] eqn:Hfold; [|apply grows_by_refl].
  cbn [snd]. eapply grows_by_weaken;
    [|exact (process_recipients_grow groups (emit EvFetchTasks w))].
  intros id ([recipient group] & Hg & Hin). cbn [snd] in Hin.
  apply list_elem_of_fmap in Hin as (t & -> & Ht).
  apply list_elem_of_fmap. exists t. split; [reflexivity|].
  exact (groups_within _ _ Hfold recipient group t Hg Ht).
Qed.

End Run.

(** X22: a run, with its calls and the updates they lead to, never removes
    or rewrites a record of the ledger, and every record it adds is for a
    task that the run fetched as due. *)
Theorem run_ledger_frame `{Runtime} _extract_recipient_name contact_phone tel oracle
    tr cfg now_at force now w :
  let w' := snd (run _extract_recipient_name contact_phone
                   (batch tel oracle tr cfg now_at) force tr cfg now w) in
  (forall id record, completed w !! id = Some record -> completed w' !! id = Some record)
  /\ (forall id,
        is_Some (completed w' !! id) ->
        is_Some (completed w !! id)
        \/ id ∈ map task_id (get_tasks_for_reminder tr cfg (completed w) now)).
Proof.
  cbv zeta. unfold run.
  pose proof (cycle_grows _extract_recipient_name contact_phone tel oracle tr cfg now_at
                now w) as Hcycle.
  destruct force; [exact Hcycle|].
  destruct (_is_working_hours cfg now) as [[|]|]; [exact Hcycle| |];
    (split; [auto|intros id Hid; now left]).
Qed.

End RunProps.

(** ** The buttons: what a delivery records *)

Module ButtonProps.
Import Py Clock TelegramReminderService CallbackFacts ButtonSpec HandlerProps.

Section Buttons.
Context `{Runtime}.

(** A delivery that reaches the action: its effects, one log entry, the
    messages. *)
Lemma handle_callback_run st e cb s task_id action_code action :
  _is_callback_processed (cb_id cb) s = false ->
  reads_as cb task_id action_code ->
  status_action_map st !! action_code = Some action ->
  let r := if is_postpone_action action
           then _postpone_task_due_date st e task_id (action_postpone_hours action)
           else (Returned, update_clickup_status st e task_id (action_key action)) in
  exists evs1 evs2 entry,
    snd (handle_callback st e cb s)
    = emit evs2 (_append_callback_log st e entry (emit evs1 s))
    /\ entry_callback_id entry = cb_id cb
    /\ entry_task_id entry = task_id
    /\ entry_success entry = match fst r with Returned => true | Raised => false end
    /\ applied_count evs1 = applied_count (snd r)
    /\ applied_count evs2 = 0%nat
    /\ forall id, success_count id evs1 = success_count id (snd r)
                  /\ success_count id evs2 = 0%nat.
Proof.
  intros Hnew (Hs & Hc & prefix & Hsplit) Haction. cbv zeta.
  assert (Hemit2 : forall evs1 evs2, emit evs2 (emit evs1 s) = emit (evs1 ++ evs2) s).
  { intros. unfold emit. cbn. now rewrite app_assoc. }
  unfold handle_callback, is_postpone_action.
  rewrite Hnew, Hs, Hc, Hsplit, Haction. cbn [negb orb Nat.eqb].
  destruct (if bool_decide (action_operation action = Some "postpone")
               && positive_hours (action_postpone_hours action)
            then _postpone_task_due_date st e task_id (action_postpone_hours action)
            else (Returned, update_clickup_status st e task_id (action_key action)))
    as [[|] effects]; cbn [fst snd].
  - set (kb := match cb_chat_id cb with
               | Some (String c rest) =>
                   match cb_message_id cb with
                   | Some m => if m =? 0 then [] else [EvRemoveKeyboard (String c rest)]
                   | None => []
                   end
               | _ => []
               end).
    assert (Hkb : applied_count kb = 0%nat /\ forall id, success_count id kb = 0%nat).
    { unfold kb. destruct (cb_chat_id cb) as [[|c rest]|]; try (split; reflexivity).
      destruct (cb_message_id cb) as [m|]; try (split; reflexivity).
      destruct (m =? 0); split; reflexivity. }
    destruct Hkb as [Hka Hks]. clearbody kb. rewrite Hemit2.
    destruct (truthy _).
    + eexists (effects ++ kb), _, _. split; [cbn [snd]; reflexivity|].
      split; [reflexivity|]. split; [reflexivity|]. split; [reflexivity|].
      rewrite !applied_count_app, Hka.
      destruct (answer_counts EmptyString (cb_id cb)) as [-> _].
      match goal with |- context [notify_chat ?c] =>
        destruct (notify_chat_counts EmptyString c) as [-> _] end.
      split; [lia|]. split; [reflexivity|]. intros id.
      rewrite !success_count_app, Hks.
      destruct (answer_counts id (cb_id cb)) as [_ ->].
      match goal with |- context [notify_chat ?c] =>
        destruct (notify_chat_counts id c) as [_ ->] end.
      split; [lia|reflexivity].
    + eexists (effects ++ kb), [], _. split; [cbn [snd]; now rewrite emit_nil|].
      split; [reflexivity|]. split; [reflexivity|]. split; [reflexivity|].
      rewrite !applied_count_app, Hka. split; [lia|]. split; [reflexivity|].
      intros id. rewrite !success_count_app, Hks. split; [lia|reflexivity].
  - eexists effects, _, _. split; [reflexivity|].
    split; [reflexivity|]. split; [reflexivity|]. split; [reflexivity|].
    split; [reflexivity|].
    rewrite !applied_count_app.
    destruct (answer_counts EmptyString (cb_id cb)) as [-> _].
    destruct (notify_chat_counts EmptyString (cb_chat_id cb)) as [-> _].
    destruct (notify_chat_counts EmptyString (configured_default_chat st)) as [-> _].
    split; [reflexivity|]. intros id. split; [reflexivity|].
    rewrite !success_count_app.
    destruct (answer_counts id (cb_id cb)) as [_ ->].
    destruct (notify_chat_counts id (cb_chat_id cb)) as [_ ->].
    destruct (notify_chat_counts id (configured_default_chat st)) as [_ ->].
    reflexivity.
Qed.

(** A status update that the tracker does not apply leaves no applied
    change in the trace. *)
Lemma update_clickup_status_refused st e task_id status_key :
  (forall status,
     ClickUpEngine.update_task_status (engine_client e) task_id status <> Some true) ->
  applied_count (update_clickup_status st e task_id status_key) = 0%nat.
Proof.
  intros Hrefused. unfold update_clickup_status.
  destruct (status_mapping st !! status_key) as [[|c rest]|]; try reflexivity.
  unfold ClickUpEngine.engine_update_task_status.
  specialize (Hrefused (String c rest)).
  destruct (ClickUpEngine.update_task_status _ _ _) as [[|]|];
    [contradiction|reflexivity|reflexivity].
Qed.

Lemma postpone_outcome st e task_id hours :
  positive_hours hours = true ->
  let r := _postpone_task_due_date st e task_id hours in
  ((forall payload, update_task e task_id payload = false) ->
     fst r = Raised /\ applied_count (snd r) = 0%nat)
  /\ ((forall payload, update_task e task_id payload = true) ->
        fst r = Returned /\ applied_count (snd r) = 1%nat).
Proof.
  intros Hpos. cbv zeta. unfold _postpone_task_due_date.
  destruct hours as [h|]; [|discriminate]. rewrite Hpos. cbn [negb].
  destruct (postpone_base st e (fetch_task e task_id)) as [base_due has_current].
  split; intros Hup; rewrite Hup; split; reflexivity.
Qed.

End Buttons.

(** X23: a status button is recorded as done whatever the tracker did.
    With the log switched on and writable, one delivery of a callback that
    names a status action puts the id of the callback among the processed
    ids and ends the log with a success entry for the task, so that every
    later delivery of the callback is dropped; this holds also when the
    tracker applied no change at all. *)
Theorem status_button_recorded `{Runtime} st e cb s id task_id action_code action :
  callback_log_enabled st = true -> log_write_ok e = true ->
  cb_id cb = Some id -> id <> EmptyString -> id ∉ _processed_callback_ids s ->
  reads_as cb task_id action_code ->
  status_action_map st !! action_code = Some action ->
  is_postpone_action action = false ->
  let s' := snd (handle_callback st e cb s) in
  id ∈ _processed_callback_ids s'
  /\ (exists kept entry,
        callback_log s' = Some (kept ++ [entry])
        /\ entry_success entry = true
        /\ entry_callback_id entry = Some id
        /\ entry_task_id entry = task_id)
  /\ (forall e', handle_callback st e' cb s' = (Returned, s'))
  /\ ((forall status,
         ClickUpEngine.update_task_status (engine_client e) task_id status <> Some true) ->
      exists evs, trace s' = trace s ++ evs /\ applied_count evs = 0%nat).
Proof.
  intros Hen Hok Hid Hne Hnew Hreads Haction Hstatus. cbv zeta.
  assert (Hunprocessed : _is_callback_processed (cb_id cb) s = false).
  { unfold _is_callback_processed. rewrite Hid. destruct id; [contradiction|].
    now apply bool_decide_eq_false_2. }
  destruct (handle_callback_run st e cb s task_id action_code action Hunprocessed
              Hreads Haction)
    as (evs1 & evs2 & entry & -> & Hcb & Htask & Hsucc & Happlied & Hevs2 & _).
  rewrite Hstatus in Hsucc, Happlied. cbn [fst snd] in Hsucc, Happlied.
  rewrite (append_log_written st e entry _ Hen Hok), Hsucc, Hcb, Hid.
  destruct id as [|c rest]; [contradiction|].
  assert (Hin : String c rest
                ∈ _processed_callback_ids
                    (emit evs2
                       {| _processed_callback_ids :=
                            {[String c rest]} ∪ _processed_callback_ids (emit evs1 s);
                          callback_log :=
                            Some (default [] (_prune_callback_log_if_needed st
                                                (callback_log (emit evs1 s))) ++ [entry]);
                          trace := trace (emit evs1 s) ++ [EvLogAppend entry] |})).
  { cbn. apply elem_of_union_l, elem_of_singleton. reflexivity. }
  split; [exact Hin|]. split; [|split].
  - eexists _, entry. split; [reflexivity|]. rewrite Hsucc, Hcb, Hid. now repeat split.
  - intros e'. apply (handle_callback_processed st e' cb _ (String c rest) Hid Hne Hin).
  - intros Hrefused.
    exists (evs1 ++ [EvLogAppend entry] ++ evs2). cbn [trace emit].
    split; [now rewrite <- !app_assoc|].
    rewrite !applied_count_app, Happlied, Hevs2,
      (update_clickup_status_refused st e task_id (action_key action) Hrefused).
    reflexivity.
Qed.

(** X24: a postponement that the tracker refuses is not recorded as done:
    the processed ids stay as they were, no change is applied and no
    success entry is written, so the next delivery of the same callback is
    handled again; if the tracker then accepts the update, that delivery
    applies the one change. *)
Theorem refused_postpone_retried `{Runtime} st e cb s task_id action_code action :
  _is_callback_processed (cb_id cb) s = false ->
  reads_as cb task_id action_code ->
  status_action_map st !! action_code = Some action ->
  is_postpone_action action = true ->
  (forall payload, update_task e task_id payload = false) ->
  let s' := snd (handle_callback st e cb s) in
  _processed_callback_ids s' = _processed_callback_ids s
  /\ (exists evs,
        trace s' = trace s ++ evs
        /\ applied_count evs = 0%nat
        /\ forall id, success_count id evs = 0%nat)
  /\ (forall e',
        (forall payload, update_task e' task_id payload = true) ->
        exists evs',
          trace (snd (handle_callback st e' cb s')) = trace s' ++ evs'
          /\ applied_count evs' = 1%nat).
Proof.
  intros Hnew Hreads Haction Hpost Hrefused. cbv zeta.
  assert (Hpos : positive_hours (action_postpone_hours action) = true).
  { unfold is_postpone_action in Hpost. now apply andb_true_iff in Hpost as [_ Hpos]. }
  assert (Hlog : forall e0 entry s0,
            exists evs,
              trace (_append_callback_log st e0 entry s0) = trace s0 ++ evs
              /\ applied_count evs = 0%nat
              /\ (entry_success entry = false ->
                  _processed_callback_ids (_append_callback_log st e0 entry s0)
                  = _processed_callback_ids s0
                  /\ forall id, success_count id evs = 0%nat)).
  { intros e0 entry s0. unfold _append_callback_log.
    destruct (callback_log_enabled st);
      [|exists []; rewrite app_nil_r; now repeat split].
    destruct (log_write_ok e0); [|exists []; rewrite app_nil_r; now repeat split].
    exists [EvLogAppend entry]. cbn [trace _processed_callback_ids].
    split; [reflexivity|]. split; [reflexivity|]. intros Hfail. rewrite Hfail.
    split; [reflexivity|]. intros id. unfold success_count. cbn. now rewrite Hfail. }
  destruct (handle_callback_run st e cb s task_id action_code action Hnew Hreads Haction)
    as (evs1 & evs2 & entry & Hrun & Hcb & _ & Hsucc & Happlied & Hevs2 & Hsuccess).
  rewrite Hpost in Hsucc, Happlied, Hsuccess.
  destruct (proj1 (postpone_outcome st e task_id _ Hpos) Hrefused) as [Hraised Hzero].
  rewrite Hraised in Hsucc. rewrite Hzero in Happlied.
  destruct (Hlog e entry (emit evs1 s)) as (evl & Htrace & Hevl & Hfail).
  destruct (Hfail Hsucc) as [Hids Hnone].
  assert (Hsame : _processed_callback_ids (snd (handle_callback st e cb s))
                  = _processed_callback_ids s).
  { rewrite Hrun. cbn [emit _processed_callback_ids]. now rewrite Hids. }
  split; [exact Hsame|]. split.
  - exists (evs1 ++ evl ++ evs2). rewrite Hrun. cbn [emit trace]. rewrite Htrace.
    cbn [emit trace]. split; [now rewrite <- !app_assoc|].
    split.
    + rewrite !applied_count_app, Happlied, Hevl, Hevs2. reflexivity.
    + intros id. rewrite !success_count_app, Hnone.
      destruct (Hsuccess id) as [-> ->].
      destruct (postpone_counts id st e task_id (action_postpone_hours action))
        as [-> _]. reflexivity.
  - intros e' Haccepts.
    assert (Hnew' : _is_callback_processed (cb_id cb) (snd (handle_callback st e cb s))
                    = false).
    { unfold _is_callback_processed in *. now rewrite Hsame. }
    destruct (handle_callback_run st e' cb _ task_id action_code action Hnew' Hreads
                Haction)
      as (evs1' & evs2' & entry' & Hrun' & _ & _ & _ & Happlied' & Hevs2' & _).
    rewrite Hpost in Happlied'.
    destruct (proj2 (postpone_outcome st e' task_id _ Hpos) Haccepts) as [_ Hone].
    rewrite Hone in Happlied'.
    destruct (Hlog e' entry' (emit evs1' (snd (handle_callback st e cb s))))
      as (evl' & Htrace' & Hevl' & _).
    exists (evs1' ++ evl' ++ evs2'). rewrite Hrun'. cbn [emit trace]. rewrite Htrace'.
    cbn [emit trace]. split; [now rewrite <- !app_assoc|].
    rewrite !applied_count_app, Happlied', Hevl', Hevs2'. reflexivity.
Qed.

Import AsciiRuntime Office.

(** The done button with a tracker that refuses the update. *)
Lemma done_pressed_refused :
  "cb1" ∈ _processed_callback_ids
            (snd (handle_callback (chat true) (refusing_env monday_1200) done_pressed
                    (startup (chat true) None))).
Proof.
  refine (proj1 (status_button_recorded (chat true) (refusing_env monday_1200)
                   done_pressed (startup (chat true) None) "cb1" "t1" "d" done_action
                   eq_refl eq_refl eq_refl _ _ _ eq_refl eq_refl)).
  - discriminate.
  - vm_compute. discriminate.
  - split; [reflexivity|]. split; [reflexivity|]. exists "s". reflexivity.
Defined.

(** The two-hour button with a tracker that refuses the update. *)
Lemma postpone_pressed_refused :
  _processed_callback_ids
    (snd (handle_callback (chat true) (refusing_env monday_1200) postpone_pressed
            (startup (chat true) None)))
  = _processed_callback_ids (startup (chat true) None).
Proof.
  refine (proj1 (refused_postpone_retried (chat true) (refusing_env monday_1200)
                   postpone_pressed (startup (chat true) None) "t1" "p2"
                   postpone_action eq_refl _ eq_refl eq_refl _)).
  - split; [reflexivity|]. split; [reflexivity|]. exists "s". reflexivity.
  - reflexivity.
Defined.

End ButtonProps.

(** ** Grouping the reminders by chat *)

Module ChatGroupProps.
Import Py Clock ClassifierFacts GroupProps ChatGroups ChatSpec.

Lemma if_decide_ext {A} (P Q : Prop) `{Decision P, Decision Q} (x y : A) :
  (P <-> Q) ->
  (if bool_decide P then x else y) = (if bool_decide Q then x else y).
Proof. intros HPQ. now rewrite (bool_decide_ext P Q HPQ). Qed.

Section Chats.
Context `{Runtime}.
Variable _chat_targets_for_task : ClickUpEngine.ReminderTask -> list string.

Lemma add_targets_spec task chat_ids : forall seen deliveries,
  buckets_ok deliveries ->
  buckets_ok (add_targets task chat_ids seen deliveries)
  /\ forall chat,
       default [] (dict_get (add_targets task chat_ids seen deliveries) chat) =
         default [] (dict_get deliveries chat)
         ++ (if bool_decide (chat <> EmptyString /\ chat ∈ map py_strip chat_ids
                             /\ chat ∉ seen)
             then [task] else []).
Proof.
  induction chat_ids as [|chat_id rest IH]; intros seen deliveries Hok.
  - split; [exact Hok|]. intros chat. cbn [add_targets map].
    rewrite bool_decide_eq_false_2; [now rewrite app_nil_r|].
    intros (_ & Hin & _). inversion Hin.
  - cbn [add_targets map].
    destruct (String.eqb_spec (py_strip chat_id) EmptyString) as [Hempty|Hne];
      cbn [orb].
    { destruct (IH seen deliveries Hok) as [Hok' Hget]. split; [exact Hok'|].
      intros chat. rewrite Hget. f_equal. apply if_decide_ext.
      rewrite elem_of_cons. split; [intros (? & ? & ?); auto|].
      intros (Hc & [->|Hin] & Hs); [contradiction|auto]. }
    destruct (decide (py_strip chat_id ∈ seen)) as [Hseen|Hnew].
    { rewrite bool_decide_eq_true_2 by assumption.
      destruct (IH seen deliveries Hok) as [Hok' Hget]. split; [exact Hok'|].
      intros chat. rewrite Hget. f_equal. apply if_decide_ext.
      rewrite elem_of_cons. split; [intros (? & ? & ?); auto|].
      intros (Hc & [->|Hin] & Hs); [contradiction|auto]. }
    rewrite bool_decide_eq_false_2 by assumption.
    set (c := py_strip chat_id) in *.
    set (d1 := dict_set deliveries c (default [] (dict_get deliveries c) ++ [task])).
    assert (Hok1 : buckets_ok d1).
    { destruct Hok as [Hnd Hbuckets]. split.
      - unfold d1. rewrite dict_set_keys. destruct (dict_has deliveries c) eqn:Hhas;
          [assumption|].
        apply NoDup_app. split; [assumption|]. split; [|apply NoDup_singleton].
        intros x Hx Hx'. apply list_elem_of_singleton in Hx' as ->.
        apply dict_get_keys, dict_has_true in Hx. congruence.
      - intros chat bucket. unfold d1.
        destruct (String.eqb_spec c chat) as [<-|Hneq].
        + rewrite dict_get_set_eq. intros [= <-]. split; [exact Hne|].
          now destruct (default [] _).
        + rewrite dict_get_set_ne by assumption. apply Hbuckets. }
    destruct (IH ({[c]} ∪ seen) d1 Hok1) as [Hok' Hget]. split; [exact Hok'|].
    intros chat. rewrite Hget. unfold d1.
    destruct (String.eqb_spec c chat) as [<-|Hneq].
    + rewrite dict_get_set_eq. cbn [default].
      rewrite bool_decide_eq_false_2
        by (intros (_ & _ & Hout); apply Hout, elem_of_union_l, elem_of_singleton;
            reflexivity).
      rewrite bool_decide_eq_true_2
        by (split; [exact Hne|]; split; [now left|exact Hnew]).
      now rewrite app_nil_r.
    + rewrite dict_get_set_ne by assumption. f_equal. apply if_decide_ext.
      rewrite elem_of_cons, elem_of_union, elem_of_singleton.
      split.
      * intros (Hc & Hin & Hout). split; [exact Hc|]. split; [now right|]. tauto.
      * intros (Hc & [Heq|Hin] & Hout); [congruence|].
        split; [exact Hc|]. split; [exact Hin|]. intros [Heq|Hs]; [congruence|tauto].
Qed.

Lemma group_fold_spec tasks : forall deliveries,
  buckets_ok deliveries ->
  let deliveries' :=
    fold_left (fun deliveries task =>
                 add_targets task (_chat_targets_for_task task) ∅ deliveries)
      tasks deliveries in
  buckets_ok deliveries'
  /\ forall chat,
       default [] (dict_get deliveries' chat) =
         default [] (dict_get deliveries chat)
         ++ List.filter (targets_chat _chat_targets_for_task chat) tasks.
Proof.
  induction tasks as [|task tasks IH]; intros deliveries Hok; cbn [fold_left List.filter].
  - split; [exact Hok|]. intros. now rewrite app_nil_r.
  - destruct (add_targets_spec task (_chat_targets_for_task task) ∅ deliveries Hok)
      as [Hok1 Hget1].
    destruct (IH _ Hok1) as [Hok' Hget']. split; [exact Hok'|].
    intros chat. rewrite Hget', Hget1, <- app_assoc. f_equal.
    unfold targets_chat at 2.
    rewrite (bool_decide_ext
               (chat <> EmptyString
                /\ chat ∈ map py_strip (_chat_targets_for_task task)
                /\ chat ∉ (∅ : gset string))
               (chat <> EmptyString
                /\ chat ∈ map py_strip (_chat_targets_for_task task)))
      by (split; [intros (? & ? & ?); auto|intros [? ?]; repeat split; auto; set_solver]).
    now destruct (bool_decide _).
Qed.

End Chats.

(** X25: the reminders are grouped by chat so that the bucket of a chat is
    the list of the tasks that name the chat among their targets, in the
    order fetched and each task once, however often its targets repeat the
    chat; the chats are pairwise distinct, none is empty and no bucket is
    empty. *)
Theorem group_tasks_by_chat_buckets `{Runtime} _chat_targets_for_task tasks :
  let deliveries := _group_tasks_by_chat _chat_targets_for_task tasks in
  NoDup (map fst deliveries)
  /\ forall chat bucket,
       (chat, bucket) ∈ deliveries <->
       chat <> EmptyString /\ bucket <> []
       /\ bucket = List.filter (targets_chat _chat_targets_for_task chat) tasks.
Proof.
  cbv zeta. unfold _group_tasks_by_chat.
  assert (Hok0 : buckets_ok (@nil (string * list ClickUpEngine.ReminderTask))).
  { split; [constructor|]. intros ? ? [=]. }
  destruct (group_fold_spec _chat_targets_for_task tasks [] Hok0)
    as [[Hnd Hbuckets] Hget].
  split; [exact Hnd|]. intros chat bucket. rewrite (dict_get_elem _ _ _ Hnd).
  specialize (Hget chat). cbn [dict_get default app] in Hget. split.
  - intros Hb. destruct (Hbuckets _ _ Hb) as [Hc Hne]. split; [exact Hc|].
    split; [exact Hne|]. rewrite Hb in Hget. exact Hget.
  - intros (Hc & Hne & ->).
    destruct (dict_get _ chat) as [b|]; cbn in Hget; [now rewrite Hget|].
    now rewrite <- Hget in Hne.
Qed.

End ChatGroupProps.

(** ** The status buttons: codes *)

Module StatusActionProps.
Import Py Clock CallFlow StatusActions CodeSpec.

(** *** Printing a number *)

Lemma digits_decode fuel : forall n acc,
  0 <= n < 10 ^ Z.of_nat fuel ->
  exists k, 0 <= k /\ forall v, decode v (digits fuel n acc) = decode (v * 10 ^ k + n) acc.
Proof.
  induction fuel as [|fuel IH]; intros n acc Hn.
  - exists 0. split; [lia|]. intros v. cbn [digits]. f_equal.
    change (10 ^ Z.of_nat 0) with 1 in Hn. lia.
  - cbn [digits].
    assert (Hdigit : digit_value (ascii_of_nat (48 + Z.to_nat (n mod 10))) = n mod 10).
    { pose proof (Z.mod_pos_bound n 10 ltac:(lia)).
      unfold digit_value. rewrite nat_ascii_embedding by lia. lia. }
    destruct (n <? 10) eqn:Hlt.
    + apply Z.ltb_lt in Hlt. exists 1. split; [lia|]. intros v. cbn [decode].
      rewrite Hdigit. f_equal. rewrite Z.mod_small by lia. lia.
    + apply Z.ltb_ge in Hlt.
      destruct (IH (n / 10) (String (ascii_of_nat (48 + Z.to_nat (n mod 10))) acc))
        as (k & Hk & Hdec).
      { rewrite Nat2Z.inj_succ, Z.pow_succ_r in Hn by lia.
        split; [apply Z.div_pos; lia|].
        apply Z.div_lt_upper_bound; lia. }
      exists (k + 1). split; [lia|]. intros v. rewrite Hdec. cbn [decode].
      rewrite Hdigit. f_equal. rewrite Z.pow_add_r by lia.
      pose proof (Z.div_mod n 10). lia.
Qed.

(** Printing and reading back a number that is not negative. *)
Lemma decode_str_of_int z : 0 <= z -> decode 0 (str_of_int z) = z.
Proof.
  intros Hz. unfold str_of_int. rewrite (proj2 (Z.ltb_ge z 0)) by lia.
  destruct (digits_decode (Z.to_nat (Z.log2 z) + 1) z EmptyString) as (k & _ & Hdec).
  - split; [lia|]. rewrite Nat2Z.inj_add, Z2Nat.id by apply Z.log2_nonneg.
    destruct (Z.eq_dec z 0) as [->|Hne]; [cbn; lia|].
    pose proof (Z.log2_spec z ltac:(lia)) as [_ Hup].
    eapply Z.lt_le_trans; [exact Hup|].
    change (Z.succ (Z.log2 z)) with (Z.log2 z + 1).
    apply Z.pow_le_mono_l. lia.
  - rewrite Hdec. cbn [decode]. lia.
Qed.

Lemma append_cancel (base s t : string) :
  (base ++ s = base ++ t)%string -> s = t.
Proof.
  induction base as [|c base IH]; [auto|].
  change (String c base ++ s)%string with (String c (base ++ s)%string).
  change (String c base ++ t)%string with (String c (base ++ t)%string).
  intros [= Heq]. auto.
Qed.

Lemma append_fixed (base s : string) : (base = base ++ s)%string -> s = EmptyString.
Proof.
  induction base as [|c base IH]; [auto|].
  change (String c base ++ s)%string with (String c (base ++ s)%string).
  intros [= Heq]. auto.
Qed.

(** Two counters give two candidates. *)
Lemma candidate_inj base i j : candidate base i = candidate base j -> i = j.
Proof.
  assert (Hpos : forall k, str_of_int (Z.of_nat (S k)) <> EmptyString).
  { intros k Hk. pose proof (decode_str_of_int (Z.of_nat (S k)) ltac:(lia)) as Hd.
    rewrite Hk in Hd. cbn [decode] in Hd. lia. }
  destruct i as [|i], j as [|j]; cbn [candidate]; intros Heq; [reflexivity| | |].
  - apply append_fixed in Heq. now apply Hpos in Heq.
  - symmetry in Heq. apply append_fixed in Heq. now apply Hpos in Heq.
  - apply append_cancel in Heq.
    pose proof (decode_str_of_int (Z.of_nat (S i)) ltac:(lia)) as Hi.
    pose proof (decode_str_of_int (Z.of_nat (S j)) ltac:(lia)) as Hj.
    rewrite Heq in Hi. lia.
Qed.

(** *** A code that is free *)

Lemma ahead_step base counter used :
  candidate base counter ∈ used ->
  (size (ahead base (S counter) used) < size (ahead base counter used))%nat.
Proof.
  intros Hin. unfold ahead. rewrite seq_S, map_app, list_to_set_app_L. cbn [map].
  rewrite list_to_set_singleton. change (0 + counter)%nat with counter.
  set (passed := list_to_set (map (candidate base) (seq 0 counter)) : gset string).
  assert (Hfresh : candidate base counter ∉ passed).
  { unfold passed. rewrite elem_of_list_to_set, list_elem_of_fmap.
    intros (j & Heq & Hj). apply candidate_inj in Heq. subst j.
    apply elem_of_seq in Hj. lia. }
  assert (Hsplit : used ∖ (passed ∪ {[candidate base counter]})
                   = (used ∖ passed) ∖ {[candidate base counter]})
    by (apply set_eq; intros x; set_solver).
  rewrite Hsplit, size_difference by set_solver. rewrite size_singleton.
  assert (size (used ∖ passed) <> 0)%nat.
  { apply size_non_empty_iff. intros Hempty.
    assert (candidate base counter ∈ used ∖ passed) by set_solver.
    set_solver. }
  lia.
Qed.

Lemma search_finds base used : forall fuel counter,
  (size (ahead base counter used) <= fuel)%nat ->
  exists k, search fuel base counter used = Some (candidate base k)
            /\ candidate base k ∉ used.
Proof.
  induction fuel as [|fuel IH]; intros counter Hsize; cbn [search];
    destruct (decide (candidate base counter ∈ used)) as [Hin|Hout];
    try (rewrite bool_decide_eq_false_2 by assumption; now exists counter);
    rewrite bool_decide_eq_true_2 by assumption;
    pose proof (ahead_step base counter used Hin) as Hstep.
  - lia.
  - apply IH. lia.
Qed.

(** The generated code is new, and it is added to the used codes. *)
Lemma generate_action_code_fresh index used :
  exists c, _generate_action_code index used = Some (c, {[c]} ∪ used) /\ c ∉ used.
Proof.
  unfold _generate_action_code.
  destruct (search_finds ("a" ++ str_of_int index)%string used (size used) 0)
    as (k & -> & Hk).
  - apply subseteq_size. unfold ahead. set_solver.
  - eauto.
Qed.

(** *** The list of actions *)

Section Build.
Context `{Runtime}.
Variable py_title : string -> string.

Lemma codes_ok_add actions used a :
  codes_ok (actions, used) -> code a ∉ used -> key a <> EmptyString ->
  codes_ok (actions ++ [a], {[code a]} ∪ used).
Proof.
  intros (Hnd & Hused & Hkeys) Hnew Hkey. split; [|split]; cbn [fst snd] in *.
  - rewrite map_app. apply NoDup_app. split; [exact Hnd|].
    split; [|apply NoDup_singleton].
    intros c Hc Hc'. apply list_elem_of_singleton in Hc' as ->.
    apply list_elem_of_fmap in Hc as (b & Heq & Hb). apply Hnew. rewrite Heq. auto.
  - intros b Hb. apply elem_of_app in Hb as [Hb|Hb].
    + apply elem_of_union_r. auto.
    + apply list_elem_of_singleton in Hb as ->. apply elem_of_union_l, elem_of_singleton.
      reflexivity.
  - intros b Hb. apply elem_of_app in Hb as [Hb|Hb]; [auto|].
    now apply list_elem_of_singleton in Hb as ->.
Qed.

Lemma add_action_ok idx entry state :
  codes_ok state ->
  exists state', add_action py_title idx entry state = Some state' /\ codes_ok state'.
Proof.
  destruct state as [actions used]. intros Hok.
  assert (Hgen : forall k t copied_from,
            k <> EmptyString ->
            exists state',
              match _generate_action_code idx used with
              | None => None
              | Some (c, used') =>
                  Some (actions ++ [{| code := c; key := k; text := t;
                                       copied := copied_from |}], used')
              end = Some state'
              /\ codes_ok state').
  { intros k t copied_from Hk.
    destruct (generate_action_code_fresh idx used) as (c & -> & Hc).
    eexists. split; [reflexivity|].
    apply (codes_ok_add actions used
             {| code := c; key := k; text := t; copied := copied_from |}); assumption. }
  destruct entry as [s|entry|]; cbn [add_action]; [| |eauto].
  - destruct (py_upper (py_strip s)) as [|c0 k] eqn:Hkey; [eauto|].
    apply Hgen. discriminate.
  - destruct (py_upper (py_strip (first_true _))) as [|c0 k] eqn:Hkey; [eauto|].
    set (t := match e_text entry with
              | Some t => t
              | None => match e_label entry with
                        | Some l => l
                        | None => py_title (String c0 k)
                        end
              end).
    destruct (e_code entry) as [raw_code|]; [|apply Hgen; discriminate].
    destruct (py_strip raw_code) as [|c1 rest] eqn:Hcode; [apply Hgen; discriminate|].
    destruct (decide (String c1 rest ∈ used)) as [Hin|Hout].
    + rewrite bool_decide_eq_true_2 by assumption. apply Hgen. discriminate.
    + rewrite bool_decide_eq_false_2 by assumption. eexists. split; [reflexivity|].
      apply (codes_ok_add actions used
               {| code := String c1 rest; key := String c0 k; text := t;
                  copied := Some entry |}); [assumption|assumption|discriminate].
Qed.

Lemma add_actions_ok raw_actions : forall idx state,
  codes_ok state ->
  exists state', add_actions py_title idx raw_actions state = Some state'
                 /\ codes_ok state'.
Proof.
  induction raw_actions as [|entry rest IH]; intros idx state Hok; cbn [add_actions];
    [eauto|].
  destruct (add_action_ok idx entry state Hok) as (state1 & -> & Hok1).
  apply IH. exact Hok1.
Qed.

End Build.

Lemma status_action_map_lookup actions : forall m : gmap string status_action,
  NoDup (map code actions) ->
  let m' := fold_left (fun m action => <[code action := action]> m) actions m in
  (forall a, a ∈ actions -> m' !! code a = Some a)
  /\ (forall c, c ∉ map code actions -> m' !! c = m !! c).
Proof.
  induction actions as [|a actions IH]; intros m Hnd; cbn [fold_left map].
  - split; [intros a Ha; inversion Ha|reflexivity].
  - cbn [map] in Hnd. apply NoDup_cons in Hnd as [Hnew Hnd].
    destruct (IH (<[code a := a]> m) Hnd) as [Hin Hout]. split.
    + intros b Hb. apply elem_of_cons in Hb as [->|Hb]; [|auto].
      rewrite (Hout _ Hnew). apply lookup_insert_eq.
    + intros c Hc. rewrite not_elem_of_cons in Hc. destruct Hc as [Hne Hc].
      rewrite (Hout _ Hc). now apply lookup_insert_ne.
Qed.

(** X26: the list of status buttons is always built and never empty; the
    codes of the buttons are pairwise distinct and no key is empty, so the
    map from codes to actions holds every action under its own code: a
    button never resolves to the action of another button. *)
Theorem build_status_actions_codes `{Runtime} py_title raw_actions :
  exists actions,
    _build_status_actions py_title raw_actions = Some actions
    /\ actions <> []
    /\ NoDup (map code actions)
    /\ (forall a, a ∈ actions -> key a <> EmptyString)
    /\ (forall a, a ∈ actions -> status_action_map actions !! code a = Some a).
Proof.
  assert (Hmap : forall actions, NoDup (map code actions) ->
            forall a, a ∈ actions -> status_action_map actions !! code a = Some a).
  { intros actions Hnd. apply (status_action_map_lookup actions ∅ Hnd). }
  unfold _build_status_actions.
  destruct (add_actions_ok py_title (default [] raw_actions) 0 ([], ∅))
    as ([actions used] & -> & Hnd & _ & Hkeys).
  { split; [constructor|]. split; intros a Ha; inversion Ha. }
  cbn [fst] in *. destruct actions as [|a actions].
  - assert (Hdefault : NoDup (map code default_actions)).
    { cbn. apply (bool_decide_unpack _). vm_compute. exact I. }
    exists default_actions. split; [reflexivity|]. split; [discriminate|].
    split; [exact Hdefault|]. split; [|now apply Hmap].
    intros a Ha. unfold default_actions in Ha.
    rewrite !elem_of_cons in Ha. destruct Ha as [->|[->|[->|Ha]]];
      [discriminate|discriminate|discriminate|inversion Ha].
  - exists (a :: actions). split; [reflexivity|]. split; [discriminate|].
    split; [exact Hnd|]. split; [exact Hkeys|now apply Hmap].
Qed.

End StatusActionProps.

(** ** Sending the reminders: who gets which task *)

Module SendProps.
Import Py Clock TelegramReminderService ClassifierFacts GroupSpec GroupProps ChatGroups
  ChatSpec ChatGroupProps Reminders.

Lemma filter_enabled tasks : List.filter _channel_enabled_telegram tasks = tasks.
Proof. induction tasks as [|task tasks IH]; [reflexivity|]. cbn. now rewrite IH. Qed.

Lemma task_messages_chat chat_id tasks : forall ordinal m,
  m ∈ task_messages chat_id ordinal tasks ->
  exists task o, m = MsgTask chat_id task o /\ task ∈ tasks.
Proof.
  induction tasks as [|task tasks IH]; intros ordinal m Hin; [inversion Hin|].
  cbn [task_messages] in Hin. apply elem_of_cons in Hin as [->|Hin].
  - exists task, ordinal. split; [reflexivity|now left].
  - destruct (IH _ _ Hin) as (t & o & -> & Ht). exists t, o. split; [reflexivity|now right].
Qed.

Lemma task_messages_all chat_id tasks task : forall ordinal,
  task ∈ tasks -> exists o, MsgTask chat_id task o ∈ task_messages chat_id ordinal tasks.
Proof.
  induction tasks as [|t tasks IH]; intros ordinal Hin; [inversion Hin|].
  cbn [task_messages]. apply elem_of_cons in Hin as [->|Hin].
  - exists ordinal. now left.
  - destruct (IH (S ordinal) Hin) as [o Ho]. exists o. now right.
Qed.

Section Send.
Context `{Runtime}.
Variable _chat_targets_for_task : ClickUpEngine.ReminderTask -> list string.
Variable delivers : message -> bool.

Lemma dispatch_messages_chat chat_id tasks m :
  m ∈ dispatch_messages delivers chat_id tasks ->
  chat_of m = chat_id
  /\ forall c task o, m = MsgTask c task o -> task ∈ tasks.
Proof.
  unfold dispatch_messages. destruct tasks as [|t tasks].
  { intros Hin. apply list_elem_of_singleton in Hin as ->. split; [reflexivity|].
    discriminate. }
  destruct (delivers _).
  - intros Hin. apply elem_of_cons in Hin as [->|Hin]; [split; [reflexivity|discriminate]|].
    destruct (task_messages_chat _ _ _ _ Hin) as (task & o & -> & Ht).
    split; [reflexivity|]. now intros c task' o' [= _ <- _].
  - intros Hin. apply list_elem_of_singleton in Hin as ->. split; [reflexivity|].
    discriminate.
Qed.

Lemma dispatch_messages_all chat_id tasks task :
  task ∈ tasks -> (forall n, delivers (MsgPreface chat_id n) = true) ->
  exists o, MsgTask chat_id task o ∈ dispatch_messages delivers chat_id tasks.
Proof.
  intros Hin Hsent. unfold dispatch_messages. destruct tasks as [|t tasks];
    [inversion Hin|].
  rewrite Hsent. destruct (task_messages_all chat_id (t :: tasks) task 1 Hin) as [o Ho].
  exists o. now right.
Qed.

(** The messages of the loop over the deliveries. *)
Lemma dispatch_fold deliveries : forall state,
  snd (fold_left (fun state d => _dispatch_tasks_to_chat delivers (fst d) (snd d) state)
         deliveries state)
  = snd state
    ++ concat (map (fun d => match fst d with
                             | EmptyString => []
                             | chat_id => dispatch_messages delivers chat_id (snd d)
                             end) deliveries).
Proof.
  induction deliveries as [|d deliveries IH]; intros state; cbn [fold_left map concat].
  - now rewrite app_nil_r.
  - rewrite IH. unfold _dispatch_tasks_to_chat.
    destruct (fst d); cbn [snd]; [reflexivity|]. now rewrite <- app_assoc.
Qed.

(** The buckets of the grouping. *)
Lemma grouped_bucket tasks :
  let grouped := _group_tasks_by_chat _chat_targets_for_task tasks in
  (forall chat, default [] (dict_get grouped chat)
                = List.filter (targets_chat _chat_targets_for_task chat) tasks)
  /\ (forall chat bucket,
        (chat, bucket) ∈ grouped <->
        bucket <> []
        /\ bucket = List.filter (targets_chat _chat_targets_for_task chat) tasks).
Proof.
  cbv zeta. unfold _group_tasks_by_chat.
  assert (Hok0 : buckets_ok (@nil (string * list ClickUpEngine.ReminderTask))).
  { split; [constructor|]. intros ? ? [=]. }
  destruct (group_fold_spec _chat_targets_for_task tasks [] Hok0)
    as [[Hnd Hbuckets] Hget].
  split; [exact Hget|]. intros chat bucket. rewrite (dict_get_elem _ _ _ Hnd).
  specialize (Hget chat). cbn [dict_get default app] in Hget. split.
  - intros Hb. destruct (Hbuckets _ _ Hb) as [_ Hne]. split; [exact Hne|].
    rewrite Hb in Hget. exact Hget.
  - intros (Hne & ->).
    destruct (dict_get _ chat) as [b|]; cbn in Hget; [now rewrite Hget|].
    now rewrite <- Hget in Hne.
Qed.

Lemma targets_chat_filter chat task tasks :
  task ∈ List.filter (targets_chat _chat_targets_for_task chat) tasks <->
  task ∈ tasks /\ targets_chat _chat_targets_for_task chat task = true.
Proof. rewrite !list_elem_of_In. apply List.filter_In. Qed.

Lemma targets_chat_named chat task :
  targets_chat _chat_targets_for_task chat task = true -> chat <> EmptyString.
Proof. unfold targets_chat. intros Ht. now apply bool_decide_eq_true in Ht as [? _]. Qed.

End Send.

(** X27: who gets which task.  A task message goes only to a chat with a
    name and is for a task that was fetched as pending; unless one chat was
    asked for together with the broadcast flag, the chat is one of the
    targets of the task.  When a chat was asked for, every message goes to
    the chat resolved from it.  When none was asked for, every pending task
    is sent to each of its target chats, provided the preface to that chat
    could be sent. *)
Theorem send_reminders_targets `{Runtime} _chat_targets_for_task delivers st e chat_id
    limit broadcast_all cs :
  let pending := fetch_pending_tasks st e limit in
  let msgs :=
    snd (snd (send_reminders _chat_targets_for_task delivers st e chat_id limit
                broadcast_all cs)) in
  (forall chat task ordinal,
     MsgTask chat task ordinal ∈ msgs ->
     chat <> EmptyString /\ task ∈ pending
     /\ ((is_Some chat_id /\ broadcast_all = true)
         \/ targets_chat _chat_targets_for_task chat task = true))
  /\ (is_Some chat_id ->
      forall m, m ∈ msgs -> fst (_resolve_target_chat chat_id cs) = Some (chat_of m))
  /\ (chat_id = None ->
      forall chat task,
        task ∈ pending -> targets_chat _chat_targets_for_task chat task = true ->
        (forall n, delivers (MsgPreface chat n) = true) ->
        exists ordinal, MsgTask chat task ordinal ∈ msgs).
Proof.
  cbv zeta. unfold send_reminders. rewrite filter_enabled.
  set (pending := fetch_pending_tasks st e limit).
  destruct (grouped_bucket _chat_targets_for_task pending) as [Hget Hgrouped].
  destruct chat_id as [c|].
  - destruct (_resolve_target_chat (Some c) cs) as [[[|c0 target]|] cs1];
      cbn [fst snd];
      try (split; [intros ? ? ? Hin; inversion Hin|];
           split; [intros _ ? Hin; inversion Hin|discriminate]).
    destruct broadcast_all; unfold _dispatch_tasks_to_chat; cbn [fst snd app].
    + split; [|split; [|discriminate]].
      * intros chat task ordinal Hin.
        destruct (dispatch_messages_chat delivers _ _ _ Hin) as [Hchat Htask].
        cbn [chat_of] in Hchat. subst chat. split; [discriminate|].
        split; [exact (Htask _ _ _ eq_refl)|]. left. split; [eauto|reflexivity].
      * intros _ m Hin. destruct (dispatch_messages_chat delivers _ _ _ Hin) as [-> _].
        reflexivity.
    + rewrite Hget. split; [|split; [|discriminate]].
      * intros chat task ordinal Hin.
        destruct (dispatch_messages_chat delivers _ _ _ Hin) as [Hchat Htask].
        cbn [chat_of] in Hchat. subst chat. split; [discriminate|].
        pose proof (Htask _ _ _ eq_refl) as Ht.
        apply targets_chat_filter in Ht as [Ht Htarget]. split; [exact Ht|now right].
      * intros _ m Hin. destruct (dispatch_messages_chat delivers _ _ _ Hin) as [-> _].
        reflexivity.
  - set (grouped := _group_tasks_by_chat _chat_targets_for_task pending) in *.
    set (deliveries :=
           List.filter (fun d => nonempty (snd d))
             (map (fun d => (fst d, List.filter _channel_enabled_telegram (snd d)))
                grouped)).
    assert (Hdel : forall chat bucket,
              (chat, bucket) ∈ deliveries <->
              bucket <> []
              /\ bucket = List.filter (targets_chat _chat_targets_for_task chat) pending).
    { intros chat bucket. unfold deliveries.
      rewrite list_elem_of_In, List.filter_In, <- list_elem_of_In, list_elem_of_fmap.
      cbn [snd]. split.
      - intros [([chat' bucket'] & Heq & Hin) _]. cbn [fst snd] in Heq.
        rewrite filter_enabled in Heq. injection Heq as -> ->. now apply Hgrouped.
      - intros Hb. split.
        + exists (chat, bucket). cbn [fst snd]. rewrite filter_enabled.
          split; [reflexivity|now apply Hgrouped].
        + destruct Hb as [Hne _]. now destruct bucket. }
    assert (Hmsgs : forall m,
              m ∈ concat (map (fun d => match fst d with
                                        | EmptyString => []
                                        | chat_id => dispatch_messages delivers chat_id (snd d)
                                        end) deliveries) <->
              exists chat bucket,
                (chat, bucket) ∈ deliveries /\ chat <> EmptyString
                /\ m ∈ dispatch_messages delivers chat bucket).
    { intros m. rewrite list_elem_of_In, List.in_concat. split.
      - intros (l & Hl & Hm). apply List.in_map_iff in Hl as ([chat bucket] & <- & Hd).
        cbn [fst snd] in Hm. exists chat, bucket. rewrite !list_elem_of_In.
        split; [exact Hd|]. destruct chat; [inversion Hm|]. split; [discriminate|exact Hm].
      - intros (chat & bucket & Hd & Hne & Hm). eexists. split.
        + apply List.in_map_iff. exists (chat, bucket). split; [reflexivity|].
          now apply list_elem_of_In.
        + cbn [fst snd]. destruct chat; [contradiction|]. now apply list_elem_of_In. }
    assert (Hall : forall m,
              m ∈ snd (snd (match pending with
                            | [] => (Some [], (cs, []))
                            | _ =>
                                match deliveries with
                                | [] => (Some [], (cs, []))
                                | _ =>
                                    (Some pending,
                                     fold_left
                                       (fun state d =>
                                          _dispatch_tasks_to_chat delivers (fst d) (snd d)
                                            state)
                                       deliveries (cs, []))
                                end
                            end)) <->
              exists chat bucket,
                (chat, bucket) ∈ deliveries /\ chat <> EmptyString
                /\ m ∈ dispatch_messages delivers chat bucket).
    { intros m. rewrite <- Hmsgs.
      assert (Hempty : deliveries = [] ->
                m ∈ @nil message <->
                m ∈ concat (map (fun d => match fst d with
                                          | EmptyString => []
                                          | chat_id =>
                                              dispatch_messages delivers chat_id (snd d)
                                          end) deliveries)).
      { intros ->. reflexivity. }
      destruct pending as [|t ts] eqn:Hp.
      - apply Hempty. unfold deliveries, grouped. reflexivity.
      - destruct deliveries as [|d ds] eqn:Hd; [now apply Hempty|].
        cbn [snd]. rewrite dispatch_fold. reflexivity. }
    split; [|split; [intros [? [=]]|]].
    + intros chat task ordinal Hin. apply Hall in Hin as (c & bucket & Hd & Hne & Hin).
      destruct (dispatch_messages_chat delivers _ _ _ Hin) as [Hchat Htask].
      cbn [chat_of] in Hchat. subst c. split; [exact Hne|].
      apply Hdel in Hd as [_ ->]. pose proof (Htask _ _ _ eq_refl) as Ht.
      apply targets_chat_filter in Ht as [Ht Htarget]. split; [exact Ht|now right].
    + intros _ chat task Htask Htarget Hsent.
      assert (Hin : task ∈ List.filter (targets_chat _chat_targets_for_task chat) pending)
        by (apply targets_chat_filter; now split).
      destruct (dispatch_messages_all delivers chat _ task Hin Hsent) as [o Ho].
      exists o. apply Hall. eexists chat, _. split; [|split; [|exact Ho]].
      * apply Hdel. split; [|reflexivity]. intros Hnil. rewrite Hnil in Hin. inversion Hin.
      * exact (targets_chat_named _ _ _ Htarget).
Qed.

End SendProps.

(** ** The default chat and its cache *)

Module DefaultChatProps.
Import Py Clock TelegramReminderService Reminders.

(** X29: the default chat is set once.  When the service has no default
    chat, [_ensure_default_chat] makes the given chat the default and, if
    the cache file can be written, caches it: the chat is then what
    [_resolve_target_chat] answers without an override, the cache reads
    back as the chat id stripped (as nothing if that is empty), and a
    later [_ensure_default_chat] for any chat changes nothing. *)
Theorem default_chat_set_once `{Runtime} chat_id cs :
  chat_id <> EmptyString -> truthy (default_chat_id cs) = false ->
  let cs' := _ensure_default_chat chat_id cs in
  _resolve_target_chat None cs' = (Some chat_id, cs')
  /\ (chat_cache_writable cs = true ->
      _load_cached_chat_id cs' =
        match py_strip chat_id with
        | EmptyString => None
        | value => Some value
        end)
  /\ (chat_cache_writable cs = false -> chat_cache cs' = chat_cache cs)
  /\ (forall other, _ensure_default_chat other cs' = cs').
Proof.
  intros Hne Hnone. cbv zeta.
  assert (Hset : _ensure_default_chat chat_id cs
                 = {| default_chat_id := Some chat_id;
                      chat_cache := if chat_cache_writable cs then Some chat_id
                                    else chat_cache cs;
                      chat_cache_writable := chat_cache_writable cs |}).
  { unfold _ensure_default_chat, _persist_chat_id. rewrite Hnone.
    cbn [chat_cache_writable default_chat_id chat_cache].
    now destruct (chat_cache_writable cs). }
  rewrite Hset. destruct chat_id as [|c rest]; [contradiction|].
  split; [reflexivity|]. split; [|split].
  - intros Hw. rewrite Hw. reflexivity.
  - intros Hw. rewrite Hw. reflexivity.
  - intros other. reflexivity.
Qed.

Import AsciiRuntime.

(** A first chat with a cache that can be written. *)
Lemma first_chat_becomes_default :
  _resolve_target_chat None
    (_ensure_default_chat "100"
       {| default_chat_id := None; chat_cache := None; chat_cache_writable := true |})
  = (Some "100",
     _ensure_default_chat "100"
       {| default_chat_id := None; chat_cache := None; chat_cache_writable := true |}).
Proof.
  refine (proj1 (default_chat_set_once "100"
                   {| default_chat_id := None; chat_cache := None;
                      chat_cache_writable := true |} _ eq_refl)).
  discriminate.
Defined.

End DefaultChatProps.

(** ** The statuses behind the buttons *)

Module StatusMappingProps.
Import Py Clock StatusActions StatusMapping.

Lemma setdefault_keeps (mapping : gmap string string) k v k' :
  is_Some (mapping !! k') -> setdefault mapping k v !! k' = mapping !! k'.
Proof.
  intros Hk'. unfold setdefault. destruct (mapping !! k) eqn:Hk; [reflexivity|].
  rewrite lookup_insert_ne; [reflexivity|]. intros ->. rewrite Hk in Hk'.
  now destruct Hk'.
Qed.

Lemma setdefault_has (mapping : gmap string string) k v :
  is_Some (setdefault mapping k v !! k).
Proof.
  unfold setdefault. destruct (mapping !! k) eqn:Hk; [rewrite Hk; eauto|].
  rewrite lookup_insert_eq. eauto.
Qed.

(** A loop of [setdefault] keeps what is there, gives a value to each of
    its keys, and touches no other key. *)
Lemma setdefault_fold items : forall mapping : gmap string string,
  let mapping' :=
    fold_left (fun mapping item => setdefault mapping (fst item) (snd item))
      items mapping in
  (forall k, is_Some (mapping !! k) -> mapping' !! k = mapping !! k)
  /\ (forall k, k ∈ map fst items -> is_Some (mapping' !! k))
  /\ (forall k, k ∉ map fst items -> mapping' !! k = mapping !! k).
Proof.
  induction items as [|[k0 v0] items IH]; intros mapping; cbn [fold_left map fst snd].
  - split; [auto|]. split; [intros k Hk; inversion Hk|auto].
  - destruct (IH (setdefault mapping k0 v0)) as (Hkeep & Hhas & Hother).
    split; [|split].
    + intros k Hk. rewrite Hkeep; rewrite setdefault_keeps; auto.
    + intros k Hk. apply elem_of_cons in Hk as [->|Hk]; [|auto].
      rewrite Hkeep by apply setdefault_has. apply setdefault_has.
    + intros k Hk. rewrite not_elem_of_cons in Hk. destruct Hk as [Hne Hk].
      rewrite (Hother _ Hk). unfold setdefault.
      destruct (mapping !! k0); [reflexivity|]. now apply lookup_insert_ne.
Qed.

Section Mapping.
Context `{Runtime}.
Variable py_lower : string -> string.

Lemma with_action_keys_fold actions : forall mapping : gmap string string,
  let mapping' := with_action_keys py_lower actions mapping in
  (forall k, is_Some (mapping !! k) -> mapping' !! k = mapping !! k)
  /\ (forall a, a ∈ actions -> is_Some (mapping' !! key a))
  /\ (forall k, k ∉ map key actions -> mapping' !! k = mapping !! k).
Proof.
  unfold with_action_keys.
  induction actions as [|a0 actions IH]; intros mapping; cbn [fold_left map].
  - split; [auto|]. split; [intros a Ha; inversion Ha|auto].
  - set (step := match mapping !! key a0 with
                 | Some _ => mapping
                 | None => <[key a0 := py_lower (replace_underscores (key a0))]> mapping
                 end).
    assert (Hstep : (forall k, is_Some (mapping !! k) -> step !! k = mapping !! k)
                    /\ is_Some (step !! key a0)
                    /\ (forall k, k <> key a0 -> step !! k = mapping !! k)).
    { unfold step. destruct (mapping !! key a0) eqn:Ha0.
      - split; [auto|]. split; [rewrite Ha0; eauto|auto].
      - split; [|split].
        + intros k Hk. rewrite lookup_insert_ne; [reflexivity|].
          intros <-. rewrite Ha0 in Hk. now destruct Hk.
        + rewrite lookup_insert_eq. eauto.
        + intros k Hk. now rewrite lookup_insert_ne. }
    destruct Hstep as (Hs1 & Hs2 & Hs3).
    destruct (IH step) as (Hkeep & Hhas & Hother). split; [|split].
    + intros k Hk. rewrite Hkeep; rewrite Hs1; auto.
    + intros a Ha. apply elem_of_cons in Ha as [->|Ha]; [|auto].
      rewrite Hkeep by exact Hs2. exact Hs2.
    + intros k Hk. rewrite not_elem_of_cons in Hk. destruct Hk as [Hne Hk].
      rewrite (Hother _ Hk). now apply Hs3.
Qed.

End Mapping.

(** X28: after start-up every label of the defaults and every key of a
    button has a status in the mapping; a status that the configuration
    gives is never replaced, neither by a default nor by the name derived
    from a button; and a key that is neither configured, nor a default
    label, nor the key of a button has none. *)
Theorem status_mapping_complete `{Runtime} py_lower section actions :
  let mapping := with_action_keys py_lower actions (_build_status_mapping section) in
  (forall label, label ∈ map fst (default_statuses section) -> is_Some (mapping !! label))
  /\ (forall a, a ∈ actions -> is_Some (mapping !! key a))
  /\ (forall k v, configured_mapping section !! k = Some v -> mapping !! k = Some v)
  /\ (forall k,
        configured_mapping section !! k = None ->
        k ∉ map fst (default_statuses section) -> k ∉ map key actions ->
        mapping !! k = None).
Proof.
  cbv zeta. unfold _build_status_mapping.
  destruct (setdefault_fold (default_statuses section) (configured_mapping section))
    as (Hkeep1 & Hhas1 & Hother1).
  match goal with |- context [with_action_keys py_lower actions ?m] =>
    destruct (with_action_keys_fold py_lower actions m) as (Hkeep2 & Hhas2 & Hother2)
  end.
  split; [|split; [exact Hhas2|split]].
  - intros label Hlabel. rewrite Hkeep2; auto.
  - intros k v Hk. rewrite Hkeep2; rewrite Hkeep1; rewrite ?Hk; eauto.
  - intros k Hk Hd Ha. now rewrite (Hother2 _ Ha), (Hother1 _ Hd).
Qed.

End StatusMappingProps.
